(** * NSA agricultural intelligence: data fusion engine and NASA data manager

    A shallow embedding of
      - services/data-fusion-engine/models.py        (Module Models)
      - services/data-fusion-engine/fusion_engine.py (Module Engine)
      - services/data-fusion-engine/main.py          (Module Main)
      - services/nasa-data-ingest/nasa_manager.py    (Module NasaManager)
    followed by concrete inputs (Module Examples) and by the properties of
    the acquisition-and-fusion core (from [NumFacts] on).

    Conventions of the embedding.
      - A Python float is an exact rational (Q); equalities between computed
        numbers are stated with [==] (Qeq).  Rounding is not modelled.
      - A Python dict keyed by strings is a [gmap string _]; [d.get(k, v)] is
        [default v (d !! k)].
      - A raised exception is the [Raise] case of [result].
      - [np.random] is an explicit stream of unit samples that is threaded
        through the code that draws from it. *)

From Stdlib Require Import QArith Qminmax Lqa Lia String Ascii Qround.
From Stdlib Require Reals Qreals.
From stdpp Require Import gmap strings list fin_maps.

(** ** Python exceptions and the error monad *)

Inductive pyexc : Type :=
  | AttributeError (attr : string)
  | NameError (name : string)
  | KeyError (key : string)
  | ZeroDivisionError
  | ValueError (msg : string)
  | OverflowError
  | ValidationError (fields : list string)
  | FetchError (attempt : nat).

Inductive result (A : Type) : Type :=
  | Ok (a : A)
  | Raise (e : pyexc).
Arguments Ok {A} a.
Arguments Raise {A} e.

Definition rbind {A B} (r : result A) (k : A -> result B) : result B :=
  match r with
  | Ok a => k a
  | Raise e => Raise e
  end.

#[global] Instance result_ret : MRet result := @Ok.
#[global] Instance result_bind : MBind result :=
  fun A B k r => rbind r k.

Definition is_ok {A} (r : result A) : bool :=
  match r with Ok _ => true | Raise _ => false end.

(** ** Numbers *)

Module Num.
Local Open Scope Q_scope.

Definition Qltb (x y : Q) : bool := negb (Qle_bool y x).
Definition Qgtb (x y : Q) : bool := Qltb y x.
Definition Qgeb (x y : Q) : bool := Qle_bool y x.
Definition Qneqb (x y : Q) : bool := negb (Qeq_bool x y).

(** [abs(x)] *)
Definition pyabs (x : Q) : Q := Qabs.Qabs x.

(** [x / y]: Python raises ZeroDivisionError on a zero divisor. *)
Definition pydiv (x y : Q) : result Q :=
  if Qeq_bool y 0 then Raise ZeroDivisionError else Ok (x / y).

(** [float(n)] of an int [n], the conversion a product [n * 5.0] starts
    with.  The doubles end at 2 ^ 1024 - 2 ^ 971; an int that rounds to
    2 ^ 1024, that is one of absolute value 2 ^ 1024 - 2 ^ 970 or more,
    raises OverflowError. *)
Definition float_of_int (n : Z) : result Q :=
  if (Z.abs n <? 2 ^ 1024 - 2 ^ 970)%Z then Ok (inject_Z n)
  else Raise OverflowError.

(** [sum(xs)] *)
Definition pysum (xs : list Q) : Q := fold_left Qplus xs 0.

(** [int(x)] truncates toward zero. *)
Definition pyint (x : Q) : Z := Z.quot (Qnum x) (Zpos (Qden x)).

Definition unit_interval (x : Q) : Prop := 0 <= x <= 1.
End Num.
Export Num.

(** ** models.py *)

Module Models.
Local Open Scope Q_scope.

(** The names bound in the module namespace of models.py once it is
    imported: its four import lines and its class statements. *)
Definition module_globals : list string :=
  [ "BaseModel"; "Field"; "Dict"; "List"; "Optional"; "Any"; "datetime";
    "Enum"; "GeoLocation"; "DateRange"; "FusionRequest"; "USMI"; "AWLI";
    "PAOI"; "FusionResponse"; "CropRecommendation"; "MetricsHistory" ]%string.

(** Evaluating a global name inside a method of models.py. *)
Definition load_global (name : string) : result unit :=
  if bool_decide (name ∈ module_globals) then Ok tt
  else Raise (NameError name).

(** [Field(..., ge=0.0, le=1.0)] *)
Definition ge0_le1 (x : Q) : bool := Qle_bool 0 x && Qle_bool x 1.

(** pydantic validation at construction: the fields whose constraint
    fails are reported together in one ValidationError. *)
Definition validate (checks : list (string * bool)) : result unit :=
  match filter (fun c => c.2 = false) checks with
  | [] => Ok tt
  | bad => Raise (ValidationError (bad.*1))
  end.

(** [list(d.values())] *)
Definition dict_values (d : gmap string Q) : list Q := (map_to_list d).*2.

(** [np.mean(xs)] *)
Definition np_mean (xs : list Q) : Q :=
  pysum xs / inject_Z (Z.of_nat (length xs)).

(** the population variance, [np.var(xs)] *)
Definition np_var (xs : list Q) : Q :=
  np_mean (map (fun x => (x - np_mean xs) * (x - np_mean xs)) xs).

(** [np.std(xs)], a square root: a real number *)
Definition np_std (xs : list Q) : Rdefinitions.R :=
  R_sqrt.sqrt (Rdefinitions.Q2R (np_var xs)).

Record QualityFlags := {
  qf_quality_flag : string;
  qf_data_completeness : Q;
  qf_temporal_coverage : string
}.

Record USMI := {
  usmi_value : Q;
  usmi_confidence : Q;
  usmi_components : gmap string Q;
  usmi_quality_flags : gmap string QualityFlags;
  usmi_recommendations : list string
}.

Definition USMI_init (value confidence : Q) (components : gmap string Q)
    (quality_flags : gmap string QualityFlags)
    (recommendations : list string) : result USMI :=
  _ ← validate [("value", ge0_le1 value);
                ("confidence", ge0_le1 confidence)]%string;
  Ok {| usmi_value := value; usmi_confidence := confidence;
        usmi_components := components;
        usmi_quality_flags := quality_flags;
        usmi_recommendations := recommendations |}.

Definition USMI_get_category (self : USMI) : string :=
  if Qgeb (usmi_value self) 0.8 then "optimal"
  else if Qgeb (usmi_value self) 0.6 then "good"
  else if Qgeb (usmi_value self) 0.4 then "moderate"
  else if Qgeb (usmi_value self) 0.2 then "poor"
  else "critical".

Record AWLI := {
  awli_value : Q;
  awli_crop_type : string;
  awli_water_requirement_status : string;
  awli_components : gmap string Q;
  awli_irrigation_recommendations : list string
}.

Definition AWLI_init (value : Q) (crop_type status : string)
    (components : gmap string Q) (recommendations : list string)
    : result AWLI :=
  _ ← validate [("value", ge0_le1 value)]%string;
  Ok {| awli_value := value; awli_crop_type := crop_type;
        awli_water_requirement_status := status;
        awli_components := components;
        awli_irrigation_recommendations := recommendations |}.

(** [AWLI.get_confidence]: the body names [np], which models.py never
    imports. *)
Definition AWLI_get_confidence (self : AWLI) : result Rdefinitions.R :=
  if bool_decide (size (awli_components self) = 0%nat) then Ok (Rdefinitions.Q2R 0.5)
  else
    _ ← load_global "np";
    Ok (Rbasic_fun.Rmin (Rdefinitions.Q2R 1)
          (Rdefinitions.Rmult (np_std (dict_values (awli_components self)))
                              (Rdefinitions.Q2R 2))).

Definition AWLI_get_irrigation_need (self : AWLI) : string :=
  if Qgeb (awli_value self) 0.7 then "low"
  else if Qgeb (awli_value self) 0.4 then "moderate"
  else "high".

Record ApplicationWindow := {
  optimal_hours : Z;
  next_optimal_time : string;
  avoid_times : string;
  window_confidence : Q
}.

Record PAOI := {
  paoi_value : Q;
  paoi_crop_type : string;
  paoi_target_pest : string;
  paoi_application_window : ApplicationWindow;
  paoi_components : gmap string Q;
  paoi_environmental_impact_score : Q;
  paoi_recommendations : list string
}.

Definition PAOI_init (value : Q) (crop_type target_pest : string)
    (window : ApplicationWindow) (components : gmap string Q)
    (environmental_impact_score : Q) (recommendations : list string)
    : result PAOI :=
  _ ← validate [("value", ge0_le1 value);
                ("environmental_impact_score",
                 ge0_le1 environmental_impact_score)]%string;
  Ok {| paoi_value := value; paoi_crop_type := crop_type;
        paoi_target_pest := target_pest;
        paoi_application_window := window;
        paoi_components := components;
        paoi_environmental_impact_score := environmental_impact_score;
        paoi_recommendations := recommendations |}.

(** [PAOI.get_confidence] names [np] as well. *)
Definition PAOI_get_confidence (self : PAOI) : result Q :=
  if bool_decide (size (paoi_components self) = 0%nat) then Ok 0.5
  else
    _ ← load_global "np";
    Ok (Qmin 1 (np_mean (dict_values (paoi_components self)))).
End Models.

(** ** fusion_engine.py *)

Module Engine.
Import Models.
Local Open Scope Q_scope.

(** One dataset's record in the raw-data map: a dict whose named fields
    hold numbers, except the ['quality_flag'] entry, which holds a string
    when it is there. *)
Record RawRecord := {
  fields : gmap string Q;
  quality_flag : option string
}.

(** [{}] *)
Definition empty_record : RawRecord :=
  {| fields := ∅; quality_flag := None |}.

(** [data.get(key, dflt)] on a numeric field *)
Definition fget (data : RawRecord) (key : string) (dflt : Q) : Q :=
  default dflt (fields data !! key).

(** [raw_data.get(id, {})] *)
Definition dataset (raw_data : gmap string RawRecord) (id : string)
    : RawRecord :=
  default empty_record (raw_data !! id).

(** [bool(data)]: a dict is true when it is not empty. *)
Definition truthy (data : RawRecord) : bool :=
  negb (bool_decide (size (fields data) = 0%nat)) ||
  bool_decide (is_Some (quality_flag data)).

Record CropData := {
  name : string;
  water_requirements : gmap string Q;
  optimal_temperature : Q * Q;
  soil_moisture_optimal : Q * Q;
  pest_susceptibility : gmap string Q;
  phenology_stages : gmap string Z
}.

Definition corn : CropData := {|
  name := "Corn";
  water_requirements :=
    {[ "germination" := 5; "vegetative" := 8; "reproductive" := 12;
       "maturity" := 6 ]};
  optimal_temperature := (18, 27);
  soil_moisture_optimal := (0.3, 0.6);
  pest_susceptibility :=
    {[ "corn_borer" := 0.8; "aphids" := 0.6; "rust" := 0.4 ]};
  phenology_stages :=
    {[ "emergence" := 10%Z; "vegetative" := 45%Z; "reproductive" := 85%Z;
       "maturity" := 120%Z ]}
|}.

Definition wheat : CropData := {|
  name := "Wheat";
  water_requirements :=
    {[ "germination" := 3; "vegetative" := 6; "reproductive" := 8;
       "maturity" := 4 ]};
  optimal_temperature := (15, 25);
  soil_moisture_optimal := (0.25, 0.5);
  pest_susceptibility :=
    {[ "rust" := 0.7; "aphids" := 0.5; "weevils" := 0.6 ]};
  phenology_stages :=
    {[ "emergence" := 7%Z; "vegetative" := 60%Z; "reproductive" := 120%Z;
       "maturity" := 150%Z ]}
|}.

Definition soybean : CropData := {|
  name := "Soybean";
  water_requirements :=
    {[ "germination" := 4; "vegetative" := 7; "reproductive" := 10;
       "maturity" := 5 ]};
  optimal_temperature := (20, 30);
  soil_moisture_optimal := (0.3, 0.55);
  pest_susceptibility :=
    {[ "aphids" := 0.7; "caterpillars" := 0.6; "rust" := 0.5 ]};
  phenology_stages :=
    {[ "emergence" := 8%Z; "vegetative" := 35%Z; "reproductive" := 75%Z;
       "maturity" := 110%Z ]}
|}.

Definition rice : CropData := {|
  name := "Rice";
  water_requirements :=
    {[ "germination" := 8; "vegetative" := 12; "reproductive" := 15;
       "maturity" := 8 ]};
  optimal_temperature := (25, 35);
  soil_moisture_optimal := (0.4, 0.7);
  pest_susceptibility :=
    {[ "brown_plant_hopper" := 0.8; "rice_blast" := 0.7;
       "stem_borer" := 0.6 ]};
  phenology_stages :=
    {[ "emergence" := 12%Z; "vegetative" := 50%Z; "reproductive" := 90%Z;
       "maturity" := 130%Z ]}
|}.

Definition _initialize_crop_databases : gmap string CropData :=
  {[ "corn" := corn; "wheat" := wheat; "soybean" := soybean;
     "rice" := rice ]}.

(** [self.crop_databases], set once in [__init__] *)
Definition crop_databases : gmap string CropData :=
  _initialize_crop_databases.

(** [str.lower()] on the ASCII letters *)
Definition lower_ascii (c : ascii) : ascii :=
  let n := nat_of_ascii c in
  if ((65 <=? n) && (n <=? 90))%nat then ascii_of_nat (n + 32) else c.

Fixpoint lower (s : string) : string :=
  match s with
  | EmptyString => EmptyString
  | String c rest => String (lower_ascii c) (lower rest)
  end.

(** *** Helper methods for data processing *)

Definition _process_smap_surface (data : RawRecord) : Q :=
  fget data "surface_moisture" 0.25.

Definition _process_smap_root_zone (data : RawRecord) : Q :=
  fget data "root_zone_moisture" 0.30.

(** The precipitation dict: [_temporal_normalize] and
    [_calculate_et_deficit] read its ['total'] with [d.get('total', 0.0)],
    so it stays a dict. *)
Definition Precipitation : Type := gmap string Q.

Definition _process_gpm_precipitation (data : RawRecord) : Precipitation :=
  {[ "rate" := fget data "precipitation_rate" 2.0;
     "total" := fget data "precipitation_cal" 20.0;
     "probability" := fget data "probability_of_precipitation" 0.3 ]}.

(** The other dicts the [_process_*] helpers return have fixed keys; they
    are records, and [d.get(k, v)] on a key of the literal is the field. *)
Record Temperature := { day : Q; night : Q; average : Q }.

Definition _process_modis_lst (data : RawRecord) : Temperature :=
  {| day := fget data "day_lst" 30.0;
     night := fget data "night_lst" 15.0;
     average := (fget data "day_lst" 30.0 + fget data "night_lst" 15.0) / 2 |}.

Record Evapotranspiration := { actual : Q; potential : Q; deficit : Q }.

Definition _process_ecostress_et (data : RawRecord) : Evapotranspiration :=
  {| actual := fget data "et_actual" 5.0;
     potential := fget data "et_potential" 8.0;
     deficit :=
       Qmax 0 (fget data "et_potential" 8.0 - fget data "et_actual" 5.0) |}.

Definition normalization_ranges : gmap string (Q * Q) :=
  {[ "soil_moisture" := (0.0, 0.5); "precipitation" := (0.0, 50.0);
     "temperature" := (0.0, 50.0) ]}.

(** The divisor [max_val - min_val] is 0.5, 50 or 1: never zero. *)
Definition _spatial_normalize (value : Q) (data_type : string) : Q :=
  let '(min_val, max_val) :=
    default (0.0, 1.0) (normalization_ranges !! data_type) in
  Qmax 0.0 (Qmin 1.0 ((value - min_val) / (max_val - min_val))).

(** [days] is an int: the product [days * 5.0] converts it to a float
    first. *)
Definition _temporal_normalize (data : Precipitation) (data_type : string)
    (days : Z) : result Q :=
  if bool_decide (data_type = "precipitation") then
    let total := default 0.0 (data !! "total") in
    days_as_float ← float_of_int days;
    let optimal := days_as_float * 5.0 in
    q ← pydiv total optimal;
    Ok (Qmax 0.0 (Qmin 1.0 q))
  else Ok 0.5.

Definition _calculate_temperature_stress (temperature : Temperature) : Q :=
  let avg_temp := average temperature in
  if Qle_bool 20 avg_temp && Qle_bool avg_temp 30 then 1.0
  else if Qltb avg_temp 20 then Qmax 0.0 (avg_temp / 20.0)
  else Qmax 0.0 (1.0 - (avg_temp - 30) / 20.0).

Definition _calculate_et_deficit (et_data : Evapotranspiration)
    (precipitation : Precipitation) : Q :=
  let et_deficit := deficit et_data in
  let precipitation_total := default 0.0 (precipitation !! "total") in
  if Qgtb precipitation_total 0
  then Qmax 0.0 (Qmin 1.0 (et_deficit / precipitation_total))
  else 0.5.

(** The weight [_assess_data_quality] gives one record. *)
Definition quality_weight (data : RawRecord) : Q :=
  match quality_flag data with
  | Some flag =>
      if bool_decide (flag = "good") then 1.0
      else if bool_decide (flag = "marginal") then 0.7
      else 0.4
  | None => 0.8
  end.

(** The loop stores one weight under every key of [raw_data]. *)
Definition _assess_data_quality (raw_data : gmap string RawRecord)
    : gmap string Q :=
  quality_weight <$> raw_data.

(** The loop runs over every entry of [weights]; [components] is not
    read. *)
Definition _propagate_uncertainty (components weights : gmap string Q) : Q :=
  let uncertainties :=
    map (fun weight => (1.0 - weight) * 0.1) (dict_values weights) in
  Qmin 0.5 (pysum uncertainties).

Definition _generate_usmi_recommendations (usmi_value : Q)
    (components : gmap string Q) : list string :=
  if Qltb usmi_value 0.3 then
    [ "Critical soil moisture levels detected";
      "Immediate irrigation recommended";
      "Consider soil moisture monitoring system" ]
  else if Qltb usmi_value 0.5 then
    [ "Below optimal soil moisture";
      "Schedule irrigation within 2-3 days";
      "Monitor soil conditions closely" ]
  else if Qgtb usmi_value 0.8 then
    [ "Excellent soil moisture conditions";
      "No irrigation needed";
      "Continue current management practices" ]
  else [ "Soil moisture within acceptable range" ].

Definition _generate_quality_flags (raw_data : gmap string RawRecord)
    : gmap string QualityFlags :=
  (fun data =>
     {| qf_quality_flag := default "unknown" (quality_flag data);
        qf_data_completeness := if truthy data then 1.0 else 0.0;
        qf_temporal_coverage := "complete" |}) <$> raw_data.

(** The five normalized components of USMI. *)
Definition usmi_components_of (raw_data : gmap string RawRecord)
    : result (gmap string Q) :=
  let smap_surface := _process_smap_surface (dataset raw_data "smap_l3") in
  let smap_root := _process_smap_root_zone (dataset raw_data "smap_l4") in
  let precipitation := _process_gpm_precipitation (dataset raw_data "gpm") in
  let temperature := _process_modis_lst (dataset raw_data "modis_lst") in
  let et_data := _process_ecostress_et (dataset raw_data "ecostress") in
  precipitation_factor ← _temporal_normalize precipitation "precipitation" 7;
  Ok ({[ "surface_moisture" := _spatial_normalize smap_surface "soil_moisture";
         "root_zone_moisture" := _spatial_normalize smap_root "soil_moisture";
         "precipitation_factor" := precipitation_factor;
         "temperature_stress" := _calculate_temperature_stress temperature;
         "et_deficit" := _calculate_et_deficit et_data precipitation ]}
      : gmap string Q).

(** [d[key]] *)
Definition item {V} (d : gmap string V) (key : string) : result V :=
  match d !! key with
  | Some v => Ok v
  | None => Raise (KeyError key)
  end.

(** The weighted sum that is bound to [usmi_value]. *)
Definition usmi_fusion (normalized_components quality_weights : gmap string Q)
    : result Q :=
  surface_moisture ← item normalized_components "surface_moisture";
  root_zone_moisture ← item normalized_components "root_zone_moisture";
  precipitation_factor ← item normalized_components "precipitation_factor";
  temperature_stress ← item normalized_components "temperature_stress";
  et_deficit ← item normalized_components "et_deficit";
  Ok (surface_moisture * 0.35 * default 1.0 (quality_weights !! "smap_l3") +
      root_zone_moisture * 0.25 * default 1.0 (quality_weights !! "smap_l4") +
      precipitation_factor * 0.20 * default 1.0 (quality_weights !! "gpm") +
      temperature_stress * 0.15
        * default 1.0 (quality_weights !! "modis_lst") +
      et_deficit * 0.05 * default 1.0 (quality_weights !! "ecostress")).

(** USMI's uncertainty, the local of that name. *)
Definition usmi_uncertainty (raw_data : gmap string RawRecord)
    : result Q :=
  normalized_components ← usmi_components_of raw_data;
  Ok (_propagate_uncertainty normalized_components
        (_assess_data_quality raw_data)).

Definition compute_unified_soil_moisture_index
    (raw_data : gmap string RawRecord) : result USMI :=
  normalized_components ← usmi_components_of raw_data;
  let quality_weights := _assess_data_quality raw_data in
  usmi_value ← usmi_fusion normalized_components quality_weights;
  let uncertainty :=
    _propagate_uncertainty normalized_components quality_weights in
  let confidence := Qmax 0.0 (1.0 - uncertainty) in
  let recommendations :=
    _generate_usmi_recommendations usmi_value normalized_components in
  USMI_init usmi_value confidence normalized_components
    (_generate_quality_flags raw_data) recommendations.

(** *** Additional helper methods for AWLI *)

Record Groundwater := { anomaly : Q; grace_uncertainty : Q }.

Definition _process_grace_groundwater (data : RawRecord) : Groundwater :=
  {| anomaly := fget data "groundwater_anomaly" 0.0;
     grace_uncertainty := fget data "uncertainty" 2.0 |}.

Record SoilMoisture := { surface : Q; root_zone : Q }.

Definition _process_gldas_soil_moisture (data : RawRecord) : SoilMoisture :=
  {| surface := fget data "surface_moisture" 0.25;
     root_zone := fget data "root_zone_moisture" 0.30 |}.

Record VegetationIndices := { ndvi : Q; evi : Q; phenology_stage : string }.

Definition _process_vegetation_indices (data : RawRecord)
    : VegetationIndices :=
  {| ndvi := fget data "ndvi" 0.5;
     evi := fget data "evi" 0.3;
     phenology_stage := "vegetative" |}.

(** [lst_data] is the raw modis_lst record: its ['average'] field is read,
    25.0 when there is none. *)
Definition _calculate_vegetation_water_stress (ndvi_data : VegetationIndices)
    (lst_data : RawRecord) : Q :=
  let ndvi := ndvi ndvi_data in
  let lst := fget lst_data "average" 25.0 in
  if Qgtb ndvi 0.6 && Qltb lst 30 then 1.0
  else if Qltb ndvi 0.4 || Qgtb lst 35 then 0.0
  else (ndvi - 0.4) / 0.2.

Record Climatology := { mean : Q; std : Q }.

Definition _calculate_precipitation_anomaly (gpm_data : RawRecord)
    (climatology : Climatology) : Q :=
  let current_precip := fget gpm_data "precipitation_cal" 20.0 in
  let historical_mean := mean climatology in
  if Qgtb historical_mean 0 then
    let anomaly := (current_precip - historical_mean) / historical_mean in
    Qmax 0.0 (Qmin 1.0 ((anomaly + 1.0) / 2.0))
  else 0.5.

Definition _get_precipitation_climatology : Climatology :=
  {| mean := 25.0; std := 10.0 |}.

Definition _calculate_potential_et (lst_data gpm_data : RawRecord) : Q :=
  let temperature := fget lst_data "average" 25.0 in
  Qmax 0 (temperature * 0.3).

Definition _safe_divide (numerator denominator : Q) : Q :=
  if Qneqb denominator 0 then numerator / denominator else 0.0.

Definition _analyze_surface_water (landsat_data : RawRecord) : Q :=
  let ndwi := fget landsat_data "ndwi" 0.3 in
  Qmax 0.0 (Qmin 1.0 ndwi).

Definition _get_crop_water_requirements (crop_data : CropData)
    (stage : string) : Q :=
  default 6.0 (water_requirements crop_data !! stage).

Definition _get_crop_water_weights (crop_type : string) : gmap string Q :=
  {[ "groundwater_anomaly" := 0.30; "precipitation_anomaly" := 0.25;
     "vegetation_water_stress" := 0.20; "et_ratio" := 0.15;
     "surface_water_availability" := 0.10 ]}.

Definition _assess_water_requirement_status (awli_value water_needs : Q)
    : string :=
  if Qgeb awli_value 0.7 then "adequate"
  else if Qgeb awli_value 0.4 then "moderate"
  else "critical".

Definition _generate_irrigation_recommendations (awli_value : Q)
    (crop_type : string) : list string :=
  if Qltb awli_value 0.3 then
    [ "Immediate irrigation required";
      "Apply 15-20mm water for " +:+ crop_type;
      "Monitor soil moisture closely" ]
  else if Qltb awli_value 0.5 then
    [ "Irrigation recommended within 2 days";
      "Apply 10-15mm water for " +:+ crop_type;
      "Check weather forecast before irrigation" ]
  else [ "Water levels adequate, continue monitoring" ].

(** [self.crop_databases.get(crop_type.lower(), self.crop_databases['corn'])] *)
Definition crop_lookup (crop_type : string) : result CropData :=
  fallback ← item crop_databases "corn";
  Ok (default fallback (crop_databases !! lower crop_type)).

(** What the attribute [_normalize_groundwater_anomaly] of the engine
    object is.  [compute_agricultural_water_level_indicator] calls
    [self._normalize_groundwater_anomaly(grace_data, gldas_data)], and class
    AgriculturalDataFusionEngine has no method of that name: [as_written]
    is the lookup the source gives.  [Some f] stands for the class
    completed with a body [f]. *)
Definition groundwater_attr : Type :=
  option (Groundwater -> SoilMoisture -> result Q).

Definition as_written : groundwater_attr := None.

Definition call_normalize_groundwater_anomaly (attr : groundwater_attr)
    (grace_data : Groundwater) (gldas_data : SoilMoisture) : result Q :=
  match attr with
  | Some f => f grace_data gldas_data
  | None => Raise (AttributeError "_normalize_groundwater_anomaly")
  end.

(** The locals of the AWLI computation that are bound before the
    components dict is built. *)
Definition awli_water_stress_index (raw_data : gmap string RawRecord) : Q :=
  _calculate_vegetation_water_stress
    (_process_vegetation_indices (dataset raw_data "modis_vegetation"))
    (dataset raw_data "modis_lst").

Definition awli_precipitation_anomaly (raw_data : gmap string RawRecord)
    : Q :=
  _calculate_precipitation_anomaly (dataset raw_data "gpm")
    _get_precipitation_climatology.

Definition awli_et_ratio (raw_data : gmap string RawRecord) : Q :=
  let actual_et := fget (dataset raw_data "ecostress") "et_actual" 5.0 in
  let potential_et :=
    _calculate_potential_et (dataset raw_data "modis_lst")
      (dataset raw_data "gpm") in
  _safe_divide actual_et potential_et.

Definition awli_surface_water (raw_data : gmap string RawRecord) : Q :=
  _analyze_surface_water (dataset raw_data "landsat").

(** [sum(awli_components[key] * crop_weights.get(key, 1.0)
         for key in awli_components.keys())] *)
Definition awli_fusion (awli_components crop_weights : gmap string Q) : Q :=
  pysum (map (fun kv => kv.2 * default 1.0 (crop_weights !! kv.1))
             (map_to_list awli_components)).

Definition compute_agricultural_water_level_indicator
    (attr : groundwater_attr) (raw_data : gmap string RawRecord)
    (crop_type : string) : result AWLI :=
  let grace_data := _process_grace_groundwater (dataset raw_data "grace") in
  let gldas_data :=
    _process_gldas_soil_moisture (dataset raw_data "smap_l4") in
  let ndvi_data :=
    _process_vegetation_indices (dataset raw_data "modis_vegetation") in
  let water_stress_index := awli_water_stress_index raw_data in
  let precipitation_anomaly := awli_precipitation_anomaly raw_data in
  let et_ratio := awli_et_ratio raw_data in
  let surface_water := awli_surface_water raw_data in
  crop_data ← crop_lookup crop_type;
  let crop_water_needs :=
    _get_crop_water_requirements crop_data (phenology_stage ndvi_data) in
  let crop_weights := _get_crop_water_weights crop_type in
  groundwater_anomaly ←
    call_normalize_groundwater_anomaly attr grace_data gldas_data;
  let awli_components : gmap string Q :=
    {[ "groundwater_anomaly" := groundwater_anomaly;
       "precipitation_anomaly" := precipitation_anomaly;
       "vegetation_water_stress" := water_stress_index;
       "et_ratio" := et_ratio;
       "surface_water_availability" := surface_water ]} in
  let awli_value := awli_fusion awli_components crop_weights in
  let water_requirement_status :=
    _assess_water_requirement_status awli_value crop_water_needs in
  let irrigation_recommendations :=
    _generate_irrigation_recommendations awli_value crop_type in
  AWLI_init awli_value crop_type water_requirement_status awli_components
    irrigation_recommendations.

(** *** Randomness

    The state of [np.random] is the stream of unit samples it is going to
    return; a computation that draws from it passes the state on. *)
Definition rng : Type := nat -> Q.

Definition M (A : Type) : Type := rng -> result A * rng.

Definition mret {A} (a : A) : M A := fun s => (Ok a, s).

Definition mbind' {A B} (m : M A) (k : A -> M B) : M B :=
  fun s =>
    match m s with
    | (Ok a, s') => k a s'
    | (Raise e, s') => (Raise e, s')
    end.

#[global] Instance M_ret : MRet M := @mret.
#[global] Instance M_bind : MBind M := fun A B k m => mbind' m k.

(** A computation that draws nothing. *)
Definition lift {A} (r : result A) : M A := fun s => (r, s).

(** [np.random.uniform(low, high)] *)
Definition uniform (low high : Q) : M Q :=
  fun s => (Ok (low + (high - low) * s 0%nat), fun n => s (S n)).

(** *** PAOI helper methods *)

Definition _detect_vegetation_anomalies (vegetation_data : RawRecord) : Q :=
  let ndvi := fget vegetation_data "ndvi" 0.5 in
  let pixel_reliability := fget vegetation_data "pixel_reliability" 0 in
  if Qgtb ndvi 0.6 && Qeq_bool pixel_reliability 0 then 1.0
  else if Qltb ndvi 0.4 || Qgtb pixel_reliability 1 then 0.0
  else ndvi.

Definition _calculate_humidity_proxy (gpm_data temperature_data : RawRecord)
    : result Q :=
  let precip := fget gpm_data "precipitation_cal" 20.0 in
  let temp := fget temperature_data "average" 25.0 in
  q ← pydiv precip (temp * 2);
  Ok (Qmin 1.0 q).

Definition pest_optimal_temps : gmap string Q :=
  {[ "corn_borer" := 25; "aphids" := 20; "rust" := 22 ]}.

Definition _model_pest_favorable_conditions (temperature : RawRecord)
    (humidity : Q) (pest : string) : Q :=
  let temp := fget temperature "average" 25.0 in
  let pest_optimal_temp := default 25 (pest_optimal_temps !! pest) in
  let temp_favorability :=
    Qmax 0.0 (1.0 - pyabs (temp - pest_optimal_temp) / 10.0) in
  (temp_favorability + humidity) / 2.0.

Record Wind := { speed : Q; direction : Q }.

Definition _extract_wind_data (gpm_data : RawRecord) : M Wind :=
  speed ← uniform 2 8;
  direction ← uniform 0 360;
  mret {| speed := speed; direction := direction |}.

Record Forecast := { next_6h : Q; next_24h : Q; forecast_probability : Q }.

Definition _get_precipitation_forecast (gpm_data : RawRecord) : Forecast :=
  {| next_6h := fget gpm_data "precipitation_rate" 2.0 * 6;
     next_24h := fget gpm_data "precipitation_cal" 20.0;
     forecast_probability :=
       fget gpm_data "probability_of_precipitation" 0.3 |}.

Definition _assess_application_weather_suitability (wind : Wind)
    (precip : Forecast) (temp : RawRecord) : Q :=
  let wind_speed := speed wind in
  let precip_prob := forecast_probability precip in
  let temperature := fget temp "average" 25.0 in
  let wind_score := Qmax 0.0 (1.0 - wind_speed / 10.0) in
  let precip_score := 1.0 - precip_prob in
  let temp_score := 1.0 - pyabs (temperature - 25) / 15.0 in
  (wind_score + precip_score + temp_score) / 3.0.

Definition _determine_phenology_stage (vegetation_data : RawRecord)
    (crop_type : string) : string :=
  let ndvi := fget vegetation_data "ndvi" 0.5 in
  if Qltb ndvi 0.3 then "emergence"
  else if Qltb ndvi 0.6 then "vegetative"
  else if Qltb ndvi 0.8 then "reproductive"
  else "maturity".

Definition timing_scores : gmap (string * string) Q :=
  {[ ("vegetative", "corn_borer") := 0.9;
     ("reproductive", "corn_borer") := 0.7;
     ("vegetative", "aphids") := 0.8;
     ("reproductive", "aphids") := 0.6;
     ("vegetative", "rust") := 0.5;
     ("reproductive", "rust") := 0.9 ]}.

Definition _get_pesticide_timing_score (stage pest : string) : Q :=
  default 0.6 (timing_scores !! (stage, pest)).

Record Aerosol := { aod_550 : Q; aod_865 : Q }.

Definition _mock_aerosol_data : M Aerosol :=
  a550 ← uniform 0.1 0.5;
  a865 ← uniform 0.05 0.3;
  mret {| aod_550 := a550; aod_865 := a865 |}.

Definition _calculate_spray_drift_risk (wind : Wind) (aerosol : Aerosol)
    : Q :=
  let wind_speed := speed wind in
  let aod := aod_550 aerosol in
  let wind_risk := Qmin 1.0 (wind_speed / 8.0) in
  let aerosol_risk := Qmin 1.0 (aod / 0.4) in
  (wind_risk + aerosol_risk) / 2.0.

(** [np] is imported in fusion_engine.py; the components dict that is
    passed has five entries, so the mean does not divide by zero. *)
Definition _calculate_optimal_application_window
    (components : gmap string Q) : ApplicationWindow :=
  let base_score := np_mean (dict_values components) in
  {| optimal_hours := Z.max 0 (pyint (24 * base_score));
     next_optimal_time := "06:00-10:00";
     avoid_times := "14:00-18:00";
     window_confidence := base_score |}.

Definition _assess_environmental_impact (components : gmap string Q) : Q :=
  let weather_suitability :=
    default 0.5 (components !! "weather_suitability") in
  let spray_drift_risk :=
    1.0 - default 0.5 (components !! "spray_drift_risk") in
  (weather_suitability + spray_drift_risk) / 2.0.

Definition _generate_pesticide_recommendations (paoi_value : Q)
    (components : gmap string Q) : list string :=
  if Qgtb paoi_value 0.7 then
    [ "Optimal conditions for pesticide application";
      "Proceed with planned application";
      "Monitor weather conditions during application" ]
  else if Qgtb paoi_value 0.4 then
    [ "Moderate conditions for application";
      "Consider waiting for better conditions";
      "Use targeted application methods" ]
  else
    [ "Poor conditions for pesticide application";
      "Postpone application until conditions improve";
      "Consider alternative pest management strategies" ].

(** The weighted sum that is bound to [paoi_value]. *)
Definition paoi_fusion (paoi_components : gmap string Q) : result Q :=
  vegetation_stress ← item paoi_components "vegetation_stress";
  pest_favorable_conditions ←
    item paoi_components "pest_favorable_conditions";
  weather_suitability ← item paoi_components "weather_suitability";
  phenology_timing ← item paoi_components "phenology_timing";
  spray_drift_risk ← item paoi_components "spray_drift_risk";
  Ok (vegetation_stress * 0.30 +
      pest_favorable_conditions * 0.25 +
      weather_suitability * 0.20 +
      phenology_timing * 0.15 +
      spray_drift_risk * 0.10).

(** The components dict of PAOI, from the locals it is built of. *)
Definition paoi_components_of (vegetation_stress pest_conditions
    application_weather phenology_score spray_drift_risk : Q)
    : gmap string Q :=
  {[ "vegetation_stress" := vegetation_stress;
     "pest_favorable_conditions" := pest_conditions;
     "weather_suitability" := application_weather;
     "phenology_timing" := phenology_score;
     "spray_drift_risk" := 1.0 - spray_drift_risk ]}.

Definition compute_pesticide_application_optimization_index
    (raw_data : gmap string RawRecord) (crop_type target_pest : string)
    : M PAOI :=
  let vegetation_data := dataset raw_data "modis_vegetation" in
  let vegetation_stress := _detect_vegetation_anomalies vegetation_data in
  let temperature_data := dataset raw_data "modis_lst" in
  humidity_proxy ←
    lift (_calculate_humidity_proxy (dataset raw_data "gpm")
            temperature_data);
  let pest_conditions :=
    _model_pest_favorable_conditions temperature_data humidity_proxy
      target_pest in
  wind_data ← _extract_wind_data (dataset raw_data "gpm");
  let precipitation_forecast :=
    _get_precipitation_forecast (dataset raw_data "gpm") in
  let application_weather :=
    _assess_application_weather_suitability wind_data
      precipitation_forecast temperature_data in
  let phenology_stage :=
    _determine_phenology_stage vegetation_data crop_type in
  let phenology_score :=
    _get_pesticide_timing_score phenology_stage target_pest in
  aerosol_data ← _mock_aerosol_data;
  let spray_drift_risk :=
    _calculate_spray_drift_risk wind_data aerosol_data in
  let paoi_components :=
    paoi_components_of vegetation_stress pest_conditions
      application_weather phenology_score spray_drift_risk in
  paoi_value ← lift (paoi_fusion paoi_components);
  let application_window :=
    _calculate_optimal_application_window paoi_components in
  let environmental_impact_score :=
    _assess_environmental_impact paoi_components in
  let recommendations :=
    _generate_pesticide_recommendations paoi_value paoi_components in
  lift (PAOI_init paoi_value crop_type target_pest application_window
          paoi_components environmental_impact_score recommendations).

(** *** Additional methods for the API *)

(** [list(set(xs))]: the elements of [xs], each once, in the order the
    set iterates them.  That order follows the hashes of the strings,
    which Python draws anew for every interpreter process: a [SetOrder]
    is the order of one process. *)
Record SetOrder := {
  list_set : list string -> list string;
  list_set_NoDup : ∀ xs, NoDup (list_set xs);
  list_set_elem_of : ∀ xs x, x ∈ list_set xs <-> x ∈ xs
}.

Definition generate_integrated_recommendations (order : SetOrder)
    (usmi : USMI) (awli : AWLI) (paoi : PAOI) : list string :=
  let recommendations :=
    usmi_recommendations usmi ++ awli_irrigation_recommendations awli ++
    paoi_recommendations paoi in
  let recommendations :=
    if Qltb (usmi_value usmi) 0.4 && Qltb (awli_value awli) 0.4 then
      recommendations ++
      [ "CRITICAL: Both soil moisture and water levels are low - immediate action required" ]
    else if Qgtb (paoi_value paoi) 0.7 && Qgtb (usmi_value usmi) 0.6 then
      recommendations ++
      [ "Optimal conditions for integrated crop management" ]
    else recommendations in
  list_set order recommendations.

Definition generate_alerts (usmi : USMI) (awli : AWLI) (paoi : PAOI)
    : list string :=
  let alerts := [] in
  let alerts :=
    if Qltb (usmi_value usmi) 0.2
    then alerts ++ [ "CRITICAL: Extremely low soil moisture detected" ]
    else alerts in
  let alerts :=
    if Qltb (awli_value awli) 0.2
    then alerts ++ [ "CRITICAL: Critical water shortage detected" ]
    else alerts in
  let alerts :=
    if Qltb (paoi_value paoi) 0.3
    then alerts ++ [ "WARNING: Poor conditions for pest management" ]
    else alerts in
  alerts.

(** *** Invocations

    One invocation of a computation of the engine starts from whatever
    state [np.random] is in; a computation is deterministic when its
    outcome is the same from every state. *)
Definition invoke {A} (m : M A) (s : rng) : result A := (m s).1.


(** *** The uncertainty as the specification words it

    The datasets whose quality weight enters the weighted sum of USMI, and
    the sum of [(1 - weight) * 0.1] taken over them alone; a source that is
    not in the raw-data map counts with the weight 1.0 it has in the sum. *)
Definition usmi_sources : list string :=
  [ "smap_l3"; "smap_l4"; "gpm"; "modis_lst"; "ecostress" ].

Definition uncertainty_over_sources (raw_data : gmap string RawRecord) : Q :=
  Qmin 0.5
    (pysum (map (fun id =>
                   (1.0 - default 1.0 (_assess_data_quality raw_data !! id))
                   * 0.1)
                usmi_sources)).

(** *** The draws of one PAOI computation

    The wind and the aerosol data the computation draws when it starts in
    the state [s]: the first four unit samples, scaled by [uniform]. *)
Definition wind_of (s : rng) : Wind :=
  {| speed := 2 + (8 - 2) * s 0%nat; direction := 0 + (360 - 0) * s 1%nat |}.

Definition aerosol_of (s : rng) : Aerosol :=
  {| aod_550 := 0.1 + (0.5 - 0.1) * s 2%nat;
     aod_865 := 0.05 + (0.3 - 0.05) * s 3%nat |}.

(** A unit sample of [np.random] is in [0,1]. *)
Definition unit_draws (s : rng) : Prop := ∀ n : nat, 0 <= s n <= 1.

(** *** The input domain of the PAOI bounds

    NDVI is at most 1, the precipitation total is not negative, the
    probability of precipitation is in [0,1], and the average land-surface
    temperature, when the modis_lst record carries one, is between 10 and
    40 degrees (25.0 stands for it otherwise). *)
Definition in_domain (raw_data : gmap string RawRecord) : Prop :=
  fget (dataset raw_data "modis_vegetation") "ndvi" 0.5 <= 1 ∧
  0 <= fget (dataset raw_data "gpm") "precipitation_cal" 20.0 ∧
  0 <= fget (dataset raw_data "gpm") "probability_of_precipitation" 0.3 <= 1 ∧
  10 <= fget (dataset raw_data "modis_lst") "average" 25.0 <= 40.
End Engine.

(** ** main.py of the fusion service *)

Module Main.
Import Models.

Record ConfidenceScores := {
  cs_usmi : Q;
  cs_awli : Rdefinitions.R;
  cs_paoi : Q
}.

(** The [confidence_scores] argument of the FusionResponse that
    [compute_unified_metrics] builds. *)
Definition confidence_scores (usmi : USMI) (awli : AWLI) (paoi : PAOI)
    : result ConfidenceScores :=
  let c_usmi := usmi_confidence usmi in
  c_awli ← AWLI_get_confidence awli;
  c_paoi ← PAOI_get_confidence paoi;
  Ok {| cs_usmi := c_usmi; cs_awli := c_awli; cs_paoi := c_paoi |}.
End Main.

(** ** nasa_manager.py *)

Module NasaManager.

(** What one task observes of the outside world: the attempts it makes
    and the delays it sleeps. *)
Inductive event : Type :=
  | Attempt (dataset_id : string) (attempt : nat)
  | Sleep (seconds : nat).

(** The fetch methods as one task of a bulk call meets them: the outcome
    of the call the task makes in its attempt number [attempt].  Every
    task makes its own calls, so a bulk call has one such source for each
    of its tasks.  The methods of the source return mock records and
    never raise ([mock_source]); a source whose fetches can fail is any
    other value of this record. *)
Record DataSource (Payload : Type) := {
  _fetch_smap_soil_moisture : string -> nat -> result Payload;
  _fetch_modis_vegetation : nat -> result Payload;
  _fetch_modis_lst : nat -> result Payload;
  _fetch_gpm_precipitation : nat -> result Payload;
  _fetch_ecostress_data : nat -> result Payload;
  _fetch_grace_groundwater : nat -> result Payload;
  _fetch_landsat_data : nat -> result Payload
}.
Arguments _fetch_smap_soil_moisture {Payload}.
Arguments _fetch_modis_vegetation {Payload}.
Arguments _fetch_modis_lst {Payload}.
Arguments _fetch_gpm_precipitation {Payload}.
Arguments _fetch_ecostress_data {Payload}.
Arguments _fetch_grace_groundwater {Payload}.
Arguments _fetch_landsat_data {Payload}.

(** The dataset ids [_fetch_dataset] dispatches on. *)
Definition known_datasets : list string :=
  [ "smap_l3"; "smap_l4"; "modis_vegetation"; "modis_lst"; "gpm";
    "ecostress"; "grace"; "landsat" ].

Definition max_retries : nat := 3.

Section Acquire.
Context {Payload : Type}.
(** [{}] *)
Variable empty_dict : Payload.
Variable source : DataSource Payload.

(** The body of the [try] block. *)
Definition try_fetch (dataset_id : string) (attempt : nat)
    : result Payload :=
  if bool_decide (dataset_id = "smap_l3") then
    _fetch_smap_soil_moisture source "l3" attempt
  else if bool_decide (dataset_id = "smap_l4") then
    _fetch_smap_soil_moisture source "l4" attempt
  else if bool_decide (dataset_id = "modis_vegetation") then
    _fetch_modis_vegetation source attempt
  else if bool_decide (dataset_id = "modis_lst") then
    _fetch_modis_lst source attempt
  else if bool_decide (dataset_id = "gpm") then
    _fetch_gpm_precipitation source attempt
  else if bool_decide (dataset_id = "ecostress") then
    _fetch_ecostress_data source attempt
  else if bool_decide (dataset_id = "grace") then
    _fetch_grace_groundwater source attempt
  else if bool_decide (dataset_id = "landsat") then
    _fetch_landsat_data source attempt
  else Raise (ValueError ("Unknown dataset: " +:+ dataset_id)).

(** [for attempt in attempts: try: ... except Exception: ...]; every
    exception of the [try] block is caught by the handler, which
    re-raises it in the last attempt and sleeps [2 ** attempt]
    otherwise. *)
Fixpoint retry_loop (dataset_id : string) (attempts : list nat)
    : result Payload * list event :=
  match attempts with
  | [] => (Ok empty_dict, [])
  | attempt :: rest =>
      match try_fetch dataset_id attempt with
      | Ok r => (Ok r, [Attempt dataset_id attempt])
      | Raise e =>
          if bool_decide (attempt = max_retries - 1) then
            (Raise e, [Attempt dataset_id attempt])
          else
            let '(r, trace) := retry_loop dataset_id rest in
            (r, Attempt dataset_id attempt :: Sleep (2 ^ attempt) :: trace)
      end
  end.

(** [max_retries = 3; for attempt in range(max_retries): ...; return {}] *)
Definition _fetch_dataset (dataset_id : string)
    : result Payload * list event :=
  retry_loop dataset_id (seq 0 max_retries).

(** The slot of one gathered result: [None] for an exception. *)
Definition slot (r : result Payload) : option Payload :=
  match r with
  | Ok data => Some data
  | Raise _ => None
  end.

End Acquire.

Section Bulk.
Context {Payload : Type}.
Variable empty_dict : Payload.
(** [sources i] is what the task of the element number [i] of [datasets]
    meets. *)
Variable sources : nat -> DataSource Payload.

(** One task is made for every element of [datasets], a repeated id
    included; [asyncio.gather] with [return_exceptions=True] runs every
    task to its end and hands back results and exceptions alike, in the
    order of [datasets]; then the dict is filled in that order, so the
    last task of an id is the one whose result stays. *)
Definition bulk_data_fetch (datasets : list string)
    : gmap string (option Payload) :=
  let results :=
    imap (fun i dataset => (_fetch_dataset empty_dict (sources i) dataset).1)
         datasets in
  foldl (fun data_results dr => <[dr.1 := slot dr.2]> data_results)
        ∅ (zip datasets results).

(** The traces of the tasks of one bulk fetch, in the order of
    [datasets]. *)
Definition bulk_traces (datasets : list string) : list (list event) :=
  imap (fun i dataset => (_fetch_dataset empty_dict (sources i) dataset).2)
       datasets.
End Bulk.

Definition attempts_made (trace : list event) : nat :=
  foldr (fun e acc => match e with Attempt _ _ => S acc | _ => acc end)
        0%nat trace.

Definition delay_incurred (trace : list event) : nat :=
  foldr (fun e acc => match e with Sleep n => n + acc | _ => acc end) 0 trace.

(** The trace of a task that makes [n + 1] attempts from attempt [k] on:
    it sleeps [2 ^ attempt] after each of them but the last. *)
Fixpoint backoff_trace (dataset_id : string) (k n : nat) : list event :=
  match n with
  | 0 => [Attempt dataset_id k]
  | S n' =>
      Attempt dataset_id k :: Sleep (2 ^ k) :: backoff_trace dataset_id (S k) n'
  end.

(** The fetch methods as the source has them: they return a record and
    never raise. *)
Definition mock_source {Payload} (record : string -> Payload)
    : DataSource Payload :=
  {| _fetch_smap_soil_moisture := fun level _ => Ok (record ("smap_" +:+ level));
     _fetch_modis_vegetation := fun _ => Ok (record "modis_vegetation");
     _fetch_modis_lst := fun _ => Ok (record "modis_lst");
     _fetch_gpm_precipitation := fun _ => Ok (record "gpm_precipitation");
     _fetch_ecostress_data := fun _ => Ok (record "ecostress_et");
     _fetch_grace_groundwater := fun _ => Ok (record "grace_groundwater");
     _fetch_landsat_data := fun _ => Ok (record "landsat_multispectral") |}.
End NasaManager.

(** ** Concrete inputs *)

Module Examples.
Import Models Engine NasaManager.
Local Open Scope Q_scope.

Definition record_of (fs : list (string * Q)) (flag : option string)
    : RawRecord :=
  {| fields := list_to_map fs; quality_flag := flag |}.

(** The eight datasets with the fields and flags the ingest service gives
    them: five carry ['quality_flag': 'good'], three carry no flag. *)
Definition full_raw : gmap string RawRecord :=
  {[ "smap_l3" :=
       record_of [("surface_moisture", 0.25); ("uncertainty", 0.1)]
                 (Some "good");
     "smap_l4" :=
       record_of [("root_zone_moisture", 0.30); ("surface_moisture", 0.2)]
                 (Some "good");
     "modis_lst" :=
       record_of [("day_lst", 30); ("night_lst", 15)] (Some "good");
     "gpm" :=
       record_of [("precipitation_rate", 2); ("precipitation_cal", 20);
                  ("probability_of_precipitation", 0.3)] (Some "good");
     "ecostress" :=
       record_of [("et_actual", 7.8); ("et_potential", 9)] (Some "good");
     "modis_vegetation" :=
       record_of [("ndvi", 0.5); ("evi", 0.3); ("pixel_reliability", 1)] None;
     "grace" :=
       record_of [("groundwater_anomaly", 1.5); ("uncertainty", 2)] None;
     "landsat" := record_of [("ndvi", 0.5); ("ndwi", 0.3)] None ]}.

(** Every dataset flagged good. *)
Definition all_good : gmap string RawRecord :=
  {[ "smap_l3" := record_of [("surface_moisture", 0.25)] (Some "good");
     "gpm" := record_of [("precipitation_cal", 20)] (Some "good") ]}.

(** Flags of every tier. *)
Definition mixed_flags : gmap string RawRecord :=
  {[ "smap_l3" := record_of [("surface_moisture", 0.25)] (Some "good");
     "smap_l4" := record_of [("root_zone_moisture", 0.30)] (Some "marginal");
     "gpm" := record_of [("precipitation_cal", 20)] (Some "poor");
     "grace" := record_of [("groundwater_anomaly", 1.5)] None ]}.

(** A dense canopy on a hot day: NDVI 1 at 32 degrees. *)
Definition hot_canopy : gmap string RawRecord :=
  {[ "modis_vegetation" := record_of [("ndvi", 1)] None;
     "modis_lst" := record_of [("average", 32)] None ]}.



(** Two states of [np.random]: the unit samples are all 0, or all 1/2. *)
Definition draws_low : rng := fun _ => 0.
Definition draws_mid : rng := fun _ => 1 # 2.

(** The record a mock fetch returns is named by its dataset. *)
Definition mock : DataSource string := mock_source (fun name => name).

End Examples.

(** ** fusion_engine.py, continued: the engine's own data source *)

Module MockData.
Import Models Engine.
Local Open Scope Q_scope.

(** [np.random.randint(low, high)]: an integer of [low, high), here the
    one the unit sample points at. *)
Definition randint (low high : Z) : M Q :=
  fun s =>
    (Ok (inject_Z (low + Qfloor (inject_Z (high - low) * s 0%nat))),
     fun n => s (S n)).

(** The unit samples [np.random] returns are in the half-open [0,1). *)
Definition half_open_draws (s : rng) : Prop := ∀ n : nat, 0 <= s n < 1.

(** One branch of the [if dataset == ...] chain of
    [_generate_mock_nasa_data]: the record of a dataset, its values drawn
    in the order of the dict literal; [None] when no branch matches. *)
Definition mock_record (dataset : string) : option (M RawRecord) :=
  if bool_decide (dataset = "smap_l3") then Some (
    surface_moisture ← uniform 0.1 0.4;
    uncertainty ← uniform 0.05 0.15;
    mret {| fields := {[ "surface_moisture" := surface_moisture;
                         "uncertainty" := uncertainty ]};
            quality_flag := Some "good" |})
  else if bool_decide (dataset = "smap_l4") then Some (
    root_zone_moisture ← uniform 0.15 0.35;
    surface_moisture ← uniform 0.12 0.38;
    mret {| fields := {[ "root_zone_moisture" := root_zone_moisture;
                         "surface_moisture" := surface_moisture ]};
            quality_flag := Some "good" |})
  else if bool_decide (dataset = "modis_vegetation") then Some (
    ndvi ← uniform 0.3 0.8;
    evi ← uniform 0.2 0.6;
    pixel_reliability ← randint 0 3;
    mret {| fields := {[ "ndvi" := ndvi; "evi" := evi;
                         "pixel_reliability" := pixel_reliability ]};
            quality_flag := None |})
  else if bool_decide (dataset = "modis_lst") then Some (
    day_lst ← uniform 20 45;
    night_lst ← uniform 5 25;
    mret {| fields := {[ "day_lst" := day_lst; "night_lst" := night_lst ]};
            quality_flag := Some "good" |})
  else if bool_decide (dataset = "gpm") then Some (
    precipitation_rate ← uniform 0 10;
    precipitation_cal ← uniform 0 50;
    mret {| fields := {[ "precipitation_rate" := precipitation_rate;
                         "precipitation_cal" := precipitation_cal ]};
            quality_flag := Some "good" |})
  else if bool_decide (dataset = "ecostress") then Some (
    et_actual ← uniform 0 8;
    et_potential ← uniform 2 12;
    land_surface_temperature ← uniform 20 40;
    mret {| fields := {[ "et_actual" := et_actual;
                         "et_potential" := et_potential;
                         "land_surface_temperature" :=
                           land_surface_temperature ]};
            quality_flag := None |})
  else if bool_decide (dataset = "grace") then Some (
    groundwater_anomaly ← uniform (-10) 10;
    soil_moisture_anomaly ← uniform (-5) 5;
    uncertainty ← uniform 1 3;
    mret {| fields := {[ "groundwater_anomaly" := groundwater_anomaly;
                         "soil_moisture_anomaly" := soil_moisture_anomaly;
                         "uncertainty" := uncertainty ]};
            quality_flag := None |})
  else if bool_decide (dataset = "landsat") then Some (
    ndvi ← uniform 0.2 0.8;
    ndwi ← uniform 0.1 0.6;
    surface_temperature ← uniform 15 35;
    cloud_cover ← uniform 0 30;
    mret {| fields := {[ "ndvi" := ndvi; "ndwi" := ndwi;
                         "surface_temperature" := surface_temperature;
                         "cloud_cover" := cloud_cover ]};
            quality_flag := None |})
  else None.

(** [for dataset in datasets: ...], filling [mock_data]. *)
Fixpoint mock_loop (datasets : list string)
    (mock_data : gmap string RawRecord) : M (gmap string RawRecord) :=
  match datasets with
  | [] => mret mock_data
  | dataset :: rest =>
      match mock_record dataset with
      | Some draw =>
          record ← draw;
          mock_loop rest (<[dataset := record]> mock_data)
      | None => mock_loop rest mock_data
      end
  end.

Definition _generate_mock_nasa_data (datasets : list string)
    : M (gmap string RawRecord) :=
  mock_loop datasets ∅.

(** What the ingestion service answers to the engine: the status code of
    the POST and the ['task_id'] of its body, then the status code of the
    GET; [None] stands for a call or a lookup that raises. *)
Record IngestService := {
  post_ingest : option (Z * option string);
  get_status : string -> option Z
}.

(** The [try] block of [fetch_raw_data]: [true] when it reaches its
    [return self._generate_mock_nasa_data(...)], [false] when an exception
    leaves it (raised by the client, by the lookup of ['task_id'], or by
    one of the two [raise Exception(...)]). *)
Definition ask_ingest_service (service : IngestService) : bool :=
  match post_ingest service with
  | Some (status_code, body) =>
      if bool_decide (status_code = 200%Z) then
        match body with
        | Some task_id =>
            match get_status service task_id with
            | Some status_code' => bool_decide (status_code' = 200%Z)
            | None => false
            end
        | None => false
        end
      else false
  | None => false
  end.

(** [fetch_raw_data]: the handler of [except Exception] returns the mock
    data as well. *)
Definition fetch_raw_data (service : IngestService) (datasets : list string)
    : M (gmap string RawRecord) :=
  if ask_ingest_service service then _generate_mock_nasa_data datasets
  else _generate_mock_nasa_data datasets.

(** The order of the category ladder of [USMI.get_category]. *)
Definition category_rank (category : string) : nat :=
  if bool_decide (category = "critical") then 0
  else if bool_decide (category = "poor") then 1
  else if bool_decide (category = "moderate") then 2
  else if bool_decide (category = "good") then 3
  else 4.
End MockData.

(** ** models.py, continued: the models of the API *)

Module ApiModels.
Import Models.
Local Open Scope Q_scope.

Record GeoLocation := {
  lat : Q;
  lon : Q;
  location_name : option string
}.

(** [lat: float = Field(..., ge=-90, le=90)],
    [lon: float = Field(..., ge=-180, le=180)] *)
Definition GeoLocation_init (lat lon : Q) (name : option string)
    : result GeoLocation :=
  _ ← validate [("lat", Qle_bool (-90) lat && Qle_bool lat 90);
                ("lon", Qle_bool (-180) lon && Qle_bool lon 180)]%string;
  Ok {| lat := lat; lon := lon; location_name := name |}.

(** A [datetime] is a point of the time line, in microseconds. *)
Record DateRange := { range_start : Z; range_end : Z }.

Record FusionRequest := {
  req_location : GeoLocation;
  req_date_range : DateRange;
  req_crop_type : option string;
  req_target_pest : option string;
  req_datasets : option (list string)
}.

(** A value of a [Dict[str, Any]] field. *)
Inductive pyval : Type :=
  | PInt (n : Z)
  | PStr (s : string).

Record CropRecommendation := {
  crop_name : string;
  suitability_score : Q;
  planting_window : gmap string string;
  crop_water_requirements : gmap string pyval;
  expected_yield : gmap string pyval;
  challenges : list string
}.

Definition CropRecommendation_init (crop_name : string)
    (suitability_score : Q) (planting_window : gmap string string)
    (water_requirements expected_yield : gmap string pyval)
    (challenges : list string) : result CropRecommendation :=
  _ ← validate [("suitability_score", ge0_le1 suitability_score)]%string;
  Ok {| crop_name := crop_name; suitability_score := suitability_score;
        planting_window := planting_window;
        crop_water_requirements := water_requirements;
        expected_yield := expected_yield;
        challenges := challenges |}.
End ApiModels.

(** ** fusion_engine.py, continued: the methods for the API *)

Module EngineApi.
Import Models Engine ApiModels.
Local Open Scope Q_scope.

Definition get_crop_recommendations (location : GeoLocation)
    : result (list CropRecommendation) :=
  if Qgtb (lat location) 40 then
    corn ← CropRecommendation_init "Corn" 0.85
      {[ "start" := "April 15"; "end" := "May 15" ]}
      {[ "total" := PInt 500; "peak_demand" := PStr "July-August" ]}
      {[ "low" := PInt 8; "medium" := PInt 12; "high" := PInt 16 ]}
      [ "Late spring frosts"; "Summer drought risk" ];
    wheat ← CropRecommendation_init "Wheat" 0.78
      {[ "start" := "September 1"; "end" := "October 15" ]}
      {[ "total" := PInt 400; "peak_demand" := PStr "March-May" ]}
      {[ "low" := PInt 4; "medium" := PInt 6; "high" := PInt 8 ]}
      [ "Winter kill risk"; "Spring moisture stress" ];
    Ok [corn; wheat]
  else Ok [].
End EngineApi.

(** ** main.py of the fusion service, continued: the endpoints *)

Module FusionApi.
Import Models Engine MockData ApiModels EngineApi Main.
Local Open Scope Q_scope.

(** What a request is answered with: the value the endpoint returns, or
    the [HTTPException] its handler raises, whose detail is the given text
    followed by [str(e)] of the exception [e] it caught. *)
Inductive response (A : Type) : Type :=
  | Returned (body : A)
  | HTTPException (status_code : Z) (detail : string) (e : pyexc).
Arguments Returned {A}.
Arguments HTTPException {A}.

(** [try: ... except Exception as e: raise HTTPException(status_code=500,
    detail=f"...{str(e)}")] *)
Definition respond {A} (detail : string) (r : result A) : response A :=
  match r with
  | Ok a => Returned a
  | Raise e => HTTPException 500 detail e
  end.

Definition guarded {A} (detail : string) (body : M A)
    : rng -> response A * rng :=
  fun s => let '(r, s') := body s in (respond detail r, s').

(** [x or dflt] on an optional string and on an optional list: [None] and
    the empty value are both false. *)
Definition or_str (x : option string) (dflt : string) : string :=
  match x with
  | Some s => if bool_decide (s = "") then dflt else s
  | None => dflt
  end.

Definition or_list (x : option (list string)) (dflt : list string)
    : list string :=
  match x with
  | Some (d :: l) => d :: l
  | _ => dflt
  end.

(** [await asyncio.gather(a, b, c)]: the three coroutines are started in
    this order; none of them waits for anything, so each runs to its end
    before the next starts, and the first exception that was raised is the
    one the caller gets. *)
Definition gather3 {A B C} (a : M A) (b : M B) (c : M C) : M (A * B * C) :=
  fun s =>
    let '(ra, s1) := a s in
    let '(rb, s2) := b s1 in
    let '(rc, s3) := c s2 in
    (x ← ra; y ← rb; z ← rc; Ok (x, y, z), s3).

Record FusionResponse := {
  fr_timestamp : Z;
  fr_location : GeoLocation;
  fr_usmi : USMI;
  fr_awli : AWLI;
  fr_paoi : PAOI;
  fr_recommendations : list string;
  fr_alerts : list string;
  fr_confidence_scores : ConfidenceScores
}.

(** [attr] is what the engine has for [_normalize_groundwater_anomaly]
    ([as_written] in this repository); [now] is what [datetime.now()]
    returns.  The background task that is added last only logs. *)
Definition compute_unified_metrics (order : SetOrder)
    (attr : groundwater_attr)
    (service : IngestService) (now : Z) (request : FusionRequest)
    : rng -> response FusionResponse * rng :=
  guarded "Fusion computation failed: " (
    raw_data ← fetch_raw_data service
      (or_list (req_datasets request)
         [ "smap_l3"; "smap_l4"; "modis_vegetation"; "modis_lst";
           "gpm"; "ecostress"; "grace"; "landsat" ]);
    let usmi_task := lift (compute_unified_soil_moisture_index raw_data) in
    let awli_task :=
      lift (compute_agricultural_water_level_indicator attr raw_data
              (or_str (req_crop_type request) "corn")) in
    let paoi_task :=
      compute_pesticide_application_optimization_index raw_data
        (or_str (req_crop_type request) "corn")
        (or_str (req_target_pest request) "general") in
    '(usmi, awli, paoi) ← gather3 usmi_task awli_task paoi_task;
    let integrated_recommendations :=
      generate_integrated_recommendations order usmi awli paoi in
    let alerts := generate_alerts usmi awli paoi in
    scores ← lift (confidence_scores usmi awli paoi);
    mret {| fr_timestamp := now;
            fr_location := req_location request;
            fr_usmi := usmi; fr_awli := awli; fr_paoi := paoi;
            fr_recommendations := integrated_recommendations;
            fr_alerts := alerts;
            fr_confidence_scores := scores |}).

Definition compute_usmi (service : IngestService) (request : FusionRequest)
    : rng -> response USMI * rng :=
  guarded "USMI computation failed: " (
    raw_data ← fetch_raw_data service
      [ "smap_l3"; "smap_l4"; "modis_lst"; "gpm"; "ecostress" ];
    lift (compute_unified_soil_moisture_index raw_data)).

Definition compute_awli (attr : groundwater_attr) (service : IngestService)
    (request : FusionRequest) : rng -> response AWLI * rng :=
  guarded "AWLI computation failed: " (
    raw_data ← fetch_raw_data service
      [ "grace"; "modis_vegetation"; "gpm"; "ecostress"; "landsat" ];
    lift (compute_agricultural_water_level_indicator attr raw_data
            (or_str (req_crop_type request) "corn"))).

Definition compute_paoi (service : IngestService) (request : FusionRequest)
    : rng -> response PAOI * rng :=
  guarded "PAOI computation failed: " (
    raw_data ← fetch_raw_data service
      [ "modis_vegetation"; "landsat"; "modis_lst"; "gpm" ];
    compute_pesticide_application_optimization_index raw_data
      (or_str (req_crop_type request) "corn")
      (or_str (req_target_pest request) "general")).

(** The endpoint [get_crop_recommendations(lat, lon)] of main.py: the
    location is built, and so validated, inside the [try] block. *)
Definition crop_recommendations (lat lon : Q)
    : response (GeoLocation * list CropRecommendation) :=
  respond "Failed to get crop recommendations: " (
    location ← GeoLocation_init lat lon None;
    recommendations ← get_crop_recommendations location;
    Ok (location, recommendations)).
End FusionApi.

(** ** nasa_manager.py, continued: the fetch methods, and main.py of the
    ingest service *)

Module IngestApi.
Import Engine MockData.
Local Open Scope Q_scope.

(** [str.upper()] on the ASCII letters *)
Definition upper_ascii (c : ascii) : ascii :=
  let n := nat_of_ascii c in
  if ((97 <=? n) && (n <=? 122))%nat then ascii_of_nat (n - 32) else c.

Fixpoint upper (s : string) : string :=
  match s with
  | EmptyString => EmptyString
  | String c rest => String (upper_ascii c) (upper rest)
  end.

(** Both classes named GeoLocation, the dataclass of nasa_manager.py and
    the pydantic model of models.py, have the attributes [lat] and
    [lon]. *)
Record GeoLocation := {
  lat : Q;
  lon : Q;
  location_name : option string
}.

(** The two classes named DateRange.  The dataclass of nasa_manager.py
    has the properties [start_iso] and [end_iso]; the pydantic model of
    models.py, which main.py imports and the requests are parsed into, has
    the fields [start] and [end] only.  A [datetime] is a point of the
    time line, in microseconds. *)
Inductive DateRange : Type :=
  | ManagerDateRange (range_start range_end : Z)
  | ModelsDateRange (range_start range_end : Z).

(** A value of the ['metadata'] dict. *)
Inductive meta : Type :=
  | MStr (s : string)
  | MList (l : list string).

(** The dict a fetch method returns. *)
Record Payload := {
  payload_dataset : string;
  payload_location : Q * Q;
  payload_date_range : string * string;
  payload_data : RawRecord;
  payload_metadata : gmap string meta
}.

Section Fetch.
(** [datetime.isoformat()] *)
Variable isoformat : Z -> string.

(** [date_range.start_iso], [date_range.end_iso] *)
Definition start_iso (date_range : DateRange) : result string :=
  match date_range with
  | ManagerDateRange range_start _ => Ok (isoformat range_start)
  | ModelsDateRange _ _ => Raise (AttributeError "start_iso")
  end.

Definition end_iso (date_range : DateRange) : result string :=
  match date_range with
  | ManagerDateRange _ range_end => Ok (isoformat range_end)
  | ModelsDateRange _ _ => Raise (AttributeError "end_iso")
  end.

(** The entries of the dict literal are evaluated in the order they are
    written: the location, the two properties of the date range, then the
    draws of ['data']. *)
Definition _fetch_smap_soil_moisture (location : GeoLocation)
    (date_range : DateRange) (level : string) : M Payload :=
  let at_location := (lat location, lon location) in
  range_start ← lift (start_iso date_range);
  range_end ← lift (end_iso date_range);
  surface_moisture ← uniform 0.1 0.4;
  root_zone_moisture ← uniform 0.15 0.35;
  soil_temperature ← uniform 15 25;
  uncertainty ← uniform 0.05 0.15;
  mret {| payload_dataset := "smap_" +:+ level;
          payload_location := at_location;
          payload_date_range := (range_start, range_end);
          payload_data :=
            {| fields := {[ "surface_moisture" := surface_moisture;
                            "root_zone_moisture" := root_zone_moisture;
                            "soil_temperature" := soil_temperature;
                            "uncertainty" := uncertainty ]};
               quality_flag := Some "good" |};
          payload_metadata :=
            {[ "spatial_resolution" :=
                 MStr (if bool_decide (level = "l3") then "36km" else "9km");
               "temporal_resolution" :=
                 MStr (if bool_decide (level = "l3") then "daily"
                       else "3-hourly");
               "source" := MStr "NASA SMAP";
               "processing_level" := MStr (upper level) ]} |}.

Definition _fetch_modis_vegetation (location : GeoLocation)
    (date_range : DateRange) : M Payload :=
  let at_location := (lat location, lon location) in
  range_start ← lift (start_iso date_range);
  range_end ← lift (end_iso date_range);
  ndvi ← uniform 0.3 0.8;
  evi ← uniform 0.2 0.6;
  pixel_reliability ← randint 0 3;
  composite_day ← randint 1 366;
  view_zenith_angle ← uniform 0 60;
  mret {| payload_dataset := "modis_vegetation";
          payload_location := at_location;
          payload_date_range := (range_start, range_end);
          payload_data :=
            {| fields := {[ "ndvi" := ndvi; "evi" := evi;
                            "pixel_reliability" := pixel_reliability;
                            "composite_day" := composite_day;
                            "view_zenith_angle" := view_zenith_angle ]};
               quality_flag := None |};
          payload_metadata :=
            {[ "spatial_resolution" := MStr "250m";
               "temporal_resolution" := MStr "16-day";
               "source" := MStr "NASA MODIS";
               "products" := MList [ "MOD13Q1"; "MYD13Q1" ] ]} |}.

Definition _fetch_modis_lst (location : GeoLocation)
    (date_range : DateRange) : M Payload :=
  let at_location := (lat location, lon location) in
  range_start ← lift (start_iso date_range);
  range_end ← lift (end_iso date_range);
  day_lst ← uniform 20 45;
  night_lst ← uniform 5 25;
  day_lst_quality ← randint 0 3;
  night_lst_quality ← randint 0 3;
  emissivity ← uniform 0.9 0.99;
  mret {| payload_dataset := "modis_lst";
          payload_location := at_location;
          payload_date_range := (range_start, range_end);
          payload_data :=
            {| fields := {[ "day_lst" := day_lst; "night_lst" := night_lst;
                            "day_lst_quality" := day_lst_quality;
                            "night_lst_quality" := night_lst_quality;
                            "emissivity" := emissivity ]};
               quality_flag := None |};
          payload_metadata :=
            {[ "spatial_resolution" := MStr "1km";
               "temporal_resolution" := MStr "daily";
               "source" := MStr "NASA MODIS";
               "products" := MList [ "MOD11A1"; "MYD11A1" ] ]} |}.

Definition _fetch_ecostress_data (location : GeoLocation)
    (date_range : DateRange) : M Payload :=
  let at_location := (lat location, lon location) in
  range_start ← lift (start_iso date_range);
  range_end ← lift (end_iso date_range);
  et_actual ← uniform 0 8;
  et_potential ← uniform 2 12;
  land_surface_temperature ← uniform 20 40;
  emissivity ← uniform 0.9 0.99;
  mret {| payload_dataset := "ecostress_et";
          payload_location := at_location;
          payload_date_range := (range_start, range_end);
          payload_data :=
            {| fields := {[ "et_actual" := et_actual;
                            "et_potential" := et_potential;
                            "land_surface_temperature" :=
                              land_surface_temperature;
                            "emissivity" := emissivity ]};
               quality_flag := Some "good" |};
          payload_metadata :=
            {[ "spatial_resolution" := MStr "70m";
               "temporal_resolution" := MStr "variable";
               "source" := MStr "NASA ECOSTRESS";
               "product" := MStr "ECO3ETPTJPL" ]} |}.

Definition _fetch_grace_groundwater (location : GeoLocation)
    (date_range : DateRange) : M Payload :=
  let at_location := (lat location, lon location) in
  range_start ← lift (start_iso date_range);
  range_end ← lift (end_iso date_range);
  groundwater_anomaly ← uniform (-10) 10;
  soil_moisture_anomaly ← uniform (-5) 5;
  total_water_storage_anomaly ← uniform (-15) 15;
  uncertainty ← uniform 1 3;
  mret {| payload_dataset := "grace_groundwater";
          payload_location := at_location;
          payload_date_range := (range_start, range_end);
          payload_data :=
            {| fields := {[ "groundwater_anomaly" := groundwater_anomaly;
                            "soil_moisture_anomaly" := soil_moisture_anomaly;
                            "total_water_storage_anomaly" :=
                              total_water_storage_anomaly;
                            "uncertainty" := uncertainty ]};
               quality_flag := None |};
          payload_metadata :=
            {[ "spatial_resolution" := MStr "1°";
               "temporal_resolution" := MStr "monthly";
               "source" := MStr "NASA GRACE";
               "product" := MStr "GRCTellus" ]} |}.

Definition _fetch_landsat_data (location : GeoLocation)
    (date_range : DateRange) : M Payload :=
  let at_location := (lat location, lon location) in
  range_start ← lift (start_iso date_range);
  range_end ← lift (end_iso date_range);
  ndvi ← uniform 0.2 0.8;
  ndwi ← uniform 0.1 0.6;
  surface_temperature ← uniform 15 35;
  cloud_cover ← uniform 0 30;
  quality_score ← uniform 0.7 1.0;
  mret {| payload_dataset := "landsat_multispectral";
          payload_location := at_location;
          payload_date_range := (range_start, range_end);
          payload_data :=
            {| fields := {[ "ndvi" := ndvi; "ndwi" := ndwi;
                            "surface_temperature" := surface_temperature;
                            "cloud_cover" := cloud_cover;
                            "quality_score" := quality_score ]};
               quality_flag := None |};
          payload_metadata :=
            {[ "spatial_resolution" := MStr "30m";
               "temporal_resolution" := MStr "16-day";
               "source" := MStr "USGS/NASA Landsat";
               "products" := MList [ "Landsat-8"; "Landsat-9" ] ]} |}.

(** The fetch methods for one location and date range, as the data
    source of one task.  [state dataset_id attempt] is the state
    [np.random] is in when the task, fetching that dataset, makes that
    attempt.
    [_fetch_gpm_precipitation] draws from [np.random.exponential] and
    subtracts the two datetimes; its outcomes are left open, [gpm]. *)
Definition source_of (location : GeoLocation) (date_range : DateRange)
    (state : string -> nat -> rng) (gpm : nat -> result Payload)
    : NasaManager.DataSource Payload :=
  {| NasaManager._fetch_smap_soil_moisture := fun level attempt =>
       invoke (_fetch_smap_soil_moisture location date_range level)
              (state ("smap_" +:+ level) attempt);
     NasaManager._fetch_modis_vegetation := fun attempt =>
       invoke (_fetch_modis_vegetation location date_range)
              (state "modis_vegetation" attempt);
     NasaManager._fetch_modis_lst := fun attempt =>
       invoke (_fetch_modis_lst location date_range)
              (state "modis_lst" attempt);
     NasaManager._fetch_gpm_precipitation := gpm;
     NasaManager._fetch_ecostress_data := fun attempt =>
       invoke (_fetch_ecostress_data location date_range)
              (state "ecostress" attempt);
     NasaManager._fetch_grace_groundwater := fun attempt =>
       invoke (_fetch_grace_groundwater location date_range)
              (state "grace" attempt);
     NasaManager._fetch_landsat_data := fun attempt =>
       invoke (_fetch_landsat_data location date_range)
              (state "landsat" attempt) |}.

(** *** main.py *)

(** [DataIngestionRequest]: its [date_range] is the pydantic model. *)
Record DataIngestionRequest := {
  request_location : GeoLocation;
  request_start : Z;
  request_end : Z;
  request_datasets : list string;
  request_priority : option string
}.

Record DataIngestionResponse := {
  task_id : string;
  status : string;
  message : string;
  estimated_completion : Z
}.

(** [HTTPException(status_code=..., detail=...)] *)
Record HTTPException := { status_code : Z; detail : string }.

(** What [ingest_nasa_data] ends with: the response it returns and the
    background task it has added, or the [HTTPException] its handler
    raises, whose detail is the given text followed by [str(e)] of the
    exception [e] it caught. *)
Inductive ingestion : Type :=
  | Started (response : DataIngestionResponse)
            (background_task : string * DataIngestionRequest)
  | Failed (raised : HTTPException) (e : HTTPException).

(** The f-string that names the task, from the latitude, the longitude
    and the time. *)
Variable task_name : Q -> Q -> Z -> string.

(** The [try] block of [ingest_nasa_data]; [now] and [later] are the two
    readings of [datetime.now()]. *)
Definition ingest_try (now later : Z) (request : DataIngestionRequest)
    : HTTPException + DataIngestionResponse * (string * DataIngestionRequest) :=
  if bool_decide (request_datasets request = []) then
    inl {| status_code := 400; detail := "No datasets specified" |}
  else
    let task_id :=
      task_name (lat (request_location request))
                (lon (request_location request)) now in
    inr ({| task_id := task_id; status := "started";
            message := "Data ingestion started";
            estimated_completion := later + 5 * 60 * 1000000 |},
         (task_id, request)).

(** [except Exception] catches the [HTTPException] of the block too. *)
Definition ingest_nasa_data (now later : Z) (request : DataIngestionRequest)
    : ingestion :=
  match ingest_try now later request with
  | inr (response, background_task) => Started response background_task
  | inl e =>
      Failed {| status_code := 500; detail := "Data ingestion failed: " |} e
  end.

(** The source of the task number [task] of the background task: the
    fetch methods are called with the location and the date range of the
    request, each task with the states and the GPM outcomes of its
    own. *)
Definition request_source (state : nat -> string -> nat -> rng)
    (gpm : nat -> nat -> result Payload) (request : DataIngestionRequest)
    (task : nat) : NasaManager.DataSource Payload :=
  source_of (request_location request)
    (ModelsDateRange (request_start request) (request_end request))
    (state task) (gpm task).

(** The [raw_data] of [process_data_ingestion], the background task. *)
Definition ingested_raw_data (empty_dict : Payload)
    (state : nat -> string -> nat -> rng)
    (gpm : nat -> nat -> result Payload)
    (request : DataIngestionRequest) : gmap string (option Payload) :=
  NasaManager.bulk_data_fetch empty_dict (request_source state gpm request)
    (request_datasets request).

(** The traces of its tasks. *)
Definition ingestion_traces (empty_dict : Payload)
    (state : nat -> string -> nat -> rng)
    (gpm : nat -> nat -> result Payload)
    (request : DataIngestionRequest) : list (list NasaManager.event) :=
  NasaManager.bulk_traces empty_dict (request_source state gpm request)
    (request_datasets request).
End Fetch.
End IngestApi.

(** * Facts *)

Module NumFacts.
Local Open Scope Q_scope.

Lemma Qltb_lt x y : Qltb x y = true <-> x < y.
Proof.
  unfold Qltb. rewrite negb_true_iff. split; intros H.
  - apply Qnot_le_lt. intros Hle. apply Qle_bool_iff in Hle. congruence.
  - destruct (Qle_bool y x) eqn:E; [|reflexivity].
    apply Qle_bool_iff in E. lra.
Qed.

Lemma Qltb_ge x y : Qltb x y = false <-> y <= x.
Proof.
  unfold Qltb. rewrite negb_false_iff. apply Qle_bool_iff.
Qed.

Lemma Qle_bool_gt x y : Qle_bool x y = false <-> y < x.
Proof.
  split; intros H.
  - apply Qnot_le_lt. intros Hle. apply Qle_bool_iff in Hle. congruence.
  - destruct (Qle_bool x y) eqn:E; [|reflexivity].
    apply Qle_bool_iff in E. lra.
Qed.

Lemma Qeq_bool_false x y : Qeq_bool x y = false <-> ~ x == y.
Proof.
  split; intros H.
  - intros E. apply Qeq_bool_iff in E. congruence.
  - destruct (Qeq_bool x y) eqn:E; [|reflexivity].
    apply Qeq_bool_iff in E. contradiction.
Qed.

Lemma ge0_le1_iff x : Models.ge0_le1 x = true <-> 0 <= x <= 1.
Proof.
  unfold Models.ge0_le1. rewrite andb_true_iff, !Qle_bool_iff. reflexivity.
Qed.

(** [sum] from any start value *)
Lemma fold_left_Qplus_acc (xs : list Q) (a : Q) :
  fold_left Qplus xs a == a + pysum xs.
Proof.
  unfold pysum. revert a. induction xs as [|x xs IH]; intros a; simpl.
  - lra.
  - rewrite IH, (IH (0 + x)). lra.
Qed.

Lemma pysum_cons (x : Q) (xs : list Q) : pysum (x :: xs) == x + pysum xs.
Proof.
  unfold pysum at 1. simpl. rewrite fold_left_Qplus_acc. lra.
Qed.

Lemma pysum_nonneg (xs : list Q) :
  Forall (fun x => 0 <= x) xs -> 0 <= pysum xs.
Proof.
  induction 1 as [|x xs Hx _ IH].
  - unfold pysum. simpl. lra.
  - rewrite pysum_cons. lra.
Qed.

Lemma pysum_zero (xs : list Q) :
  Forall (fun x => x == 0) xs -> pysum xs == 0.
Proof.
  induction 1 as [|x xs Hx _ IH].
  - unfold pysum. simpl. lra.
  - rewrite pysum_cons. lra.
Qed.

Lemma prod_unit (a w : Q) : 0 <= a <= 1 -> 0 <= w <= 1 -> 0 <= a * w <= 1.
Proof. intros. nra. Qed.
End NumFacts.
Import NumFacts.

(** Case analysis on every [Qmin], [Qmax] and boolean comparison of a goal,
    leaving linear arithmetic. *)
Ltac q_cases :=
  repeat match goal with
  | |- context [Qmax ?a ?b] =>
      let E := fresh "E" in
      destruct (Q.max_spec a b) as [[? E]|[? E]]; rewrite !E in *; clear E
  | |- context [Qmin ?a ?b] =>
      let E := fresh "E" in
      destruct (Q.min_spec a b) as [[? E]|[? E]]; rewrite !E in *; clear E
  | |- context [Qle_bool ?a ?b] =>
      let E := fresh "E" in
      destruct (Qle_bool a b) eqn:E;
      [apply Qle_bool_iff in E | apply Qle_bool_gt in E]
  | |- context [Qltb ?a ?b] =>
      let E := fresh "E" in
      destruct (Qltb a b) eqn:E;
      [apply Qltb_lt in E | apply Qltb_ge in E]
  end.

(** [lra] does not know division: inverses of literals are computed. *)
Ltac q_consts :=
  unfold Qdiv in *;
  repeat match goal with
  | |- context [/ (?n # ?d)] =>
      let c := eval vm_compute in (/ (n # d)) in
      change (/ (n # d)) with c
  | H : context [/ (?n # ?d)] |- _ =>
      let c := eval vm_compute in (/ (n # d)) in
      change (/ (n # d)) with c in H
  end.

Ltac q_solve := q_cases; q_consts; try lra.

Lemma bind_Ok {A B} (a : A) (k : A -> result B) : (Ok a ≫= k) = k a.
Proof. reflexivity. Qed.

Module EngineFacts.
Import Models Engine.
Local Open Scope Q_scope.

Lemma clamp_unit (x : Q) : 0 <= Qmax 0.0 (Qmin 1.0 x) <= 1.
Proof. q_cases; lra. Qed.

Lemma spatial_normalize_unit (value : Q) (data_type : string) :
  0 <= _spatial_normalize value data_type <= 1.
Proof.
  unfold _spatial_normalize.
  destruct (default _ _) as [min_val max_val]. apply clamp_unit.
Qed.

Lemma temperature_stress_unit (t : Temperature) :
  0 <= _calculate_temperature_stress t <= 1.
Proof.
  unfold _calculate_temperature_stress. cbv zeta.
  generalize (average t); intros a.
  destruct (Qle_bool 20 a) eqn:E1; [apply Qle_bool_iff in E1|apply Qle_bool_gt in E1];
  (destruct (Qle_bool a 30) eqn:E2; [apply Qle_bool_iff in E2|apply Qle_bool_gt in E2]);
  simpl; try lra;
  (destruct (Qltb a 20) eqn:E3; [apply Qltb_lt in E3|apply Qltb_ge in E3]);
  q_solve.
Qed.

Lemma et_deficit_unit (et : Evapotranspiration) (p : Precipitation) :
  0 <= _calculate_et_deficit et p <= 1.
Proof.
  unfold _calculate_et_deficit. cbv zeta.
  destruct (Qgtb _ 0); [apply clamp_unit | lra].
Qed.

Lemma temporal_normalize_week (p : Precipitation) :
  _temporal_normalize p "precipitation" 7
  = Ok (Qmax 0.0 (Qmin 1.0 (default 0.0 (p !! "total")
                            / (inject_Z 7 * 5.0)))).
Proof.
  unfold _temporal_normalize. rewrite bool_decide_eq_true_2 by reflexivity.
  reflexivity.
Qed.

Lemma quality_weight_unit (data : RawRecord) :
  0 <= quality_weight data <= 1.
Proof.
  unfold quality_weight.
  destruct (quality_flag data) as [flag|]; repeat case_bool_decide; lra.
Qed.

Lemma assessed_weight_unit (raw_data : gmap string RawRecord) (id : string) :
  0 <= default 1.0 (_assess_data_quality raw_data !! id) <= 1.
Proof.
  unfold _assess_data_quality. rewrite lookup_fmap.
  destruct (raw_data !! id) as [data|]; simpl.
  - apply quality_weight_unit.
  - lra.
Qed.

Lemma dict_values_elem (d : gmap string Q) (x : Q) :
  x ∈ dict_values d -> ∃ k, d !! k = Some x.
Proof.
  unfold dict_values. intros H.
  apply list_elem_of_fmap in H as [[k y] [-> H]].
  exists k. by apply elem_of_map_to_list.
Qed.

Lemma Forall_map_list {A B} (P : B -> Prop) (f : A -> B) (l : list A) :
  Forall (fun x => P (f x)) l -> Forall P (map f l).
Proof. induction 1; simpl; constructor; auto. Qed.

(** The sum behind the uncertainty is not negative: no weight exceeds 1. *)
Lemma uncertainty_sum_nonneg (raw_data : gmap string RawRecord) :
  0 <= pysum (map (fun weight => (1.0 - weight) * 0.1)
                  (dict_values (_assess_data_quality raw_data))).
Proof.
  apply pysum_nonneg, Forall_map_list, Forall_forall.
  intros w Hw. apply dict_values_elem in Hw as [k Hk].
  unfold _assess_data_quality in Hk. rewrite lookup_fmap in Hk.
  destruct (raw_data !! k) as [data|]; simpl in Hk; [|discriminate].
  injection Hk as <-. pose proof (quality_weight_unit data). lra.
Qed.

Lemma propagate_uncertainty_range (components : gmap string Q)
    (raw_data : gmap string RawRecord) :
  0 <= _propagate_uncertainty components (_assess_data_quality raw_data)
    <= 0.5.
Proof.
  unfold _propagate_uncertainty. cbv zeta.
  pose proof (uncertainty_sum_nonneg raw_data). q_cases; lra.
Qed.

Lemma validate2_ok (n1 n2 : string) (b1 b2 : bool) :
  b1 = true -> b2 = true -> validate [(n1, b1); (n2, b2)] = Ok tt.
Proof. intros -> ->. reflexivity. Qed.

Lemma validate1_ok (n1 : string) (b1 : bool) :
  b1 = true -> validate [(n1, b1)] = Ok tt.
Proof. intros ->. reflexivity. Qed.

(** Reading the five entries of the USMI components dict. *)
Lemma usmi_fusion_literal (a b c d e : Q) (weights : gmap string Q) :
  usmi_fusion {[ "surface_moisture" := a; "root_zone_moisture" := b;
                 "precipitation_factor" := c; "temperature_stress" := d;
                 "et_deficit" := e ]} weights
  = Ok (a * 0.35 * default 1.0 (weights !! "smap_l3") +
        b * 0.25 * default 1.0 (weights !! "smap_l4") +
        c * 0.20 * default 1.0 (weights !! "gpm") +
        d * 0.15 * default 1.0 (weights !! "modis_lst") +
        e * 0.05 * default 1.0 (weights !! "ecostress")).
Proof.
  unfold usmi_fusion.
  assert (Hitems :
    let m : gmap string Q :=
      {[ "surface_moisture" := a; "root_zone_moisture" := b;
         "precipitation_factor" := c; "temperature_stress" := d;
         "et_deficit" := e ]} in
    item m "surface_moisture" = Ok a ∧ item m "root_zone_moisture" = Ok b ∧
    item m "precipitation_factor" = Ok c ∧
    item m "temperature_stress" = Ok d ∧ item m "et_deficit" = Ok e).
  { vm_compute. repeat split; reflexivity. }
  cbv zeta in Hitems. destruct Hitems as (-> & -> & -> & -> & ->).
  reflexivity.
Qed.

Lemma usmi_fusion_unit (a b c d e : Q) (raw_data : gmap string RawRecord) :
  0 <= a <= 1 -> 0 <= b <= 1 -> 0 <= c <= 1 -> 0 <= d <= 1 -> 0 <= e <= 1 ->
  let w id := default 1.0 (_assess_data_quality raw_data !! id) in
  0 <= a * 0.35 * w "smap_l3" + b * 0.25 * w "smap_l4" + c * 0.20 * w "gpm" +
       d * 0.15 * w "modis_lst" + e * 0.05 * w "ecostress" <= 1.
Proof.
  intros Ha Hb Hc Hd He w.
  pose proof (prod_unit a _ Ha (assessed_weight_unit raw_data "smap_l3")).
  pose proof (prod_unit b _ Hb (assessed_weight_unit raw_data "smap_l4")).
  pose proof (prod_unit c _ Hc (assessed_weight_unit raw_data "gpm")).
  pose proof (prod_unit d _ Hd (assessed_weight_unit raw_data "modis_lst")).
  pose proof (prod_unit e _ He (assessed_weight_unit raw_data "ecostress")).
  subst w. cbv beta. lra.
Qed.

(** The USMI computation never raises; its value and components are in
    the unit interval. *)
Lemma usmi_run (raw_data : gmap string RawRecord) :
  ∃ comps v,
    usmi_components_of raw_data = Ok comps ∧
    map_Forall (fun _ x => 0 <= x <= 1) comps ∧
    usmi_fusion comps (_assess_data_quality raw_data) = Ok v ∧
    0 <= v <= 1 ∧
    compute_unified_soil_moisture_index raw_data
    = Ok {| usmi_value := v;
            usmi_confidence :=
              Qmax 0.0 (1.0 - _propagate_uncertainty comps
                                (_assess_data_quality raw_data));
            usmi_components := comps;
            usmi_quality_flags := _generate_quality_flags raw_data;
            usmi_recommendations :=
              _generate_usmi_recommendations v comps |}.
Proof.
  unfold compute_unified_soil_moisture_index, usmi_components_of.
  cbv zeta. rewrite temporal_normalize_week, !bind_Ok.
  rewrite usmi_fusion_literal, bind_Ok.
  set (a := _spatial_normalize _ _).
  set (b := _spatial_normalize _ _).
  set (c := Qmax 0.0 (Qmin 1.0 _)).
  set (d := _calculate_temperature_stress _).
  set (e := _calculate_et_deficit _ _).
  assert (Ha : 0 <= a <= 1) by apply spatial_normalize_unit.
  assert (Hb : 0 <= b <= 1) by apply spatial_normalize_unit.
  assert (Hc : 0 <= c <= 1) by apply clamp_unit.
  assert (Hd : 0 <= d <= 1) by apply temperature_stress_unit.
  assert (He : 0 <= e <= 1) by apply et_deficit_unit.
  pose proof (usmi_fusion_unit a b c d e raw_data Ha Hb Hc Hd He) as Hv.
  cbv zeta beta in Hv.
  eexists _, _. split; [reflexivity|]. split; [|split; [reflexivity|]].
  - repeat apply map_Forall_insert_2; try assumption.
    apply map_Forall_empty.
  - split; [exact Hv|].
    unfold USMI_init. rewrite validate2_ok; [reflexivity| |].
    + by apply ge0_le1_iff.
    + apply ge0_le1_iff.
      match goal with |- context [_propagate_uncertainty ?m _] =>
        pose proof (propagate_uncertainty_range m raw_data) end.
      q_cases; lra.
Qed.

(** The values of the weights dict, from the raw-data map. *)
Lemma assessed_values (raw_data : gmap string RawRecord) (g : Q -> Q) :
  map g (dict_values (_assess_data_quality raw_data))
  = map (fun kv => g (quality_weight kv.2)) (map_to_list raw_data).
Proof.
  unfold dict_values, _assess_data_quality. rewrite map_to_list_fmap.
  induction (map_to_list raw_data) as [|[k data] l IH]; simpl.
  - reflexivity.
  - f_equal. exact IH.
Qed.
End EngineFacts.
Import EngineFacts.

Module UsmiClaims.
Import Models Engine Examples.
Local Open Scope Q_scope.

(** C7. The quality assessment gives every dataset of the raw-data map
    exactly one weight, by the tier of its quality flag: 'good' gives 1.0,
    'marginal' 0.7, any other flag 0.4, no flag at all 0.8; a dataset
    that is not in the map gets no weight; every weight is in [0,1]. *)
Theorem assess_data_quality_tiers (raw_data : gmap string RawRecord)
    (id : string) :
  match raw_data !! id with
  | Some data =>
      ∃ w, _assess_data_quality raw_data !! id = Some w ∧ 0 <= w <= 1 ∧
        match quality_flag data with
        | Some flag =>
            if String.eqb flag "good" then w = 1.0
            else if String.eqb flag "marginal" then w = 0.7
            else w = 0.4
        | None => w = 0.8
        end
  | None => _assess_data_quality raw_data !! id = None
  end.
Proof.
  unfold _assess_data_quality. rewrite lookup_fmap.
  destruct (raw_data !! id) as [data|]; simpl; [|reflexivity].
  exists (quality_weight data). split; [reflexivity|].
  split; [apply quality_weight_unit|].
  unfold quality_weight. destruct (quality_flag data) as [flag|]; [|reflexivity].
  destruct (String.eqb_spec flag "good") as [->|Hg].
  - reflexivity.
  - rewrite bool_decide_eq_false_2 by exact Hg.
    destruct (String.eqb_spec flag "marginal") as [->|Hm].
    + reflexivity.
    + rewrite bool_decide_eq_false_2 by exact Hm. reflexivity.
Qed.

(** C10. Whatever the quality flags, the USMI computation returns and the
    confidence it reports is at least 0.5. *)
Theorem usmi_confidence_at_least_half (raw_data : gmap string RawRecord) :
  ∃ usmi, compute_unified_soil_moisture_index raw_data = Ok usmi ∧
    0.5 <= usmi_confidence usmi.
Proof.
  destruct (usmi_run raw_data) as (comps & v & _ & _ & _ & _ & Hrun).
  eexists. split; [exact Hrun|]. simpl.
  pose proof (propagate_uncertainty_range comps raw_data).
  q_cases; lra.
Qed.

(** C8, as stated, fails: with every dataset that contributes to USMI
    flagged good, the three datasets without a flag still add 0.02 each,
    so the uncertainty is 0.06 and the confidence 0.94. *)
Lemma usmi_uncertainty_counts_every_dataset :
  Forall (fun id =>
            default 1.0 (_assess_data_quality full_raw !! id) == 1)
         usmi_sources ∧
  uncertainty_over_sources full_raw == 0 ∧
  ∃ u usmi,
    usmi_uncertainty full_raw = Ok u ∧
    compute_unified_soil_moisture_index full_raw = Ok usmi ∧
    u == 0.06 ∧ ~ u == uncertainty_over_sources full_raw ∧
    usmi_confidence usmi == 0.94.
Proof.
  split; [|split].
  - repeat constructor; vm_compute; reflexivity.
  - vm_compute. reflexivity.
  - let r := eval vm_compute in (usmi_uncertainty full_raw) in
    match r with Ok ?u => exists u end.
    let r := eval vm_compute in
      (compute_unified_soil_moisture_index full_raw) in
    match r with Ok ?x => exists x end.
    split; [vm_compute; reflexivity|].
    split; [vm_compute; reflexivity|].
    split; [vm_compute; reflexivity|].
    split; [|vm_compute; reflexivity].
    vm_compute. discriminate.
Qed.

(** C8, amended. The USMI computation returns; its uncertainty is
    min(0.5, Σ (1 - weight) * 0.1) with the sum over every dataset of the
    raw-data map, contributing to USMI or not; the confidence is
    1 - uncertainty; when every dataset of the map has weight 1.0 the
    uncertainty is 0 and the confidence 1. *)
Theorem usmi_uncertainty_over_raw_map (raw_data : gmap string RawRecord) :
  ∃ u usmi,
    usmi_uncertainty raw_data = Ok u ∧
    compute_unified_soil_moisture_index raw_data = Ok usmi ∧
    u == Qmin 0.5 (pysum (map (fun kv => (1.0 - quality_weight kv.2) * 0.1)
                              (map_to_list raw_data))) ∧
    usmi_confidence usmi == 1 - u ∧
    ((∀ id data, raw_data !! id = Some data -> quality_weight data == 1) ->
     u == 0 ∧ usmi_confidence usmi == 1).
Proof.
  destruct (usmi_run raw_data) as (comps & v & Hc & _ & _ & _ & Hrun).
  exists (_propagate_uncertainty comps (_assess_data_quality raw_data)).
  eexists. split.
  { unfold usmi_uncertainty. rewrite Hc. reflexivity. }
  split; [exact Hrun|]. simpl.
  pose proof (propagate_uncertainty_range comps raw_data) as Hrange.
  assert (Hu : _propagate_uncertainty comps (_assess_data_quality raw_data)
               == Qmin 0.5 (pysum (map (fun kv =>
                                          (1.0 - quality_weight kv.2) * 0.1)
                                       (map_to_list raw_data)))).
  { unfold _propagate_uncertainty. cbv zeta.
    rewrite (assessed_values raw_data (fun w => (1.0 - w) * 0.1)).
    reflexivity. }
  assert (Hconf : Qmax 0.0 (1.0 - _propagate_uncertainty comps
                                    (_assess_data_quality raw_data))
                  == 1 - _propagate_uncertainty comps
                           (_assess_data_quality raw_data)).
  { q_cases; lra. }
  split; [exact Hu|]. split; [exact Hconf|].
  intros Hall.
  assert (Hz : _propagate_uncertainty comps (_assess_data_quality raw_data)
               == 0).
  { rewrite Hu.
    assert (Hs : pysum (map (fun kv => (1.0 - quality_weight kv.2) * 0.1)
                            (map_to_list raw_data)) == 0).
    { apply pysum_zero, Forall_map_list, Forall_forall.
      intros [k data] Hin. apply elem_of_map_to_list in Hin.
      simpl. rewrite (Hall k data Hin). lra. }
    destruct (Q.min_spec 0.5 (pysum (map (fun kv =>
                (1.0 - quality_weight kv.2) * 0.1) (map_to_list raw_data))))
      as [[? E]|[? E]]; rewrite E; lra. }
  split; [exact Hz|]. rewrite Hconf, Hz. lra.
Qed.
End UsmiClaims.

Module PaoiFacts.
Import Models Engine.
Local Open Scope Q_scope.

Lemma pyabs_nonneg (x : Q) : 0 <= pyabs x.
Proof. apply Qabs.Qabs_nonneg. Qed.

Lemma pyabs_le (x y : Q) : - y <= x <= y -> pyabs x <= y.
Proof. intros H. apply Qabs.Qabs_Qle_condition. exact H. Qed.

Lemma Qdiv_nonneg (x y : Q) : 0 <= x -> 0 < y -> 0 <= x / y.
Proof.
  intros Hx Hy. unfold Qdiv. apply Qmult_le_0_compat; [exact Hx|].
  apply Qinv_le_0_compat. lra.
Qed.

Lemma detect_vegetation_anomalies_unit (data : RawRecord) :
  fget data "ndvi" 0.5 <= 1 -> 0 <= _detect_vegetation_anomalies data <= 1.
Proof.
  intros H. unfold _detect_vegetation_anomalies. cbv zeta.
  generalize dependent (fget data "ndvi" 0.5). intros n H.
  destruct (Qgtb n 0.6 && Qeq_bool _ 0); [lra|].
  unfold Qgtb.
  destruct (Qltb n 0.4) eqn:E; [simpl; lra|apply Qltb_ge in E].
  destruct (Qltb 1 _); simpl; lra.
Qed.

Lemma humidity_proxy_ok (gpm lst : RawRecord) :
  0 <= fget gpm "precipitation_cal" 20.0 ->
  0 < fget lst "average" 25.0 ->
  ∃ h, _calculate_humidity_proxy gpm lst = Ok h ∧ 0 <= h <= 1.
Proof.
  intros Hp Ht. unfold _calculate_humidity_proxy, pydiv. cbv zeta.
  destruct (Qeq_bool _ 0) eqn:E.
  - apply Qeq_bool_iff in E. lra.
  - rewrite bind_Ok. eexists. split; [reflexivity|].
    pose proof (Qdiv_nonneg _ (fget lst "average" 25.0 * 2) Hp ltac:(lra)).
    q_cases; lra.
Qed.

Lemma pest_conditions_unit (lst : RawRecord) (h : Q) (pest : string) :
  0 <= h <= 1 -> 0 <= _model_pest_favorable_conditions lst h pest <= 1.
Proof.
  intros Hh. unfold _model_pest_favorable_conditions. cbv zeta.
  pose proof (pyabs_nonneg (fget lst "average" 25.0
                            - default 25 (pest_optimal_temps !! pest))).
  generalize dependent (pyabs (fget lst "average" 25.0
                            - default 25 (pest_optimal_temps !! pest))).
  intros a Ha. q_solve.
Qed.

Lemma weather_suitability_unit (wind : Wind) (gpm lst : RawRecord) :
  0 <= speed wind ->
  0 <= fget gpm "probability_of_precipitation" 0.3 <= 1 ->
  10 <= fget lst "average" 25.0 <= 40 ->
  0 <= _assess_application_weather_suitability wind
         (_get_precipitation_forecast gpm) lst <= 1.
Proof.
  intros Hw Hp Ht. unfold _assess_application_weather_suitability.
  cbv zeta. simpl forecast_probability.
  pose proof (pyabs_nonneg (fget lst "average" 25.0 - 25)) as H0.
  pose proof (pyabs_le (fget lst "average" 25.0 - 25) 15 ltac:(lra)) as H1.
  generalize dependent (pyabs (fget lst "average" 25.0 - 25)).
  intros a H0 H1. q_solve.
Qed.

Lemma timing_scores_unit : map_Forall (fun _ x => 0 <= x <= 1) timing_scores.
Proof.
  unfold timing_scores.
  repeat apply map_Forall_insert_2; try lra. apply map_Forall_empty.
Qed.

Lemma pesticide_timing_score_unit (stage pest : string) :
  0 <= _get_pesticide_timing_score stage pest <= 1.
Proof.
  unfold _get_pesticide_timing_score.
  destruct (timing_scores !! (stage, pest)) as [x|] eqn:E; simpl.
  - exact (timing_scores_unit _ _ E).
  - lra.
Qed.

Lemma spray_drift_risk_unit (wind : Wind) (aerosol : Aerosol) :
  0 <= speed wind -> 0 <= aod_550 aerosol ->
  0 <= _calculate_spray_drift_risk wind aerosol <= 1.
Proof.
  intros Hw Ha. unfold _calculate_spray_drift_risk. cbv zeta. q_solve.
Qed.

(** Reading the five entries of the PAOI components dict. *)
Lemma paoi_literal (a b c d e : Q) :
  let m : gmap string Q :=
    {[ "vegetation_stress" := a; "pest_favorable_conditions" := b;
       "weather_suitability" := c; "phenology_timing" := d;
       "spray_drift_risk" := e ]} in
  (item m "vegetation_stress" = Ok a ∧
   item m "pest_favorable_conditions" = Ok b ∧
   item m "weather_suitability" = Ok c ∧
   item m "phenology_timing" = Ok d ∧
   item m "spray_drift_risk" = Ok e) ∧
  m !! "weather_suitability" = Some c ∧
  m !! "spray_drift_risk" = Some e ∧
  map_to_list m
  = [ ("weather_suitability", c); ("spray_drift_risk", e);
      ("vegetation_stress", a); ("pest_favorable_conditions", b);
      ("phenology_timing", d) ].
Proof. vm_compute. repeat split; reflexivity. Qed.

Lemma paoi_fusion_components (vs pc ws ph drift : Q) :
  paoi_fusion (paoi_components_of vs pc ws ph drift)
  = Ok (vs * 0.30 + pc * 0.25 + ws * 0.20 + ph * 0.15
        + (1.0 - drift) * 0.10).
Proof.
  unfold paoi_fusion, paoi_components_of.
  destruct (paoi_literal vs pc ws ph (1.0 - drift))
    as ((-> & -> & -> & -> & ->) & _).
  reflexivity.
Qed.

Lemma paoi_values_components (vs pc ws ph drift : Q) :
  dict_values (paoi_components_of vs pc ws ph drift)
  = [ ws; 1.0 - drift; vs; pc; ph ].
Proof.
  unfold dict_values, paoi_components_of.
  destruct (paoi_literal vs pc ws ph (1.0 - drift)) as (_ & _ & _ & ->).
  reflexivity.
Qed.

(** The score inverts the entry that is inverted already: it averages
    the weather suitability and the drift risk itself. *)
Lemma environmental_impact_components (vs pc ws ph drift : Q) :
  _assess_environmental_impact (paoi_components_of vs pc ws ph drift)
  == (ws + drift) / 2.
Proof.
  unfold _assess_environmental_impact, paoi_components_of.
  destruct (paoi_literal vs pc ws ph (1.0 - drift)) as (_ & -> & -> & _).
  simpl. q_consts. lra.
Qed.

Lemma mean_of_five (a b c d e : Q) :
  np_mean [a; b; c; d; e] == (a + b + c + d + e) / 5.
Proof.
  unfold np_mean, pysum. simpl. q_consts.
  change (/ inject_Z (Z.of_nat 5)) with (1 # 5). lra.
Qed.

(** One run of the PAOI computation: it draws the wind and the aerosol
    data from the state, and returns when the humidity proxy does and
    the two validated fields are in range. *)
Lemma paoi_run (raw_data : gmap string RawRecord) (crop_type pest : string)
    (s : rng) (h : Q) :
  _calculate_humidity_proxy (dataset raw_data "gpm")
    (dataset raw_data "modis_lst") = Ok h ->
  let vs := _detect_vegetation_anomalies (dataset raw_data "modis_vegetation") in
  let pc :=
    _model_pest_favorable_conditions (dataset raw_data "modis_lst") h pest in
  let ws :=
    _assess_application_weather_suitability (wind_of s)
      (_get_precipitation_forecast (dataset raw_data "gpm"))
      (dataset raw_data "modis_lst") in
  let ph :=
    _get_pesticide_timing_score
      (_determine_phenology_stage (dataset raw_data "modis_vegetation")
         crop_type) pest in
  let drift := _calculate_spray_drift_risk (wind_of s) (aerosol_of s) in
  let comps := paoi_components_of vs pc ws ph drift in
  let value :=
    vs * 0.30 + pc * 0.25 + ws * 0.20 + ph * 0.15 + (1.0 - drift) * 0.10 in
  ge0_le1 value = true ->
  ge0_le1 (_assess_environmental_impact comps) = true ->
  invoke (compute_pesticide_application_optimization_index raw_data
            crop_type pest) s
  = Ok {| paoi_value := value;
          paoi_crop_type := crop_type;
          paoi_target_pest := pest;
          paoi_application_window :=
            _calculate_optimal_application_window comps;
          paoi_components := comps;
          paoi_environmental_impact_score :=
            _assess_environmental_impact comps;
          paoi_recommendations :=
            _generate_pesticide_recommendations value comps |}.
Proof.
  intros Hh vs pc ws ph drift comps value Hv He.
  unfold invoke, compute_pesticide_application_optimization_index.
  cbv zeta. rewrite Hh.
  cbv beta iota zeta delta
    [mbind M_bind mbind' lift _extract_wind_data _mock_aerosol_data
     uniform mret fst].
  fold (wind_of s). fold (aerosol_of s).
  fold vs pc ws ph drift. fold comps.
  subst comps. rewrite (paoi_fusion_components vs pc ws ph drift).
  fold value. unfold PAOI_init. rewrite validate2_ok by assumption.
  reflexivity.
Qed.
End PaoiFacts.

Module FusionClaims.
Import Models Engine Examples PaoiFacts.
Local Open Scope Q_scope.

Lemma paoi_in_domain (raw_data : gmap string RawRecord)
    (crop_type pest : string) (s : rng) :
  in_domain raw_data -> unit_draws s ->
  ∃ paoi,
    invoke (compute_pesticide_application_optimization_index raw_data
              crop_type pest) s = Ok paoi ∧
    0 <= paoi_value paoi <= 1 ∧
    0 <= paoi_environmental_impact_score paoi <= 1 ∧
    0 <= window_confidence (paoi_application_window paoi) <= 1 ∧
    map_Forall (fun _ x => 0 <= x <= 1) (paoi_components paoi).
Proof.
  intros (Hndvi & Hprecip & Hprob & Htemp) Hs.
  destruct (humidity_proxy_ok (dataset raw_data "gpm")
              (dataset raw_data "modis_lst") Hprecip ltac:(lra))
    as (h & Hh & Hhu).
  pose proof (Hs 0%nat) as Hs0. pose proof (Hs 2%nat) as Hs2.
  assert (Hspeed : 0 <= speed (wind_of s)) by (simpl; lra).
  assert (Haod : 0 <= aod_550 (aerosol_of s)) by (simpl; lra).
  pose proof (detect_vegetation_anomalies_unit _ Hndvi) as Hvs.
  pose proof (pest_conditions_unit (dataset raw_data "modis_lst") h pest Hhu)
    as Hpc.
  pose proof (weather_suitability_unit (wind_of s) (dataset raw_data "gpm")
                (dataset raw_data "modis_lst") Hspeed Hprob Htemp) as Hws.
  pose proof (pesticide_timing_score_unit
                (_determine_phenology_stage
                   (dataset raw_data "modis_vegetation") crop_type) pest)
    as Hph.
  pose proof (spray_drift_risk_unit _ _ Hspeed Haod) as Hdr.
  pose proof (paoi_run raw_data crop_type pest s h Hh) as Hrun.
  cbv zeta in Hrun.
  set (vs := _detect_vegetation_anomalies _) in *.
  set (pc := _model_pest_favorable_conditions _ _ _) in *.
  set (ws := _assess_application_weather_suitability _ _ _) in *.
  set (ph := _get_pesticide_timing_score _ _) in *.
  set (drift := _calculate_spray_drift_risk _ _) in *.
  assert (Hval : 0 <= vs * 0.30 + pc * 0.25 + ws * 0.20 + ph * 0.15
                      + (1.0 - drift) * 0.10 <= 1) by lra.
  assert (Henv : 0 <= _assess_environmental_impact
                        (paoi_components_of vs pc ws ph drift) <= 1).
  { rewrite environmental_impact_components. q_consts. lra. }
  rewrite Hrun by (by apply ge0_le1_iff).
  eexists. split; [reflexivity|]. simpl.
  split; [exact Hval|]. split; [exact Henv|]. split.
  - rewrite paoi_values_components, mean_of_five. q_consts. lra.
  - unfold paoi_components_of.
    repeat apply map_Forall_insert_2; try assumption; try lra.
    apply map_Forall_empty.
Qed.

Lemma precipitation_anomaly_unit (raw_data : gmap string RawRecord) :
  0 <= awli_precipitation_anomaly raw_data <= 1.
Proof.
  unfold awli_precipitation_anomaly, _calculate_precipitation_anomaly.
  cbv zeta. destruct (Qgtb _ 0); [apply clamp_unit | lra].
Qed.

Lemma surface_water_unit (raw_data : gmap string RawRecord) :
  0 <= awli_surface_water raw_data <= 1.
Proof. apply clamp_unit. Qed.

Lemma water_stress_range (raw_data : gmap string RawRecord) :
  0 <= awli_water_stress_index raw_data ∧
  (fget (dataset raw_data "modis_lst") "average" 25.0 < 30 ->
   awli_water_stress_index raw_data <= 1).
Proof.
  unfold awli_water_stress_index, _calculate_vegetation_water_stress.
  cbv zeta. simpl ndvi.
  generalize (fget (dataset raw_data "modis_vegetation") "ndvi" 0.5).
  generalize (fget (dataset raw_data "modis_lst") "average" 25.0).
  intros t n. unfold Qgtb.
  destruct (Qltb 0.6 n) eqn:E1;
    [apply Qltb_lt in E1 | apply Qltb_ge in E1];
  (destruct (Qltb t 30) eqn:E2;
    [apply Qltb_lt in E2 | apply Qltb_ge in E2]); simpl;
  try (split; [lra | intros; lra]);
  (destruct (Qltb n 0.4) eqn:E3;
    [apply Qltb_lt in E3 | apply Qltb_ge in E3]); simpl;
  try (split; [lra | intros; lra]);
  (destruct (Qltb 35 t) eqn:E4;
    [apply Qltb_lt in E4 | apply Qltb_ge in E4]); simpl;
  q_consts; split; try lra; intros; lra.
Qed.

Lemma et_ratio_nonneg (raw_data : gmap string RawRecord) :
  0 <= fget (dataset raw_data "ecostress") "et_actual" 5.0 ->
  0 <= awli_et_ratio raw_data.
Proof.
  intros Ha. unfold awli_et_ratio, _safe_divide, _calculate_potential_et.
  cbv zeta. unfold Qneqb.
  set (p := Qmax 0 _).
  assert (Hp : 0 <= p) by (subst p; q_cases; lra).
  destruct (Qeq_bool p 0) eqn:E; simpl; [lra|].
  apply Qeq_bool_false in E. apply Qdiv_nonneg; [exact Ha|].
  destruct (Qlt_le_dec 0 p) as [Hlt|Hle]; [exact Hlt|].
  exfalso. apply E. lra.
Qed.

Lemma crop_lookup_ok (crop_type : string) :
  crop_lookup crop_type
  = Ok (default corn (crop_databases !! lower crop_type)).
Proof. reflexivity. Qed.

(** The weighted sum of the five AWLI components, with the weights every
    crop is given. *)
Lemma awli_fusion_components (g p w e sw : Q) (crop_type : string) :
  awli_fusion
    {[ "groundwater_anomaly" := g; "precipitation_anomaly" := p;
       "vegetation_water_stress" := w; "et_ratio" := e;
       "surface_water_availability" := sw ]}
    (_get_crop_water_weights crop_type)
  == g * 0.30 + p * 0.25 + w * 0.20 + e * 0.15 + sw * 0.10.
Proof.
  unfold awli_fusion.
  match goal with |- context [map_to_list ?m] =>
    let l := eval vm_compute in (map_to_list m) in
    replace (map_to_list m) with l by (vm_compute; reflexivity)
  end.
  unfold pysum. cbn [map fold_left fst snd].
  assert (Hw : ∀ key x,
            (_get_crop_water_weights crop_type !! key) = Some x ->
            default 1.0 (_get_crop_water_weights crop_type !! key) = x)
    by (intros key x ->; reflexivity).
  rewrite (Hw "groundwater_anomaly" 0.30) by reflexivity.
  rewrite (Hw "precipitation_anomaly" 0.25) by reflexivity.
  rewrite (Hw "vegetation_water_stress" 0.20) by reflexivity.
  rewrite (Hw "et_ratio" 0.15) by reflexivity.
  rewrite (Hw "surface_water_availability" 0.10) by reflexivity.
  q_consts. lra.
Qed.

(** With the class completed by a groundwater normalizer that returns,
    the AWLI value is the weighted sum as it stands: the constructor
    accepts it when it is in [0,1] and raises otherwise. *)
Lemma awli_completed (f : Groundwater -> SoilMoisture -> result Q)
    (raw_data : gmap string RawRecord) (crop_type : string) (g : Q) :
  f (_process_grace_groundwater (dataset raw_data "grace"))
    (_process_gldas_soil_moisture (dataset raw_data "smap_l4")) = Ok g ->
  let v := g * 0.30 + awli_precipitation_anomaly raw_data * 0.25
           + awli_water_stress_index raw_data * 0.20
           + awli_et_ratio raw_data * 0.15
           + awli_surface_water raw_data * 0.10 in
  (0 <= v <= 1 ->
   ∃ awli,
     compute_agricultural_water_level_indicator (Some f) raw_data crop_type
       = Ok awli ∧
     awli_value awli == v) ∧
  (~ 0 <= v <= 1 ->
   compute_agricultural_water_level_indicator (Some f) raw_data crop_type
   = Raise (ValidationError ["value"])).
Proof.
  intros Hf v.
  unfold compute_agricultural_water_level_indicator. cbv zeta.
  rewrite crop_lookup_ok, bind_Ok.
  simpl call_normalize_groundwater_anomaly. rewrite Hf, bind_Ok.
  pose proof (awli_fusion_components g (awli_precipitation_anomaly raw_data)
                (awli_water_stress_index raw_data) (awli_et_ratio raw_data)
                (awli_surface_water raw_data) crop_type) as Hsum.
  fold v in Hsum.
  set (v0 := awli_fusion _ _) in *.
  unfold AWLI_init. split.
  - intros Hv. rewrite validate1_ok.
    + rewrite bind_Ok. eexists. split; [reflexivity|]. exact Hsum.
    + apply ge0_le1_iff. rewrite Hsum. exact Hv.
  - intros Hv. destruct (ge0_le1 v0) eqn:E.
    + exfalso. apply Hv. apply ge0_le1_iff in E. rewrite <- Hsum. exact E.
    + reflexivity.
Qed.

(** What an outcome of the PAOI computation holds: the value is the
    weighted sum of its components, and the recommendations are the ones
    of that value. *)
Lemma paoi_outcome (raw_data : gmap string RawRecord)
    (crop_type pest : string) (s : rng) (paoi : PAOI) :
  invoke (compute_pesticide_application_optimization_index raw_data
            crop_type pest) s = Ok paoi ->
  paoi_fusion (paoi_components paoi) = Ok (paoi_value paoi) ∧
  paoi_recommendations paoi
  = _generate_pesticide_recommendations (paoi_value paoi)
      (paoi_components paoi).
Proof.
  unfold invoke, compute_pesticide_application_optimization_index.
  cbv zeta.
  destruct (_calculate_humidity_proxy _ _) as [h|e]; [|discriminate].
  cbv beta iota zeta delta
    [mbind M_bind mbind' lift _extract_wind_data _mock_aerosol_data
     uniform mret fst].
  rewrite paoi_fusion_components.
  unfold PAOI_init.
  destruct (validate _) as [[]|e]; [|discriminate].
  rewrite bind_Ok. intros [= <-]. cbn [paoi_components paoi_value
                                       paoi_recommendations].
  split; [apply paoi_fusion_components | reflexivity].
Qed.

(** The raw-data maps on which two AWLI normalizers leave [0,1]. *)
Lemma et_ratio_of_actual (v : Q) :
  let raw : gmap string RawRecord :=
    {[ "ecostress" := record_of [("et_actual", v)] None ]} in
  in_domain raw ∧
  fget (dataset raw "ecostress") "et_actual" 5.0 = v ∧
  awli_et_ratio raw == v / 7.5.
Proof.
  intros raw.
  assert (Hv : fget (dataset raw "ecostress") "et_actual" 5.0 = v)
    by reflexivity.
  assert (Ht : fget (dataset raw "modis_lst") "average" 25.0 = 25.0)
    by reflexivity.
  split; [|split; [exact Hv|]].
  - unfold in_domain. repeat split; apply Qle_bool_iff; vm_compute;
      reflexivity.
  - unfold awli_et_ratio, _safe_divide, _calculate_potential_et.
    cbv zeta. rewrite Hv, Ht.
    replace (Qneqb (Qmax 0 (25.0 * 0.3)) 0) with true
      by (vm_compute; reflexivity).
    assert (E : Qmax 0 (25.0 * 0.3) == 7.5) by (vm_compute; reflexivity).
    rewrite E. reflexivity.
Qed.

Lemma hot_canopy_stress :
  in_domain hot_canopy ∧ awli_water_stress_index hot_canopy == 3.
Proof.
  split.
  - unfold in_domain. repeat split; apply Qle_bool_iff; vm_compute;
      reflexivity.
  - vm_compute. reflexivity.
Qed.

(** C1, as stated, fails: the ET ratio is a bare quotient.  With the
    actual ET of 7.8 mm/day of [full_raw] and the potential ET of
    25 * 0.3 = 7.5 it is 1.04. *)
Lemma et_ratio_exceeds_one :
  awli_et_ratio full_raw == 1.04 ∧ ~ (0 <= awli_et_ratio full_raw <= 1).
Proof.
  split.
  - vm_compute. reflexivity.
  - intros [_ H]. vm_compute in H. apply H. reflexivity.
Qed.

(** C1, amended. The USMI computation returns for every raw-data map:
    its value is the weighted sum as it stands and is in [0,1], as are
    its confidence and its five components; its uncertainty is in
    [0,0.5].  Of the AWLI normalizers the precipitation anomaly and the
    surface-water availability are in [0,1]; the vegetation water stress
    is at least 0, at most 1 when the temperature it reads is below 30,
    and 3 on an in-domain map; the ET ratio is at least 0 for an actual
    ET that is, and above any given bound on some in-domain map.  The
    AWLI computation as written raises AttributeError on every input;
    with the missing method supplied, the AWLI value is the weighted sum
    as it stands when that is in [0,1], and the constructor raises
    otherwise.  On the input domain, with unit samples in [0,1], the
    PAOI computation returns: its value is the weighted sum as it stands
    and is in [0,1], as are the environmental impact score, the
    confidence of the application window and the five components. *)
Theorem index_values_in_unit_interval :
  (∀ raw_data, ∃ usmi u,
     compute_unified_soil_moisture_index raw_data = Ok usmi ∧
     usmi_uncertainty raw_data = Ok u ∧
     usmi_fusion (usmi_components usmi) (_assess_data_quality raw_data)
       = Ok (usmi_value usmi) ∧
     0 <= usmi_value usmi <= 1 ∧ 0 <= usmi_confidence usmi <= 1 ∧
     0 <= u <= 0.5 ∧
     map_Forall (fun _ x => 0 <= x <= 1) (usmi_components usmi)) ∧
  (∀ raw_data,
     0 <= awli_precipitation_anomaly raw_data <= 1 ∧
     0 <= awli_surface_water raw_data <= 1 ∧
     0 <= awli_water_stress_index raw_data ∧
     (fget (dataset raw_data "modis_lst") "average" 25.0 < 30 ->
      awli_water_stress_index raw_data <= 1) ∧
     (0 <= fget (dataset raw_data "ecostress") "et_actual" 5.0 ->
      0 <= awli_et_ratio raw_data)) ∧
  (∃ raw_data, in_domain raw_data ∧ awli_water_stress_index raw_data == 3) ∧
  (∀ bound, ∃ raw_data,
     in_domain raw_data ∧
     0 <= fget (dataset raw_data "ecostress") "et_actual" 5.0 ∧
     bound < awli_et_ratio raw_data) ∧
  (∀ raw_data crop_type,
     compute_agricultural_water_level_indicator as_written raw_data
       crop_type
     = Raise (AttributeError "_normalize_groundwater_anomaly")) ∧
  (∀ f raw_data crop_type g,
     f (_process_grace_groundwater (dataset raw_data "grace"))
       (_process_gldas_soil_moisture (dataset raw_data "smap_l4")) = Ok g ->
     let v := g * 0.30 + awli_precipitation_anomaly raw_data * 0.25
              + awli_water_stress_index raw_data * 0.20
              + awli_et_ratio raw_data * 0.15
              + awli_surface_water raw_data * 0.10 in
     (0 <= v <= 1 ->
      ∃ awli,
        compute_agricultural_water_level_indicator (Some f) raw_data
          crop_type = Ok awli ∧
        awli_value awli == v) ∧
     (~ 0 <= v <= 1 ->
      compute_agricultural_water_level_indicator (Some f) raw_data
        crop_type
      = Raise (ValidationError ["value"]))) ∧
  (∀ raw_data crop_type pest s,
     in_domain raw_data -> unit_draws s ->
     ∃ paoi,
       invoke (compute_pesticide_application_optimization_index raw_data
                 crop_type pest) s = Ok paoi ∧
       paoi_fusion (paoi_components paoi) = Ok (paoi_value paoi) ∧
       0 <= paoi_value paoi <= 1 ∧
       0 <= paoi_environmental_impact_score paoi <= 1 ∧
       0 <= window_confidence (paoi_application_window paoi) <= 1 ∧
       map_Forall (fun _ x => 0 <= x <= 1) (paoi_components paoi)).
Proof.
  split.
  { intros raw_data.
    destruct (usmi_run raw_data) as (comps & v & Hc & Hall & Hf & Hv & Hrun).
    pose proof (propagate_uncertainty_range comps raw_data) as Hu.
    eexists _, _. split; [exact Hrun|]. split.
    { unfold usmi_uncertainty. rewrite Hc. reflexivity. }
    simpl. split; [exact Hf|]. split; [exact Hv|].
    split; [q_cases; lra|].
    split; [exact Hu | exact Hall]. }
  split.
  { intros raw_data.
    split; [apply precipitation_anomaly_unit|].
    split; [apply surface_water_unit|].
    split; [apply water_stress_range|].
    split; [apply water_stress_range | apply et_ratio_nonneg]. }
  split; [exists hot_canopy; exact hot_canopy_stress|].
  split.
  { intros bound.
    pose proof (Qabs.Qle_Qabs bound) as Hb.
    pose proof (Qabs.Qabs_nonneg bound) as Hb0.
    destruct (et_ratio_of_actual (7.5 * (Qabs.Qabs bound + 1)))
      as (Hd & Ha & Hr).
    eexists. split; [exact Hd|]. split.
    - rewrite Ha. q_consts. lra.
    - rewrite Hr. apply Qlt_le_trans with (Qabs.Qabs bound + 1); [lra|].
      apply Qle_shift_div_l; [reflexivity|]. q_consts. lra. }
  split.
  { intros raw_data crop_type.
    unfold compute_agricultural_water_level_indicator. cbv zeta.
    rewrite crop_lookup_ok, bind_Ok. reflexivity. }
  split.
  { intros f raw_data crop_type g. apply awli_completed. }
  intros raw_data crop_type pest s Hd Hs.
  destruct (paoi_in_domain raw_data crop_type pest s Hd Hs)
    as (paoi & Hrun & Hrest).
  exists paoi. split; [exact Hrun|].
  split; [exact (proj1 (paoi_outcome _ _ _ _ _ Hrun)) | exact Hrest].
Qed.

Lemma index_values_in_unit_interval_witness :
  (in_domain full_raw ∧ unit_draws draws_mid) ∧
  0 <= awli_water_stress_index full_raw <= 1 ∧
  0 <= awli_et_ratio full_raw ∧
  compute_agricultural_water_level_indicator (Some (fun _ _ => Ok 1))
    hot_canopy "corn"
  = Raise (ValidationError ["value"]) ∧
  (∃ awli,
     compute_agricultural_water_level_indicator (Some (fun _ _ => Ok 0.5))
       full_raw "corn" = Ok awli ∧
     awli_value awli == 0.536) ∧
  ∃ paoi,
    invoke (compute_pesticide_application_optimization_index full_raw
              "corn" "corn_borer") draws_mid = Ok paoi ∧
    paoi_fusion (paoi_components paoi) = Ok (paoi_value paoi) ∧
    0 <= paoi_value paoi <= 1 ∧
    0 <= paoi_environmental_impact_score paoi <= 1 ∧
    0 <= window_confidence (paoi_application_window paoi) <= 1 ∧
    map_Forall (fun _ x => 0 <= x <= 1) (paoi_components paoi).
Proof.
  assert (Hd : in_domain full_raw).
  { unfold in_domain. repeat split; apply Qle_bool_iff; vm_compute;
      reflexivity. }
  assert (Hs : unit_draws draws_mid).
  { intros n. unfold draws_mid. lra. }
  destruct index_values_in_unit_interval
    as (_ & Hn & _ & _ & _ & Hawli & Hp).
  destruct (Hn full_raw) as (_ & _ & Hw0 & Hw1 & Het).
  split; [exact (conj Hd Hs)|].
  split; [split; [exact Hw0|] |].
  { apply Hw1. apply Qltb_lt. vm_compute. reflexivity. }
  split.
  { apply Het. apply Qle_bool_iff. vm_compute. reflexivity. }
  split.
  { apply (Hawli (fun _ _ => Ok 1) hot_canopy "corn" 1 eq_refl).
    intros [_ H]. apply Qle_bool_iff in H. vm_compute in H.
    discriminate H. }
  split.
  { destruct (Hawli (fun _ _ => Ok 0.5) full_raw "corn" 0.5 eq_refl)
      as [Hok _].
    destruct Hok as (awli & Hrun & Hv).
    { split; apply Qle_bool_iff; vm_compute; reflexivity. }
    exists awli. split; [exact Hrun|]. rewrite Hv.
    apply Qeq_bool_iff. vm_compute. reflexivity. }
  exact (Hp full_raw "corn" "corn_borer" draws_mid Hd Hs).
Defined.






(** C3 (the code departs from it). The environmental impact score reads
    the ['spray_drift_risk'] entry, which holds 1 - drift risk already,
    and inverts it again: the score is the average of the weather
    suitability and the drift risk itself.  On an empty raw-data map with
    the lowest draws (wind 2 m/s, AOD 0.1) the weather suitability is 5/6
    and the drift risk 1/4: the score is 13/24, not the 19/24 that
    average(weather_suitability, 1 - drift_risk) gives. *)
Theorem environmental_impact_averages_the_drift_risk :
  (∀ vs pc ws ph drift,
     _assess_environmental_impact (paoi_components_of vs pc ws ph drift)
     == (ws + drift) / 2) ∧
  ∃ paoi ws,
    invoke (compute_pesticide_application_optimization_index ∅
              "corn" "corn_borer") draws_low = Ok paoi ∧
    item (paoi_components paoi) "weather_suitability" = Ok ws ∧
    ws == 5 # 6 ∧
    _calculate_spray_drift_risk (wind_of draws_low) (aerosol_of draws_low)
      == 1 # 4 ∧
    paoi_environmental_impact_score paoi == 13 # 24 ∧
    ~ paoi_environmental_impact_score paoi == (ws + (1 - (1 # 4))) / 2.
Proof.
  split; [apply environmental_impact_components|].
  let r := eval vm_compute in
    (invoke (compute_pesticide_application_optimization_index ∅
               "corn" "corn_borer") draws_low) in
  match r with Ok ?p =>
    exists p;
    let w := eval vm_compute in (item (paoi_components p)
                                   "weather_suitability") in
    match w with Ok ?x => exists x end
  end.
  split; [vm_compute; reflexivity|].
  split; [vm_compute; reflexivity|].
  split; [vm_compute; reflexivity|].
  split; [vm_compute; reflexivity|].
  split; [vm_compute; reflexivity|].
  vm_compute. discriminate.
Qed.

(** C4 (the code departs from it). The crop lookup itself falls back to
    the corn entry for "dragonfruit" without raising, and the corn table
    gives the water requirement 8 of the vegetative stage; but the
    computation then calls [self._normalize_groundwater_anomaly], a
    method the engine class does not define: every AWLI computation
    raises AttributeError, whatever the raw-data map and the crop. *)
Theorem awli_raises_attribute_error :
  crop_lookup "dragonfruit" = Ok corn ∧
  _get_crop_water_requirements corn "vegetative" = 8 ∧
  ∀ (raw_data : gmap string RawRecord) (crop_type : string),
    compute_agricultural_water_level_indicator as_written raw_data
      crop_type
    = Raise (AttributeError "_normalize_groundwater_anomaly").
Proof.
  split; [vm_compute; reflexivity|].
  split; [vm_compute; reflexivity|].
  intros raw_data crop_type.
  unfold compute_agricultural_water_level_indicator. cbv zeta.
  rewrite crop_lookup_ok, bind_Ok. reflexivity.
Qed.

(** With the class completed by any groundwater normalizer, the AWLI
    computation for an unmapped crop reads the corn table and its
    outcome is the one for "corn", up to the crop name it echoes. *)
Lemma awli_unmapped_crop_uses_corn (f : Groundwater -> SoilMoisture -> result Q)
    (raw_data : gmap string RawRecord) :
  crop_databases !! lower "dragonfruit" = None ∧
  is_ok (compute_agricultural_water_level_indicator (Some f) raw_data
           "dragonfruit")
  = is_ok (compute_agricultural_water_level_indicator (Some f) raw_data
             "corn").
Proof.
  split; [vm_compute; reflexivity|].
  unfold compute_agricultural_water_level_indicator. cbv zeta.
  rewrite !crop_lookup_ok, !bind_Ok. simpl call_normalize_groundwater_anomaly.
  destruct (f _ _) as [g|e]; [|reflexivity].
  rewrite !bind_Ok. unfold AWLI_init.
  destruct (validate _) as [[]|e]; reflexivity.
Qed.

(** C9 (the code departs from it). [get_confidence] of an AWLI object
    with components evaluates the name [np], which models.py never
    binds: it raises NameError instead of returning
    min(1, stdev(component values) * 2); so does the confidence_scores
    dict of the unified-metrics endpoint. *)
Theorem awli_confidence_raises_name_error (self : AWLI) :
  AWLI_get_confidence self
  = (if bool_decide (size (awli_components self) = 0%nat)
     then Ok (Rdefinitions.Q2R 0.5)
     else Raise (NameError "np")) ∧
  ∀ usmi paoi,
    size (awli_components self) ≠ 0%nat ->
    Main.confidence_scores usmi self paoi = Raise (NameError "np").
Proof.
  assert (H : AWLI_get_confidence self
              = (if bool_decide (size (awli_components self) = 0%nat)
                 then Ok (Rdefinitions.Q2R 0.5)
                 else Raise (NameError "np"))).
  { unfold AWLI_get_confidence. case_bool_decide; reflexivity. }
  split; [exact H|].
  intros usmi paoi Hne. unfold Main.confidence_scores. rewrite H.
  rewrite bool_decide_eq_false_2 by exact Hne. reflexivity.
Qed.

Lemma awli_confidence_raises_name_error_witness :
  AWLI_get_confidence
    {| awli_value := 0.48; awli_crop_type := "corn";
       awli_water_requirement_status := "moderate";
       awli_components :=
         {[ "groundwater_anomaly" := 0.5; "precipitation_anomaly" := 0.4;
            "vegetation_water_stress" := 0.5; "et_ratio" := 2 # 3;
            "surface_water_availability" := 0.3 ]};
       awli_irrigation_recommendations := [] |}
  = Raise (NameError "np").
Proof.
  rewrite (proj1 (awli_confidence_raises_name_error _)).
  reflexivity.
Defined.
End FusionClaims.

Module NasaFacts.
Import NasaManager Examples.

Section Acquire.
Context {Payload : Type}.
Variable empty_dict : Payload.

Local Abbreviation fetch := (_fetch_dataset empty_dict).
Local Abbreviation bulk := (bulk_data_fetch empty_dict).
Local Abbreviation traces := (bulk_traces empty_dict).

(** The three attempts of the loop, spelled out. *)
Lemma fetch_dataset_cases (source : DataSource Payload) (id : string) :
  fetch source id =
  match try_fetch source id 0 with
  | Ok r => (Ok r, backoff_trace id 0 0)
  | Raise _ =>
      match try_fetch source id 1 with
      | Ok r => (Ok r, backoff_trace id 0 1)
      | Raise _ =>
          match try_fetch source id 2 with
          | Ok r => (Ok r, backoff_trace id 0 2)
          | Raise e => (Raise e, backoff_trace id 0 2)
          end
      end
  end.
Proof.
  unfold _fetch_dataset. simpl.
  destruct (try_fetch source id 0); [reflexivity|].
  destruct (try_fetch source id 1); [reflexivity|].
  destruct (try_fetch source id 2); reflexivity.
Qed.

Lemma fetch_trace_shape (source : DataSource Payload) (id : string) :
  ∃ n, n < max_retries ∧ (fetch source id).2 = backoff_trace id 0 n.
Proof.
  rewrite fetch_dataset_cases. unfold max_retries.
  destruct (try_fetch source id 0); [exists 0; split; [lia|reflexivity]|].
  destruct (try_fetch source id 1); [exists 1; split; [lia|reflexivity]|].
  destruct (try_fetch source id 2); exists 2; split; (lia || reflexivity).
Qed.

Lemma backoff_trace_attempts (id : string) (k n : nat) :
  attempts_made (backoff_trace id k n) = S n.
Proof.
  revert k. induction n as [|n IH]; intros k; simpl.
  - reflexivity.
  - rewrite IH. reflexivity.
Qed.

Lemma unknown_dataset_raises (source : DataSource Payload) (id : string)
    (k : nat) :
  id ∉ known_datasets ->
  try_fetch source id k = Raise (ValueError ("Unknown dataset: " +:+ id)).
Proof.
  intros H. unfold try_fetch, known_datasets in *.
  repeat (case_bool_decide; [exfalso; apply H; set_solver|]).
  reflexivity.
Qed.

Lemma unknown_dataset_fetch (source : DataSource Payload) (id : string) :
  id ∉ known_datasets ->
  fetch source id
  = (Raise (ValueError ("Unknown dataset: " +:+ id)),
     [Attempt id 0; Sleep 1; Attempt id 1; Sleep 2; Attempt id 2]).
Proof.
  intros Hid.
  rewrite fetch_dataset_cases, !unknown_dataset_raises by exact Hid.
  reflexivity.
Qed.

(** The dict after one more task: the entry of its id is written last. *)
Lemma bulk_snoc (sources : nat -> DataSource Payload)
    (datasets : list string) (d : string) :
  bulk sources (datasets ++ [d])
  = <[d := slot (fetch (sources (length datasets)) d).1]>
      (bulk sources datasets).
Proof.
  unfold bulk_data_fetch. cbv zeta.
  rewrite imap_app. simpl imap. rewrite Nat.add_0_r.
  rewrite zip_with_app by (by rewrite length_imap).
  rewrite foldl_app. reflexivity.
Qed.

(** The slot of an id is the one of its last task. *)
Lemma bulk_lookup_last (sources : nat -> DataSource Payload)
    (datasets : list string) (i : nat) (id : string) :
  datasets !! i = Some id ->
  (∀ j, i < j -> datasets !! j ≠ Some id) ->
  bulk sources datasets !! id = Some (slot (fetch (sources i) id).1).
Proof.
  revert i. induction datasets as [|d l IH] using rev_ind; intros i Hi Hlast.
  - discriminate Hi.
  - rewrite bulk_snoc.
    destruct (decide (i = length l)) as [->|Hne].
    + rewrite lookup_app_r, Nat.sub_diag in Hi by lia.
      injection Hi as ->. by rewrite lookup_insert_eq.
    + assert (Hlt : i < length l).
      { apply lookup_lt_Some in Hi. rewrite length_app in Hi. simpl in Hi.
        lia. }
      rewrite lookup_app_l in Hi by exact Hlt.
      assert (Hd : d ≠ id).
      { intros ->. apply (Hlast (length l) Hlt).
        rewrite lookup_app_r, Nat.sub_diag by lia. reflexivity. }
      rewrite lookup_insert_ne by exact Hd.
      apply IH; [exact Hi|].
      intros j Hj Hl. apply (Hlast j Hj).
      rewrite lookup_app_l by (by apply lookup_lt_Some in Hl). exact Hl.
Qed.


(** An id that is requested has a last task. *)
Lemma last_occurrence (datasets : list string) (id : string) :
  id ∈ datasets ->
  ∃ i, datasets !! i = Some id ∧ ∀ j, i < j -> datasets !! j ≠ Some id.
Proof.
  induction datasets as [|d l IH] using rev_ind; intros Hid.
  - by apply elem_of_nil in Hid.
  - destruct (decide (d = id)) as [->|Hne].
    + exists (length l). split.
      * rewrite lookup_app_r, Nat.sub_diag by lia. reflexivity.
      * intros j Hj Hl. apply lookup_lt_Some in Hl.
        rewrite length_app in Hl. simpl in Hl. lia.
    + apply elem_of_app in Hid as [Hid|Hid];
        [|apply list_elem_of_singleton in Hid; congruence].
      destruct (IH Hid) as (i & Hi & Hlast). exists i. split.
      * rewrite lookup_app_l by (by apply lookup_lt_Some in Hi). exact Hi.
      * intros j Hj Hl.
        destruct (decide (j < length l)) as [Hlt|Hge].
        -- rewrite lookup_app_l in Hl by exact Hlt. by apply (Hlast j Hj).
        -- rewrite lookup_app_r in Hl by lia.
           destruct (j - length l) as [|k]; simpl in Hl; [congruence|].
           discriminate Hl.
Qed.


(** Every task runs to its end: the trace of the task number [k] is the
    one of its own fetch. *)
Lemma bulk_traces_lookup (sources : nat -> DataSource Payload)
    (datasets : list string) (k : nat) (id : string) :
  datasets !! k = Some id ->
  traces sources datasets !! k = Some (fetch (sources k) id).2.
Proof.
  intros Hk. unfold bulk_traces. rewrite list_lookup_imap, Hk. reflexivity.
Qed.

(** The slot of an id that no source can fetch. *)
Lemma bulk_lookup_failed (sources : nat -> DataSource Payload)
    (datasets : list string) (id : string) :
  (∀ i, slot (fetch (sources i) id).1 = None) ->
  id ∈ datasets ->
  bulk sources datasets !! id = Some None.
Proof.
  intros Hfail Hin.
  destruct (last_occurrence datasets id Hin) as (i & Hi & Hl).
  rewrite (bulk_lookup_last sources datasets i id Hi Hl), Hfail.
  reflexivity.
Qed.


(** C6, amended. A dataset id outside the enumeration fails
    permanently, but not at once: the ValueError of the dispatch is
    caught by the handler of the retry loop like any other exception,
    so the task makes 3 attempts and sleeps 1 and then 2 time units
    before it gives up, whatever the fetch methods do; the slot is None
    in the result of the bulk fetch, and every other requested dataset
    has the slot of the fetch of its own last task. *)
Theorem unknown_dataset_is_retried (id : string) :
  id ∉ known_datasets ->
  (∀ source,
     fetch source id
     = (Raise (ValueError ("Unknown dataset: " +:+ id)),
        [Attempt id 0; Sleep 1; Attempt id 1; Sleep 2; Attempt id 2]) ∧
     attempts_made (fetch source id).2 = 3 ∧
     delay_incurred (fetch source id).2 = 3) ∧
  ∀ sources datasets,
    id ∈ datasets ->
    bulk sources datasets !! id = Some None ∧
    ∀ other, other ∈ datasets -> other ≠ id ->
      ∃ k, datasets !! k = Some other ∧
           (∀ j, k < j -> datasets !! j ≠ Some other) ∧
           bulk sources datasets !! other
           = Some (slot (fetch (sources k) other).1).
Proof.
  intros Hid. split.
  - intros source. rewrite (unknown_dataset_fetch source id Hid).
    repeat split; reflexivity.
  - intros sources datasets Hin. split.
    + apply bulk_lookup_failed; [|exact Hin].
      intros i. rewrite (unknown_dataset_fetch (sources i) id Hid).
      reflexivity.
    + intros other Ho _.
      destruct (last_occurrence datasets other Ho) as (k & Hk & Hlast).
      exists k. split; [exact Hk|]. split; [exact Hlast|].
      apply bulk_lookup_last; assumption.
Qed.
End Acquire.


(** C6, as stated, fails: the unknown id "sentinel2" is attempted 3 times
    and costs 3 time units of backoff, not one attempt and no delay. *)
Lemma unknown_dataset_three_attempts :
  ("sentinel2" ∉ known_datasets) ∧
  attempts_made (_fetch_dataset "" mock "sentinel2").2 = 3 ∧
  delay_incurred (_fetch_dataset "" mock "sentinel2").2 = 3 ∧
  ~ (attempts_made (_fetch_dataset "" mock "sentinel2").2 = 1 ∧
     delay_incurred (_fetch_dataset "" mock "sentinel2").2 = 0).
Proof.
  split.
  { unfold known_datasets. intros H.
    repeat (apply elem_of_cons in H as [H|H]; [discriminate H|]).
    by apply elem_of_nil in H. }
  split; [reflexivity|]. split; [reflexivity|].
  intros [H _]. vm_compute in H. discriminate H.
Qed.

Lemma unknown_dataset_is_retried_witness :
  ("sentinel2" ∉ known_datasets) ∧
  (bulk_data_fetch "" (fun _ => mock) ["gpm"; "sentinel2"; "grace"]
     !! "sentinel2")
    = Some None ∧
  (bulk_data_fetch "" (fun _ => mock) ["gpm"; "sentinel2"; "grace"]
     !! "gpm")
    = Some (Some "gpm_precipitation").
Proof.
  assert (H : "sentinel2" ∉ known_datasets).
  { unfold known_datasets. intros H.
    repeat (apply elem_of_cons in H as [H|H]; [discriminate H|]).
    by apply elem_of_nil in H. }
  split; [exact H|].
  destruct (unknown_dataset_is_retried "" "sentinel2" H) as (_ & Hbulk).
  assert (H1 : "sentinel2" ∈ ["gpm"; "sentinel2"; "grace"])
    by (apply list_elem_of_further, list_elem_of_here).
  assert (H2 : "gpm" ∈ ["gpm"; "sentinel2"; "grace"])
    by apply list_elem_of_here.
  destruct (Hbulk (fun _ => mock) ["gpm"; "sentinel2"; "grace"] H1)
    as (Hslot & Hother).
  split; [exact Hslot|].
  destruct (Hother "gpm" H2 ltac:(discriminate)) as (k & _ & _ & Hk).
  rewrite Hk. reflexivity.
Defined.
End NasaFacts.

(** * Further properties of the code *)

Module ModelFacts.
Import Models Engine MockData.
Local Open Scope Q_scope.

Lemma Qgeb_ge (x y : Q) : Qgeb x y = true <-> y <= x.
Proof. unfold Qgeb. apply Qle_bool_iff. Qed.

Lemma Qgeb_lt (x y : Q) : Qgeb x y = false <-> x < y.
Proof. unfold Qgeb. apply Qle_bool_gt. Qed.

Lemma category_critical (u : USMI) :
  USMI_get_category u = "critical" <-> usmi_value u < 0.2.
Proof.
  unfold USMI_get_category.
  destruct (Qgeb (usmi_value u) 0.8) eqn:E1;
    [apply Qgeb_ge in E1; split; [discriminate | lra]|].
  destruct (Qgeb (usmi_value u) 0.6) eqn:E2;
    [apply Qgeb_ge in E2; split; [discriminate | lra]|].
  destruct (Qgeb (usmi_value u) 0.4) eqn:E3;
    [apply Qgeb_ge in E3; split; [discriminate | lra]|].
  destruct (Qgeb (usmi_value u) 0.2) eqn:E4;
    [apply Qgeb_ge in E4; split; [discriminate | lra]|].
  apply Qgeb_lt in E4. split; [intros _; exact E4 | reflexivity].
Qed.

(** X1. The category ladder of [USMI.get_category] is exhaustive and
    monotone: every value falls in exactly one of the five bands, a
    threshold value (0.2, 0.4, 0.6, 0.8) belongs to the band above it, and a
    larger value never gets a lower category. *)
Theorem usmi_category_ladder (u1 u2 : USMI) :
  (USMI_get_category u1 = "optimal" <-> 0.8 <= usmi_value u1) ∧
  (USMI_get_category u1 = "good"
   <-> 0.6 <= usmi_value u1 ∧ usmi_value u1 < 0.8) ∧
  (USMI_get_category u1 = "moderate"
   <-> 0.4 <= usmi_value u1 ∧ usmi_value u1 < 0.6) ∧
  (USMI_get_category u1 = "poor"
   <-> 0.2 <= usmi_value u1 ∧ usmi_value u1 < 0.4) ∧
  (USMI_get_category u1 = "critical" <-> usmi_value u1 < 0.2) ∧
  (usmi_value u1 <= usmi_value u2 ->
   (category_rank (USMI_get_category u1)
    <= category_rank (USMI_get_category u2))%nat).
Proof.
  unfold USMI_get_category.
  generalize (usmi_value u1) (usmi_value u2). intros v w.
  destruct (Qgeb v 0.8) eqn:E1;
    [apply Qgeb_ge in E1 | apply Qgeb_lt in E1;
     destruct (Qgeb v 0.6) eqn:E2;
       [apply Qgeb_ge in E2 | apply Qgeb_lt in E2;
        destruct (Qgeb v 0.4) eqn:E3;
          [apply Qgeb_ge in E3 | apply Qgeb_lt in E3;
           destruct (Qgeb v 0.2) eqn:E4;
             [apply Qgeb_ge in E4 | apply Qgeb_lt in E4]]]];
  (repeat split; try discriminate; try reflexivity; try lra;
   try (intros [? ?]; lra); try (intros ?; lra));
  intros Hvw;
  (destruct (Qgeb w 0.8) eqn:F1;
    [apply Qgeb_ge in F1 | apply Qgeb_lt in F1;
     destruct (Qgeb w 0.6) eqn:F2;
       [apply Qgeb_ge in F2 | apply Qgeb_lt in F2;
        destruct (Qgeb w 0.4) eqn:F3;
          [apply Qgeb_ge in F3 | apply Qgeb_lt in F3;
           destruct (Qgeb w 0.2) eqn:F4;
             [apply Qgeb_ge in F4 | apply Qgeb_lt in F4]]]]);
  first [ lra | vm_compute; lia ].
Qed.

(** X2. The irrigation need an AWLI object reports and the water
    requirement status the engine stores in it never disagree: both cut
    the value at 0.7 and 0.4, so adequate goes with low, moderate with
    moderate and critical with high. *)
Theorem irrigation_need_matches_status (value water_needs : Q)
    (crop_type : string) (components : gmap string Q)
    (recommendations : list string) (awli : AWLI) :
  AWLI_init value crop_type
    (_assess_water_requirement_status value water_needs) components
    recommendations = Ok awli ->
  (awli_water_requirement_status awli = "adequate" ∧
   AWLI_get_irrigation_need awli = "low" ∧ 0.7 <= awli_value awli) ∨
  (awli_water_requirement_status awli = "moderate" ∧
   AWLI_get_irrigation_need awli = "moderate" ∧
   0.4 <= awli_value awli ∧ awli_value awli < 0.7) ∨
  (awli_water_requirement_status awli = "critical" ∧
   AWLI_get_irrigation_need awli = "high" ∧ awli_value awli < 0.4).
Proof.
  unfold AWLI_init. destruct (validate _) as [[]|e]; [|discriminate].
  intros [= <-]. simpl.
  unfold _assess_water_requirement_status, AWLI_get_irrigation_need. simpl.
  destruct (Qgeb value 0.7) eqn:E1;
    [apply Qgeb_ge in E1; left; auto|apply Qgeb_lt in E1].
  destruct (Qgeb value 0.4) eqn:E2;
    [apply Qgeb_ge in E2; right; left; auto
    |apply Qgeb_lt in E2; right; right; auto].
Qed.

Lemma irrigation_need_matches_status_witness :
  ∃ awli,
    AWLI_init 0.48 "corn" (_assess_water_requirement_status 0.48 8) ∅ []
      = Ok awli ∧
    awli_water_requirement_status awli = "moderate" ∧
    AWLI_get_irrigation_need awli = "moderate".
Proof.
  eexists. split; [reflexivity|].
  destruct (irrigation_need_matches_status 0.48 8 "corn" ∅ [] _ eq_refl)
    as [(H & _)|[(H1 & H2 & _)|(H & _)]];
    [discriminate H | split; assumption | discriminate H].
Defined.

(** X3. The field constraints on [USMI]: the constructor returns the
    object exactly when value and confidence are both in [0,1], and
    otherwise raises one ValidationError that lists the fields that are out
    of range, in the order of their declaration. *)
Theorem usmi_constructor_validates (value confidence : Q)
    (components : gmap string Q) (flags : gmap string QualityFlags)
    (recommendations : list string) :
  USMI_init value confidence components flags recommendations
  = match ge0_le1 value, ge0_le1 confidence with
    | true, true =>
        Ok {| usmi_value := value; usmi_confidence := confidence;
              usmi_components := components; usmi_quality_flags := flags;
              usmi_recommendations := recommendations |}
    | false, true => Raise (ValidationError ["value"])
    | true, false => Raise (ValidationError ["confidence"])
    | false, false => Raise (ValidationError ["value"; "confidence"])
    end ∧
  (is_ok (USMI_init value confidence components flags recommendations)
   = true <-> (0 <= value <= 1) ∧ (0 <= confidence <= 1)).
Proof.
  unfold USMI_init.
  pose proof (ge0_le1_iff value) as Hv.
  pose proof (ge0_le1_iff confidence) as Hc.
  destruct (ge0_le1 value), (ge0_le1 confidence);
    (split; [reflexivity|]); simpl; split.
  - intros _. split; [by apply Hv | by apply Hc].
  - reflexivity.
  - discriminate.
  - intros [_ H]. apply Hc in H. discriminate H.
  - discriminate.
  - intros [H _]. apply Hv in H. discriminate H.
  - discriminate.
  - intros [H _]. apply Hv in H. discriminate H.
Qed.
End ModelFacts.

Module NormalizerFacts.
Import Models Engine MockData ModelFacts.
Local Open Scope Q_scope.

(** The difference of two literals under a division is computed. *)
Ltac q_range :=
  repeat match goal with
  | |- context [(?x / ((?n # ?d) - (?m # ?e)))%Q] =>
      let c := eval vm_compute in ((n # d) - (m # e))%Q in
      change ((n # d) - (m # e))%Q with c
  end.

(** Case analysis on the [Qmin] and [Qmax] left in the hypotheses. *)
Ltac q_hyps :=
  repeat match goal with
  | H : context [Qmax ?a ?b] |- _ =>
      let E := fresh "E" in
      destruct (Q.max_spec a b) as [[? E]|[? E]]; rewrite !E in *; clear E
  | H : context [Qmin ?a ?b] |- _ =>
      let E := fresh "E" in
      destruct (Q.min_spec a b) as [[? E]|[? E]]; rewrite !E in *; clear E
  end.

Ltac q_full := q_cases; q_hyps; q_consts; try lra.

(** X4. The evapotranspiration ratio of AWLI is guarded against a zero
    potential ET: [_safe_divide] gives 0 for a zero denominator whatever
    the numerator and the true quotient otherwise, and the potential ET
    is 0.3 times the ['average'] temperature of the raw modis_lst record
    (25.0 without one), cut at 0.  So the ratio is 0 for every
    temperature that is not positive, and actual ET / (0.3 * temperature)
    for a positive one. *)
Theorem et_ratio_guarded (raw_data : gmap string RawRecord)
    (numerator denominator : Q) :
  (denominator == 0 -> _safe_divide numerator denominator = 0.0) ∧
  (~ denominator == 0 ->
   _safe_divide numerator denominator * denominator == numerator) ∧
  (fget (dataset raw_data "modis_lst") "average" 25.0 <= 0 ->
   awli_et_ratio raw_data == 0) ∧
  (0 < fget (dataset raw_data "modis_lst") "average" 25.0 ->
   awli_et_ratio raw_data
   * (0.3 * fget (dataset raw_data "modis_lst") "average" 25.0)
   == fget (dataset raw_data "ecostress") "et_actual" 5.0).
Proof.
  assert (Hzero : ∀ n d, d == 0 -> _safe_divide n d = 0.0).
  { intros n d H. unfold _safe_divide, Qneqb.
    apply Qeq_bool_iff in H. rewrite H. reflexivity. }
  assert (Hquot : ∀ n d, ~ d == 0 -> _safe_divide n d * d == n).
  { intros n d H. unfold _safe_divide, Qneqb.
    pose proof H as H'. apply Qeq_bool_false in H'. rewrite H'.
    simpl. field. exact H. }
  split; [apply Hzero|]. split; [apply Hquot|].
  unfold awli_et_ratio, _calculate_potential_et. cbv zeta.
  set (t := fget (dataset raw_data "modis_lst") "average" 25.0).
  set (a := fget (dataset raw_data "ecostress") "et_actual" 5.0).
  split; intros Ht.
  - rewrite Hzero; [reflexivity|]. q_cases; lra.
  - assert (Hp : Qmax 0 (t * 0.3) == 0.3 * t) by (q_cases; lra).
    assert (Hne : ~ Qmax 0 (t * 0.3) == 0) by (rewrite Hp; lra).
    rewrite <- Hp. apply Hquot. exact Hne.
Qed.

(** The range a data type is normalized over: one of the three of the
    table, or [0,1]. *)
Lemma normalization_range_cases (data_type : string) :
  let r := default (0.0, 1.0) (normalization_ranges !! data_type) in
  r = (0.0, 0.5) ∨ r = (0.0, 50.0) ∨ r = (0.0, 1.0).
Proof.
  cbv zeta.
  assert (H : map_Forall (fun _ r => r = (0.0, 0.5) ∨ r = (0.0, 50.0))
                normalization_ranges).
  { unfold normalization_ranges.
    repeat apply map_Forall_insert_2; auto. apply map_Forall_empty. }
  destruct (normalization_ranges !! data_type) as [r|] eqn:E; simpl.
  - destruct (H _ _ E); auto.
  - auto.
Qed.

Lemma clamp_monotone (x y : Q) :
  x <= y -> Qmax 0.0 (Qmin 1.0 x) <= Qmax 0.0 (Qmin 1.0 y).
Proof.
  intros H. apply Q.max_le_compat_l, Q.min_le_compat_l. exact H.
Qed.

(** X5. [_spatial_normalize] is monotone in the value for every data
    type, known or not; for soil moisture it is 0 up to 0, twice the value
    between 0 and 0.5, and 1 from 0.5 on; a data type that is not in the
    table is normalized over [0,1]. *)
Theorem spatial_normalize_monotone (v w : Q) (data_type : string) :
  (v <= w -> _spatial_normalize v data_type <= _spatial_normalize w data_type) ∧
  (v <= 0 -> _spatial_normalize v "soil_moisture" == 0) ∧
  (0 <= v <= 0.5 -> _spatial_normalize v "soil_moisture" == 2 * v) ∧
  (0.5 <= v -> _spatial_normalize v "soil_moisture" == 1) ∧
  (normalization_ranges !! data_type = None ->
   0 <= v <= 1 -> _spatial_normalize v data_type == v).
Proof.
  split; [|split; [|split; [|split]]].
  - intros Hvw. unfold _spatial_normalize.
    destruct (normalization_range_cases data_type) as [-> | [-> | ->]];
      apply clamp_monotone; q_range; q_consts; lra.
  - intros H. unfold _spatial_normalize.
    change (default _ _) with (0.0, 0.5). cbv beta iota zeta.
    q_range. q_full.
  - intros H. unfold _spatial_normalize.
    change (default _ _) with (0.0, 0.5). cbv beta iota zeta.
    q_range. q_full.
  - intros H. unfold _spatial_normalize.
    change (default _ _) with (0.0, 0.5). cbv beta iota zeta.
    q_range. q_full.
  - intros Hnone H. unfold _spatial_normalize. rewrite Hnone.
    cbv beta iota zeta delta [default]. q_range. q_full.
Qed.



(** X7. The temperature stress factor is 1 exactly for an average
    temperature in [20,30] and 0 exactly for one that is at most 0 or at
    least 50; it rises below 20 and falls above 30. *)
Theorem temperature_stress_profile (t u : Temperature) :
  (_calculate_temperature_stress t == 1
   <-> 20 <= average t ∧ average t <= 30) ∧
  (_calculate_temperature_stress t == 0
   <-> average t <= 0 ∨ 50 <= average t) ∧
  (average t <= average u -> average u <= 20 ->
   _calculate_temperature_stress t <= _calculate_temperature_stress u) ∧
  (30 <= average t -> average t <= average u ->
   _calculate_temperature_stress u <= _calculate_temperature_stress t).
Proof.
  unfold _calculate_temperature_stress. cbv zeta.
  generalize (average t) (average u). intros a b.
  assert (Hcase : ∀ x,
    (if Qle_bool 20 x && Qle_bool x 30 then 1.0
     else if Qltb x 20 then Qmax 0.0 (x / 20.0)
     else Qmax 0.0 (1.0 - (x - 30) / 20.0))
    == (if Qle_bool 20 x && Qle_bool x 30 then 1
        else if Qltb x 20 then Qmax 0 (x * (1 # 20))
        else Qmax 0 (1 - (x - 30) * (1 # 20)))).
  { intros x. destruct (Qle_bool 20 x && Qle_bool x 30); [reflexivity|].
    destruct (Qltb x 20); q_full. }
  rewrite !Hcase. clear Hcase.
  assert (Hval : ∀ x,
    (20 <= x <= 30 ->
     (if Qle_bool 20 x && Qle_bool x 30 then 1
      else if Qltb x 20 then Qmax 0 (x * (1 # 20))
      else Qmax 0 (1 - (x - 30) * (1 # 20))) == 1) ∧
    (x < 20 ->
     (if Qle_bool 20 x && Qle_bool x 30 then 1
      else if Qltb x 20 then Qmax 0 (x * (1 # 20))
      else Qmax 0 (1 - (x - 30) * (1 # 20))) == Qmax 0 (x * (1 # 20))) ∧
    (30 < x ->
     (if Qle_bool 20 x && Qle_bool x 30 then 1
      else if Qltb x 20 then Qmax 0 (x * (1 # 20))
      else Qmax 0 (1 - (x - 30) * (1 # 20)))
     == Qmax 0 (1 - (x - 30) * (1 # 20)))).
  { intros x. repeat split; intros H.
    - destruct H as [H1 H2]. apply Qle_bool_iff in H1, H2.
      rewrite H1, H2. reflexivity.
    - assert (E : Qle_bool 20 x = false) by (apply Qle_bool_gt; lra).
      rewrite E. simpl.
      assert (E' : Qltb x 20 = true) by (apply Qltb_lt; lra).
      rewrite E'. reflexivity.
    - assert (E : Qle_bool x 30 = false) by (apply Qle_bool_gt; lra).
      rewrite E, andb_false_r.
      assert (E' : Qltb x 20 = false) by (apply Qltb_ge; lra).
      rewrite E'. reflexivity. }
  assert (Htri : ∀ x, x < 20 ∨ 20 <= x <= 30 ∨ 30 < x).
  { intros x. destruct (Qlt_le_dec x 20); [auto|].
    destruct (Qlt_le_dec 30 x); [auto|]. right; left. split; assumption. }
  split; [split|split; [split|split]].
  - intros H. destruct (Htri a) as [Ha|[Ha|Ha]]; [| lra |].
    + rewrite (proj1 (proj2 (Hval a)) Ha) in H. q_hyps; lra.
    + rewrite (proj2 (proj2 (Hval a)) Ha) in H. q_hyps; lra.
  - intros [H1 H2]. apply (proj1 (Hval a)). split; assumption.
  - intros H. destruct (Htri a) as [Ha|[Ha|Ha]].
    + rewrite (proj1 (proj2 (Hval a)) Ha) in H. left. q_hyps; lra.
    + rewrite (proj1 (Hval a) Ha) in H. lra.
    + rewrite (proj2 (proj2 (Hval a)) Ha) in H. right. q_hyps; lra.
  - intros [H|H].
    + destruct (Qlt_le_dec a 20) as [Ha|Ha]; [|lra].
      rewrite (proj1 (proj2 (Hval a))) by lra. q_full.
    + rewrite (proj2 (proj2 (Hval a))) by lra. q_full.
  - intros Hab Hb. destruct (Qlt_le_dec b 20) as [Hb'|Hb'].
    + rewrite (proj1 (proj2 (Hval a))), (proj1 (proj2 (Hval b))) by lra.
      apply Q.max_le_compat_l. lra.
    + rewrite (proj1 (Hval b)) by lra.
      destruct (Qlt_le_dec a 20) as [Ha'|Ha'].
      * rewrite (proj1 (proj2 (Hval a))) by lra. q_full.
      * rewrite (proj1 (Hval a)) by lra. lra.
  - intros Ha Hab. destruct (Qlt_le_dec 30 a) as [Ha'|Ha'].
    + rewrite (proj2 (proj2 (Hval a))), (proj2 (proj2 (Hval b))) by lra.
      apply Q.max_le_compat_l. lra.
    + rewrite (proj1 (Hval a)) by lra.
      destruct (Qlt_le_dec 30 b) as [Hb'|Hb'].
      * rewrite (proj2 (proj2 (Hval b))) by lra. q_full.
      * rewrite (proj1 (Hval b)) by lra. lra.
Qed.
End NormalizerFacts.

Module IndexFacts.
Import Models Engine MockData ModelFacts NormalizerFacts PaoiFacts.
Local Open Scope Q_scope.

(** X8. The precipitation anomaly against a climatology with a positive
    mean is the current total over twice the mean, clamped to [0,1]: 0 for
    no rain, 0.5 at the mean, 1 from twice the mean on (50 mm for the
    engine's fixed climatology); a mean that is not positive gives 0.5. *)
Theorem precipitation_anomaly_is_half_ratio (gpm_data : RawRecord)
    (climatology : Climatology) :
  (0 < mean climatology ->
   _calculate_precipitation_anomaly gpm_data climatology
   == Qmax 0 (Qmin 1 (fget gpm_data "precipitation_cal" 20.0
                      / (2 * mean climatology)))) ∧
  (mean climatology <= 0 ->
   _calculate_precipitation_anomaly gpm_data climatology = 0.5) ∧
  _calculate_precipitation_anomaly gpm_data _get_precipitation_climatology
  == Qmax 0 (Qmin 1 (fget gpm_data "precipitation_cal" 20.0 / 50)).
Proof.
  assert (Hgen : 0 < mean climatology ->
    _calculate_precipitation_anomaly gpm_data climatology
    == Qmax 0 (Qmin 1 (fget gpm_data "precipitation_cal" 20.0
                       / (2 * mean climatology)))).
  { intros Hm. unfold _calculate_precipitation_anomaly. cbv zeta.
    assert (E : Qgtb (mean climatology) 0 = true) by (by apply Qltb_lt).
    rewrite E.
    generalize (fget gpm_data "precipitation_cal" 20.0). intros c.
    assert (Eq : ((c - mean climatology) / mean climatology + 1.0) / 2.0
                 == c / (2 * mean climatology)).
    { field. lra. }
    rewrite Eq.
    assert (E0 : 0.0 == 0) by reflexivity.
    assert (E1 : 1.0 == 1) by reflexivity.
    rewrite E0, E1. reflexivity. }
  split; [exact Hgen|]. split.
  - intros Hm. unfold _calculate_precipitation_anomaly. cbv zeta.
    assert (E : Qgtb (mean climatology) 0 = false) by (by apply Qltb_ge).
    rewrite E. reflexivity.
  - clear Hgen. unfold _calculate_precipitation_anomaly. cbv zeta.
    change (Qgtb (mean _get_precipitation_climatology) 0) with true.
    cbv iota. simpl mean.
    generalize (fget gpm_data "precipitation_cal" 20.0). intros c.
    assert (Eq : ((c - 25.0) / 25.0 + 1.0) / 2.0 == c / 50) by (field).
    rewrite Eq.
    assert (E0 : 0.0 == 0) by reflexivity.
    assert (E1 : 1.0 == 1) by reflexivity.
    rewrite E0, E1. reflexivity.
Qed.

(** X9. The phenology timing score is the default 0.6 for every pest
    outside corn_borer, aphids and rust, whatever the growth stage, and for
    every pest when NDVI is below 0.3 (emergence) or at least 0.8
    (maturity): the table has entries for the vegetative and reproductive
    stages only. *)
Theorem timing_score_defaults (vegetation_data : RawRecord)
    (crop_type stage pest : string) :
  (pest ≠ "corn_borer" -> pest ≠ "aphids" -> pest ≠ "rust" ->
   _get_pesticide_timing_score stage pest = 0.6) ∧
  (fget vegetation_data "ndvi" 0.5 < 0.3 ∨
   0.8 <= fget vegetation_data "ndvi" 0.5 ->
   _get_pesticide_timing_score
     (_determine_phenology_stage vegetation_data crop_type) pest = 0.6) ∧
  (stage ≠ "vegetative" -> stage ≠ "reproductive" ->
   _get_pesticide_timing_score stage pest = 0.6).
Proof.
  assert (Hstage : ∀ st, st ≠ "vegetative" -> st ≠ "reproductive" ->
                         _get_pesticide_timing_score st pest = 0.6).
  { intros st H1 H2. unfold _get_pesticide_timing_score, timing_scores.
    rewrite !lookup_insert_ne by congruence.
    rewrite ?lookup_singleton_ne by congruence. reflexivity. }
  split; [|split].
  - intros H1 H2 H3. unfold _get_pesticide_timing_score, timing_scores.
    rewrite !lookup_insert_ne by congruence.
    rewrite ?lookup_singleton_ne by congruence. reflexivity.
  - intros H. unfold _determine_phenology_stage. cbv zeta.
    destruct H as [H|H].
    + assert (E : Qltb (fget vegetation_data "ndvi" 0.5) 0.3 = true)
        by (by apply Qltb_lt).
      rewrite E. apply Hstage; discriminate.
    + assert (E1 : Qltb (fget vegetation_data "ndvi" 0.5) 0.3 = false)
        by (apply Qltb_ge; lra).
      assert (E2 : Qltb (fget vegetation_data "ndvi" 0.5) 0.6 = false)
        by (apply Qltb_ge; lra).
      assert (E3 : Qltb (fget vegetation_data "ndvi" 0.5) 0.8 = false)
        by (apply Qltb_ge; lra).
      rewrite E1, E2, E3. apply Hstage; discriminate.
  - apply Hstage.
Qed.

Lemma timing_score_defaults_witness :
  _get_pesticide_timing_score "vegetative" "general" = 0.6 ∧
  _get_pesticide_timing_score "maturity" "rust" = 0.6.
Proof.
  destruct (timing_score_defaults empty_record "corn" "vegetative" "general")
    as (H1 & _).
  destruct (timing_score_defaults empty_record "corn" "maturity" "rust")
    as (_ & _ & H2).
  split; [apply H1 | apply H2]; discriminate.
Defined.

(** Membership in a list of string literals. *)
Ltac mem_false H :=
  repeat (apply elem_of_cons in H as [H|H]; [discriminate H|]);
  apply elem_of_nil in H; contradiction.

Ltac mem_true :=
  solve [repeat first [apply list_elem_of_here | apply list_elem_of_further]].

Ltac iff_case :=
  let H := fresh "H" in
  split; intros H;
  first [ lra | mem_true | (exfalso; lra) | mem_false H | discriminate H
        | reflexivity | (destruct H as (? & ? & ?); lra)
        | (repeat split; lra) ].

(** X10. [generate_alerts] emits the soil-moisture alert exactly when the
    USMI value is below 0.2 (the "critical" category), the water-shortage
    alert exactly when the AWLI value is below 0.2 and the pest-management
    warning exactly when the PAOI value is below 0.3; it emits nothing
    else, in that order, and nothing at all when no threshold is
    crossed. *)
Theorem alerts_follow_thresholds (usmi : USMI) (awli : AWLI) (paoi : PAOI) :
  generate_alerts usmi awli paoi
  = (if Qltb (usmi_value usmi) 0.2
     then ["CRITICAL: Extremely low soil moisture detected"] else []) ++
    (if Qltb (awli_value awli) 0.2
     then ["CRITICAL: Critical water shortage detected"] else []) ++
    (if Qltb (paoi_value paoi) 0.3
     then ["WARNING: Poor conditions for pest management"] else []) ∧
  ("CRITICAL: Extremely low soil moisture detected"
     ∈ generate_alerts usmi awli paoi
   <-> USMI_get_category usmi = "critical") ∧
  ("CRITICAL: Critical water shortage detected"
     ∈ generate_alerts usmi awli paoi
   <-> awli_value awli < 0.2) ∧
  ("WARNING: Poor conditions for pest management"
     ∈ generate_alerts usmi awli paoi
   <-> paoi_value paoi < 0.3) ∧
  (generate_alerts usmi awli paoi = []
   <-> 0.2 <= usmi_value usmi ∧ 0.2 <= awli_value awli ∧
       0.3 <= paoi_value paoi).
Proof.
  rewrite (category_critical usmi).
  unfold generate_alerts. cbv zeta.
  destruct (Qltb (usmi_value usmi) 0.2) eqn:E1;
    [apply Qltb_lt in E1 | apply Qltb_ge in E1];
  (destruct (Qltb (awli_value awli) 0.2) eqn:E2;
    [apply Qltb_lt in E2 | apply Qltb_ge in E2]);
  (destruct (Qltb (paoi_value paoi) 0.3) eqn:E3;
    [apply Qltb_lt in E3 | apply Qltb_ge in E3]);
  simpl;
  (split; [reflexivity|]);
  (split; [iff_case | split; [iff_case | split; [iff_case | iff_case]]]).
Qed.

(** X11. Whatever order the set iterates in, the integrated
    recommendations hold no duplicate, and hold
    exactly the recommendations of the three indices plus at most one
    cross-index message: the critical one when both the USMI and the AWLI
    value are below 0.4, the optimal one when the PAOI value is above 0.7
    and the USMI value above 0.6 (the two conditions exclude each other).
    In particular USMI and AWLI below 0.2 give both critical alerts and the
    combined critical message. *)
Theorem integrated_recommendations_merge (order : SetOrder) (usmi : USMI)
    (awli : AWLI) (paoi : PAOI) (r : string) :
  NoDup (generate_integrated_recommendations order usmi awli paoi) ∧
  (r ∈ generate_integrated_recommendations order usmi awli paoi
   <-> r ∈ usmi_recommendations usmi ∨
       r ∈ awli_irrigation_recommendations awli ∨
       r ∈ paoi_recommendations paoi ∨
       (r = "CRITICAL: Both soil moisture and water levels are low - immediate action required"
        ∧ usmi_value usmi < 0.4 ∧ awli_value awli < 0.4) ∨
       (r = "Optimal conditions for integrated crop management"
        ∧ 0.7 < paoi_value paoi ∧ 0.6 < usmi_value usmi)) ∧
  (usmi_value usmi < 0.2 -> awli_value awli < 0.2 ->
   "CRITICAL: Both soil moisture and water levels are low - immediate action required"
     ∈ generate_integrated_recommendations order usmi awli paoi ∧
   "CRITICAL: Extremely low soil moisture detected"
     ∈ generate_alerts usmi awli paoi ∧
   "CRITICAL: Critical water shortage detected"
     ∈ generate_alerts usmi awli paoi).
Proof.
  assert (Hmem : r ∈ generate_integrated_recommendations order usmi awli paoi
   <-> r ∈ usmi_recommendations usmi ∨
       r ∈ awli_irrigation_recommendations awli ∨
       r ∈ paoi_recommendations paoi ∨
       (r = "CRITICAL: Both soil moisture and water levels are low - immediate action required"
        ∧ usmi_value usmi < 0.4 ∧ awli_value awli < 0.4) ∨
       (r = "Optimal conditions for integrated crop management"
        ∧ 0.7 < paoi_value paoi ∧ 0.6 < usmi_value usmi)).
  { unfold generate_integrated_recommendations. cbv zeta.
    rewrite list_set_elem_of. unfold Qgtb.
    destruct (Qltb (usmi_value usmi) 0.4) eqn:E1;
      [apply Qltb_lt in E1 | apply Qltb_ge in E1];
    (destruct (Qltb (awli_value awli) 0.4) eqn:E2;
      [apply Qltb_lt in E2 | apply Qltb_ge in E2]);
    (destruct (Qltb 0.7 (paoi_value paoi)) eqn:E3;
      [apply Qltb_lt in E3 | apply Qltb_ge in E3]);
    (destruct (Qltb 0.6 (usmi_value usmi)) eqn:E4;
      [apply Qltb_lt in E4 | apply Qltb_ge in E4]);
    simpl; rewrite ?elem_of_app, ?elem_of_cons, ?elem_of_nil;
    try (exfalso; lra); split; intros H;
    repeat match goal with
           | H : _ ∨ _ |- _ => destruct H as [H|H]
           | H : _ ∧ _ |- _ => destruct H
           end;
    subst; try contradiction; try lra; auto 10. }
  split; [apply list_set_NoDup|]. split; [exact Hmem|].
  intros Hu Ha.
  assert (E1 : Qltb (usmi_value usmi) 0.4 = true) by (apply Qltb_lt; lra).
  assert (E2 : Qltb (awli_value awli) 0.4 = true) by (apply Qltb_lt; lra).
  assert (E3 : Qltb (usmi_value usmi) 0.2 = true) by (by apply Qltb_lt).
  assert (E4 : Qltb (awli_value awli) 0.2 = true) by (by apply Qltb_lt).
  split; [|split].
  - unfold generate_integrated_recommendations. cbv zeta.
    rewrite list_set_elem_of.
    rewrite E1, E2. simpl. rewrite !elem_of_app, elem_of_cons. auto.
  - unfold generate_alerts. cbv zeta. rewrite E3, E4.
    destruct (Qltb (paoi_value paoi) 0.3); simpl;
      rewrite !elem_of_cons; auto.
  - unfold generate_alerts. cbv zeta. rewrite E3, E4.
    destruct (Qltb (paoi_value paoi) 0.3); simpl;
      rewrite !elem_of_cons; auto.
Qed.

Lemma lower_ascii_idempotent (c : ascii) :
  lower_ascii (lower_ascii c) = lower_ascii c.
Proof. destruct c as [[] [] [] [] [] [] [] []]; vm_compute; reflexivity. Qed.

Lemma lower_idempotent (s : string) : lower (lower s) = lower s.
Proof.
  induction s as [|c s IH]; simpl; [reflexivity|].
  rewrite lower_ascii_idempotent, IH. reflexivity.
Qed.

(** X12. The crop lookup does not depend on the case of the crop name: a
    name and its lowercase form select the same entry; the four table
    names in any case select their own entry, and every other name the
    corn entry.  It never raises. *)
Theorem crop_lookup_case_insensitive (crop_type : string) :
  crop_lookup (lower crop_type) = crop_lookup crop_type ∧
  crop_lookup "Wheat" = Ok wheat ∧ crop_lookup "SOYBEAN" = Ok soybean ∧
  crop_lookup "rice" = Ok rice ∧ crop_lookup "CoRn" = Ok corn ∧
  (lower crop_type ≠ "corn" -> lower crop_type ≠ "wheat" ->
   lower crop_type ≠ "soybean" -> lower crop_type ≠ "rice" ->
   crop_lookup crop_type = Ok corn).
Proof.
  split; [|repeat split; try (vm_compute; reflexivity)].
  - unfold crop_lookup. rewrite lower_idempotent. reflexivity.
  - intros H1 H2 H3 H4.
    change (crop_lookup crop_type)
      with (Ok (default corn (crop_databases !! lower crop_type))).
    unfold crop_databases, _initialize_crop_databases.
    rewrite !lookup_insert_ne by congruence.
    rewrite ?lookup_singleton_ne by congruence. reflexivity.
Qed.
End IndexFacts.

Module MockFacts.
Import Models Engine MockData NasaManager.
Local Open Scope Q_scope.

Lemma unit_draws_later (s s' : rng) :
  (∀ n, ∃ m, s' n = s m) -> unit_draws s -> unit_draws s'.
Proof. intros H Hs n. destruct (H n) as [m ->]. apply Hs. Qed.

(** One branch of the generator: the record it draws. *)
Lemma mock_record_run (key : string) (draw : M RawRecord) (s : rng) :
  mock_record key = Some draw ->
  ∃ r s',
    draw s = (Ok r, s') ∧ (∀ n, ∃ m, s' n = s m) ∧
    key ∈ known_datasets ∧
    quality_flag r
    = (if bool_decide (key ∈ ["smap_l3"; "smap_l4"; "modis_lst"; "gpm"])
       then Some "good" else None) ∧
    fields r !! "average" = None ∧
    fields r !! "probability_of_precipitation" = None ∧
    (unit_draws s ->
     (key = "modis_vegetation" -> fget r "ndvi" 0.5 <= 1) ∧
     (key = "gpm" -> 0 <= fget r "precipitation_cal" 20.0)).
Proof.
  unfold mock_record.
  repeat (case_bool_decide;
          [subst key; intros [= <-];
           cbv beta iota zeta delta
             [mbind M_bind mbind' uniform randint mret];
           eexists _, _; split; [reflexivity|];
           split; [intros n; eexists; reflexivity|];
           split; [unfold known_datasets; set_solver|];
           split; [reflexivity|];
           split; [reflexivity|];
           split; [reflexivity|];
           intros Hs; split; intros Hid; try discriminate Hid;
           unfold fget; cbn [fields];
           (rewrite ?lookup_insert_ne by done);
           first [rewrite lookup_insert_eq | rewrite lookup_singleton_eq];
           cbn [default from_option id];
           pose proof (Hs 0%nat); pose proof (Hs 1%nat); lra
          |]).
  discriminate.
Qed.

Lemma mock_record_known (key : string) :
  is_Some (mock_record key) <-> key ∈ known_datasets.
Proof.
  split.
  - intros [draw H].
    destruct (mock_record_run key draw (fun _ => 0) H)
      as (? & ? & _ & _ & Hk & _). exact Hk.
  - unfold known_datasets. rewrite !elem_of_cons, elem_of_nil.
    intros H. repeat (destruct H as [->|H]; [eexists; reflexivity|]).
    contradiction.
Qed.

(** The loop keeps whatever holds of every record a branch draws. *)
Lemma mock_loop_inv (P : string -> RawRecord -> Prop) (Q : rng -> Prop) :
  (∀ s s', (∀ n, ∃ m, s' n = s m) -> Q s -> Q s') ->
  (∀ key draw s, mock_record key = Some draw -> Q s ->
     ∃ r s', draw s = (Ok r, s') ∧ (∀ n, ∃ m, s' n = s m) ∧ P key r) ->
  ∀ datasets acc s,
    Q s -> (∀ key r, acc !! key = Some r -> P key r) ->
    ∃ m s',
      mock_loop datasets acc s = (Ok m, s') ∧
      (∀ n, ∃ k, s' n = s k) ∧
      (∀ key r, m !! key = Some r -> P key r) ∧
      (∀ key, is_Some (m !! key)
              <-> is_Some (acc !! key) ∨
                  (key ∈ datasets ∧ key ∈ known_datasets)).
Proof.
  intros HQ Hdraw datasets.
  induction datasets as [|d l IH]; intros acc s Hs Hacc.
  - exists acc, s. split; [reflexivity|]. split; [by eexists|].
    split; [exact Hacc|]. intros key. rewrite elem_of_nil. tauto.
  - cbn [mock_loop]. destruct (mock_record d) as [draw|] eqn:Ed.
    + destruct (Hdraw d draw s Ed Hs) as (r & s1 & Hrun & Hs1 & Hr).
      destruct (IH (<[d := r]> acc) s1 (HQ _ _ Hs1 Hs))
        as (m & s' & Hloop & Hs' & Hm & Hdom).
      { intros key r'. destruct (decide (key = d)) as [->|Hne].
        - rewrite lookup_insert_eq. by intros [= <-].
        - rewrite lookup_insert_ne by congruence. apply Hacc. }
      exists m, s'. split.
      { unfold mbind, M_bind, mbind'. rewrite Hrun. exact Hloop. }
      split.
      { intros n. destruct (Hs' n) as [k ->]. destruct (Hs1 k) as [j ->].
        by eexists. }
      split; [exact Hm|]. intros key. rewrite Hdom, elem_of_cons.
      destruct (decide (key = d)) as [->|Hne].
      * rewrite lookup_insert_eq. split; [|eauto].
        intros _. right. split; [by left|].
        apply mock_record_known. by eexists.
      * rewrite lookup_insert_ne by congruence. tauto.
    + destruct (IH acc s Hs Hacc) as (m & s' & Hloop & Hs' & Hm & Hdom).
      exists m, s'. split; [exact Hloop|]. split; [exact Hs'|].
      split; [exact Hm|]. intros key. rewrite Hdom, elem_of_cons.
      split; [tauto|]. intros [H|[[->|H] Hk]]; [tauto| |tauto].
      apply mock_record_known in Hk. rewrite Ed in Hk.
      by destruct Hk.
Qed.

(** What every run of the generator gives. *)
Lemma mock_data_run (datasets : list string) (s : rng) :
  ∃ raw_data s',
    _generate_mock_nasa_data datasets s = (Ok raw_data, s') ∧
    (∀ n, ∃ k, s' n = s k) ∧
    (∀ key, is_Some (raw_data !! key)
            <-> key ∈ datasets ∧ key ∈ known_datasets) ∧
    (∀ key r, raw_data !! key = Some r ->
       quality_flag r
       = (if bool_decide (key ∈ ["smap_l3"; "smap_l4"; "modis_lst"; "gpm"])
          then Some "good" else None) ∧
       fields r !! "average" = None ∧
       fields r !! "probability_of_precipitation" = None) ∧
    (unit_draws s -> in_domain raw_data).
Proof.
  unfold _generate_mock_nasa_data.
  destruct (mock_loop_inv
    (fun key r =>
       quality_flag r
       = (if bool_decide (key ∈ ["smap_l3"; "smap_l4"; "modis_lst"; "gpm"])
          then Some "good" else None) ∧
       fields r !! "average" = None ∧
       fields r !! "probability_of_precipitation" = None)
    (fun _ => True) ltac:(done)) with (datasets := datasets) (acc := ∅ : gmap string RawRecord) (s := s)
    as (m & s' & Hloop & Hs' & Hm & Hdom).
  { intros key draw s0 Hd _.
    destruct (mock_record_run key draw s0 Hd)
      as (r & s1 & H1 & H2 & _ & H3 & H4 & H5 & _).
    exists r, s1. auto. }
  { exact I. }
  { intros key r. rewrite lookup_empty. discriminate. }
  exists m, s'. split; [exact Hloop|]. split; [exact Hs'|].
  split.
  { intros key. rewrite Hdom, lookup_empty.
    split; [intros [[? [=]]|H]; exact H | auto]. }
  split; [exact Hm|].
  intros Hs.
  destruct (mock_loop_inv
    (fun key r =>
       (key = "modis_vegetation" -> fget r "ndvi" 0.5 <= 1) ∧
       (key = "gpm" -> 0 <= fget r "precipitation_cal" 20.0))
    unit_draws unit_draws_later) with (datasets := datasets) (acc := ∅ : gmap string RawRecord) (s := s)
    as (m' & s'' & Hloop' & _ & Hm' & _).
  { intros key draw s0 Hd Hs0.
    destruct (mock_record_run key draw s0 Hd)
      as (r & s1 & H1 & H2 & _ & _ & _ & _ & H6).
    exists r, s1. auto. }
  { exact Hs. }
  { intros key r. rewrite lookup_empty. discriminate. }
  rewrite Hloop in Hloop'. injection Hloop' as <- <-.
  unfold in_domain, dataset.
  assert (Hveg : fget (default empty_record (m !! "modis_vegetation"))
                   "ndvi" 0.5 <= 1).
  { destruct (m !! "modis_vegetation") as [r|] eqn:E.
    - by apply (Hm' _ _ E).
    - vm_compute. discriminate. }
  assert (Hgpm : 0 <= fget (default empty_record (m !! "gpm"))
                   "precipitation_cal" 20.0).
  { destruct (m !! "gpm") as [r|] eqn:E.
    - by apply (Hm' _ _ E).
    - vm_compute. discriminate. }
  assert (Hprob : fget (default empty_record (m !! "gpm"))
                    "probability_of_precipitation" 0.3 = 0.3).
  { destruct (m !! "gpm") as [r|] eqn:E.
    - destruct (Hm _ _ E) as (_ & _ & Hp). unfold fget. simpl.
      rewrite Hp. reflexivity.
    - reflexivity. }
  assert (Havg : fget (default empty_record (m !! "modis_lst"))
                   "average" 25.0 = 25.0).
  { destruct (m !! "modis_lst") as [r|] eqn:E.
    - destruct (Hm _ _ E) as (_ & Ha & _). unfold fget. simpl.
      rewrite Ha. reflexivity.
    - reflexivity. }
  rewrite Hprob, Havg.
  split; [exact Hveg|]. split; [exact Hgpm|]. split; lra.
Qed.

(** X13. [fetch_raw_data] returns the data of the mock generator whatever
    the ingestion service answers (its status codes, a missing task id, a
    failed call), and the generator never raises: the map it returns
    holds exactly the requested ids among the eight known ones; the
    records of smap_l3, smap_l4, modis_lst and gpm are flagged good and the
    other four carry no flag; no record has an ['average'] or a
    ['probability_of_precipitation'] field, so the engine reads its
    defaults 25.0 and 0.3 for them; and with unit samples the map is in
    the input domain of the PAOI bounds. *)
Theorem fetch_raw_data_is_mock_data (service : IngestService)
    (datasets : list string) (s : rng) :
  fetch_raw_data service datasets s = _generate_mock_nasa_data datasets s ∧
  ∃ raw_data s',
    fetch_raw_data service datasets s = (Ok raw_data, s') ∧
    (∀ key, is_Some (raw_data !! key)
            <-> key ∈ datasets ∧ key ∈ known_datasets) ∧
    (∀ key r, raw_data !! key = Some r ->
       quality_flag r
       = (if bool_decide (key ∈ ["smap_l3"; "smap_l4"; "modis_lst"; "gpm"])
          then Some "good" else None) ∧
       fields r !! "average" = None ∧
       fields r !! "probability_of_precipitation" = None) ∧
    (unit_draws s -> in_domain raw_data).
Proof.
  assert (H : fetch_raw_data service datasets s
              = _generate_mock_nasa_data datasets s).
  { unfold fetch_raw_data. destruct (ask_ingest_service service); reflexivity. }
  split; [exact H|]. rewrite H.
  destruct (mock_data_run datasets s) as (raw & s' & Hrun & _ & H1 & H2 & H3).
  exists raw, s'. auto.
Qed.
End MockFacts.

Module ApiFacts.
Import Models Engine MockData NasaManager ApiModels EngineApi FusionApi Main.
Import PaoiFacts MockFacts.
Local Open Scope Q_scope.

Lemma fetch_raw_data_run (service : IngestService) (datasets : list string)
    (s : rng) :
  ∃ raw_data s',
    fetch_raw_data service datasets s = (Ok raw_data, s') ∧
    (∀ n, ∃ k, s' n = s k) ∧
    (∀ key, is_Some (raw_data !! key)
            <-> key ∈ datasets ∧ key ∈ known_datasets) ∧
    (∀ key r, raw_data !! key = Some r ->
       quality_flag r
       = (if bool_decide (key ∈ ["smap_l3"; "smap_l4"; "modis_lst"; "gpm"])
          then Some "good" else None) ∧
       fields r !! "average" = None ∧
       fields r !! "probability_of_precipitation" = None) ∧
    (unit_draws s -> in_domain raw_data).
Proof.
  replace (fetch_raw_data service datasets s)
    with (_generate_mock_nasa_data datasets s)
    by (unfold fetch_raw_data; by destruct (ask_ingest_service service)).
  apply mock_data_run.
Qed.

(** The quality weights of the five datasets the USMI endpoint asks
    for. *)
Lemma usmi_endpoint_weights (raw_data : gmap string RawRecord) :
  (∀ key, is_Some (raw_data !! key)
          <-> key ∈ ["smap_l3"; "smap_l4"; "modis_lst"; "gpm"; "ecostress"]
              ∧ key ∈ known_datasets) ->
  (∀ key r, raw_data !! key = Some r ->
     quality_flag r
     = (if bool_decide (key ∈ ["smap_l3"; "smap_l4"; "modis_lst"; "gpm"])
        then Some "good" else None)) ->
  _assess_data_quality raw_data
  = {[ "smap_l3" := 1.0; "smap_l4" := 1.0; "modis_lst" := 1.0;
       "gpm" := 1.0; "ecostress" := 0.8 ]}.
Proof.
  intros Hdom Hflag. apply map_eq. intros key.
  unfold _assess_data_quality. rewrite lookup_fmap.
  assert (Hin : ∀ k,
            k ∈ ["smap_l3"; "smap_l4"; "modis_lst"; "gpm"; "ecostress"] ->
            ∃ r, raw_data !! k = Some r ∧
                 quality_flag r
                 = (if bool_decide
                         (k ∈ ["smap_l3"; "smap_l4"; "modis_lst"; "gpm"])
                    then Some "good" else None)).
  { intros k Hk. destruct (proj2 (Hdom k)) as [r Hr].
    - split; [exact Hk|]. unfold known_datasets.
      rewrite !elem_of_cons, elem_of_nil in *. tauto.
    - exists r. split; [exact Hr|]. by apply Hflag. }
  destruct (decide (key ∈ ["smap_l3"; "smap_l4"; "modis_lst"; "gpm";
                           "ecostress"])) as [Hk|Hk].
  - destruct (Hin key Hk) as (r & -> & Hq). simpl.
    unfold quality_weight. rewrite Hq. clear -Hk.
    rewrite !elem_of_cons, elem_of_nil in Hk.
    repeat (destruct Hk as [->|Hk]; [vm_compute; reflexivity|]).
    contradiction.
  - assert (Hnone : raw_data !! key = None).
    { apply eq_None_not_Some. intros H. apply Hdom in H. tauto. }
    rewrite Hnone. simpl.
    rewrite !elem_of_cons, elem_of_nil in Hk.
    rewrite !lookup_insert_ne, lookup_singleton_ne
      by (intros ?; subst key; apply Hk; auto 10).
    reflexivity.
Qed.

(** X14. The USMI endpoint answers every request with a USMI object,
    whatever the ingestion service does and whatever [np.random] draws:
    its value is in [0,1], its quality flags cover the five datasets the
    endpoint asks for, and its confidence is 0.98 always, because four of
    the five mock records are flagged good and the ecostress record carries
    no flag (weight 0.8). *)
Theorem usmi_endpoint_confidence (service : IngestService)
    (request : FusionRequest) (s : rng) :
  ∃ usmi,
    (compute_usmi service request s).1 = Returned usmi ∧
    0 <= usmi_value usmi <= 1 ∧
    usmi_confidence usmi == 0.98 ∧
    (∀ key, is_Some (usmi_quality_flags usmi !! key)
            <-> key ∈ ["smap_l3"; "smap_l4"; "modis_lst"; "gpm";
                       "ecostress"]).
Proof.
  unfold compute_usmi, guarded.
  destruct (fetch_raw_data_run service
              ["smap_l3"; "smap_l4"; "modis_lst"; "gpm"; "ecostress"] s)
    as (raw & s' & Hrun & _ & Hdom & Hflag & _).
  unfold mbind, M_bind, mbind'. rewrite Hrun. unfold lift.
  destruct (usmi_run raw) as (comps & v & _ & _ & _ & Hv & ->).
  eexists. split; [reflexivity|]. simpl.
  split; [exact Hv|]. split.
  - rewrite (usmi_endpoint_weights raw Hdom)
      by (intros key r Hr; by apply (Hflag key r Hr)).
    unfold _propagate_uncertainty. vm_compute. reflexivity.
  - intros key. unfold _generate_quality_flags. rewrite lookup_fmap.
    rewrite fmap_is_Some, Hdom. split; [tauto|].
    intros H. split; [exact H|]. unfold known_datasets.
    rewrite !elem_of_cons, elem_of_nil in *. tauto.
Qed.

Lemma awli_as_written (raw_data : gmap string RawRecord)
    (crop_type : string) :
  compute_agricultural_water_level_indicator as_written raw_data crop_type
  = Raise (AttributeError "_normalize_groundwater_anomaly").
Proof. reflexivity. Qed.

(** The components of an AWLI object that the computation returns are
    the five of the dict literal. *)
Lemma awli_components_nonempty (attr : groundwater_attr)
    (raw_data : gmap string RawRecord) (crop_type : string) (awli : AWLI) :
  compute_agricultural_water_level_indicator attr raw_data crop_type
    = Ok awli ->
  size (awli_components awli) ≠ 0%nat.
Proof.
  unfold compute_agricultural_water_level_indicator. cbv zeta.
  destruct (crop_lookup crop_type) as [crop|e]; [|discriminate].
  rewrite bind_Ok.
  destruct (call_normalize_groundwater_anomaly _ _ _) as [g|e];
    [|discriminate].
  rewrite bind_Ok. unfold AWLI_init.
  destruct (validate _) as [[]|e]; [|discriminate].
  rewrite bind_Ok. intros [= <-]. simpl.
  intros H. apply map_size_empty_inv in H.
  apply (f_equal (fun m => m !! "groundwater_anomaly")) in H.
  rewrite lookup_insert_eq, lookup_empty in H. discriminate H.
Qed.

(** X15. The two endpoints that compute AWLI answer every request with
    status 500.  As the engine is written the exception is the
    AttributeError of the method it lacks, for the AWLI endpoint and for
    the unified-metrics endpoint alike (the USMI task before it
    succeeds, the PAOI task after it still runs).  And were the method
    supplied, the unified-metrics endpoint would fail all the same: an
    AWLI object that is built has components, so its [get_confidence]
    raises NameError when the confidence scores are collected. *)
Theorem awli_endpoints_answer_500 (order : SetOrder)
    (attr : groundwater_attr) (service : IngestService) (now : Z)
    (request : FusionRequest) (s : rng) :
  (compute_awli as_written service request s).1
  = HTTPException 500 "AWLI computation failed: "
      (AttributeError "_normalize_groundwater_anomaly") ∧
  (compute_unified_metrics order as_written service now request s).1
  = HTTPException 500 "Fusion computation failed: "
      (AttributeError "_normalize_groundwater_anomaly") ∧
  ∃ e,
    (compute_unified_metrics order attr service now request s).1
    = HTTPException 500 "Fusion computation failed: " e.
Proof.
  assert (Hall : ∀ attr',
    ∃ e, (compute_unified_metrics order attr' service now request s).1
         = HTTPException 500 "Fusion computation failed: " e ∧
         (attr' = as_written ->
          e = AttributeError "_normalize_groundwater_anomaly")).
  { intros attr'. unfold compute_unified_metrics, guarded.
    destruct (fetch_raw_data_run service
                (or_list (req_datasets request)
                   ["smap_l3"; "smap_l4"; "modis_vegetation"; "modis_lst";
                    "gpm"; "ecostress"; "grace"; "landsat"]) s)
      as (raw & s' & Hrun & _).
    unfold mbind, M_bind, mbind'. rewrite Hrun.
    unfold gather3, lift.
    destruct (usmi_run raw) as (comps & v & _ & _ & _ & _ & ->).
    destruct (compute_agricultural_water_level_indicator attr' raw _)
      as [awli|e] eqn:Ea.
    - destruct (compute_pesticide_application_optimization_index raw _ _ s')
        as [[paoi|e] s3] eqn:Ep.
      + simpl. unfold confidence_scores.
        pose proof (awli_components_nonempty _ _ _ _ Ea) as Hne.
        unfold AWLI_get_confidence.
        rewrite bool_decide_eq_false_2 by exact Hne. simpl.
        eexists. split; [reflexivity|].
        intros ->. rewrite awli_as_written in Ea. discriminate Ea.
      + simpl. eexists. split; [reflexivity|].
        intros ->. rewrite awli_as_written in Ea. discriminate Ea.
    - destruct (compute_pesticide_application_optimization_index raw _ _ s')
        as [rp s3] eqn:Ep.
      simpl. eexists. split; [reflexivity|].
      intros ->. rewrite awli_as_written in Ea. by injection Ea as <-. }
  split; [|split].
  - unfold compute_awli, guarded.
    destruct (fetch_raw_data_run service
                ["grace"; "modis_vegetation"; "gpm"; "ecostress"; "landsat"]
                s) as (raw & s' & Hrun & _).
    unfold mbind, M_bind, mbind'. rewrite Hrun. reflexivity.
  - destruct (Hall as_written) as (e & -> & He). by rewrite He.
  - destruct (Hall attr) as (e & He & _). by exists e.
Qed.

(** What every PAOI object the computation returns echoes and holds. *)
Lemma paoi_returned_fields (raw_data : gmap string RawRecord)
    (crop_type target_pest : string) (s : rng) (paoi : PAOI) :
  invoke (compute_pesticide_application_optimization_index raw_data
            crop_type target_pest) s = Ok paoi ->
  paoi_crop_type paoi = crop_type ∧ paoi_target_pest paoi = target_pest ∧
  size (paoi_components paoi) = 5%nat.
Proof.
  unfold invoke, compute_pesticide_application_optimization_index.
  cbv zeta.
  destruct (_calculate_humidity_proxy _ _) as [h|e]; [|discriminate].
  cbv beta iota zeta delta
    [mbind M_bind mbind' lift _extract_wind_data _mock_aerosol_data
     uniform mret fst].
  rewrite paoi_fusion_components. unfold PAOI_init.
  destruct (validate _) as [[]|e]; [|discriminate].
  rewrite bind_Ok. intros [= <-]. simpl.
  split; [reflexivity|]. split; [reflexivity|].
  rewrite <- length_map_to_list. unfold paoi_components_of.
  match goal with |- context [map_to_list ?m] =>
    match m with
    | <[_ := ?a]> (<[_ := ?b]> (<[_ := ?c]> (<[_ := ?d]> {[_ := ?e]}))) =>
        destruct (paoi_literal a b c d e) as (_ & _ & _ & ->)
    end
  end.
  reflexivity.
Qed.

(** X16. With unit samples the PAOI endpoint answers with a PAOI object
    whose value and environmental impact score are in [0,1]; the crop and
    the pest are those of the request, "corn" and "general" standing for a
    missing or an empty one.  The temperature the mock data holds is not
    the one the computation reads: no mock record has an ['average']
    field, so the humidity proxy divides by 2 * 25.0 and cannot raise
    ZeroDivisionError. *)
Theorem paoi_endpoint_returns (service : IngestService)
    (request : FusionRequest) (s : rng) :
  unit_draws s ->
  ∃ paoi,
    (compute_paoi service request s).1 = Returned paoi ∧
    0 <= paoi_value paoi <= 1 ∧
    0 <= paoi_environmental_impact_score paoi <= 1 ∧
    paoi_crop_type paoi = or_str (req_crop_type request) "corn" ∧
    paoi_target_pest paoi = or_str (req_target_pest request) "general".
Proof.
  intros Hs. unfold compute_paoi, guarded.
  destruct (fetch_raw_data_run service
              ["modis_vegetation"; "landsat"; "modis_lst"; "gpm"] s)
    as (raw & s' & Hrun & Hs' & _ & _ & Hdom).
  unfold mbind, M_bind, mbind'. rewrite Hrun.
  pose proof (unit_draws_later s s' Hs' Hs) as Hu.
  destruct (FusionClaims.paoi_in_domain raw
              (or_str (req_crop_type request) "corn")
              (or_str (req_target_pest request) "general") s' (Hdom Hs) Hu)
    as (paoi & Hp & Hv & He & _).
  unfold invoke in Hp.
  destruct (compute_pesticide_application_optimization_index raw _ _ s')
    as [r s3] eqn:E.
  simpl in Hp. subst r. exists paoi. split; [reflexivity|].
  split; [exact Hv|]. split; [exact He|].
  assert (Hp : invoke (compute_pesticide_application_optimization_index raw
                         (or_str (req_crop_type request) "corn")
                         (or_str (req_target_pest request) "general")) s'
               = Ok paoi) by (unfold invoke; by rewrite E).
  destruct (paoi_returned_fields _ _ _ _ _ Hp) as (H1 & H2 & _). auto.
Qed.

Lemma paoi_endpoint_returns_witness :
  ∃ paoi,
    (compute_paoi {| post_ingest := None; get_status := fun _ => None |}
       {| req_location :=
            {| lat := 40.7128; lon := -74.0060; location_name := None |};
          req_date_range := {| range_start := 0; range_end := 86400000000 |};
          req_crop_type := Some ""; req_target_pest := None;
          req_datasets := None |}
       Examples.draws_mid).1 = Returned paoi ∧
    0 <= paoi_value paoi <= 1 ∧ paoi_crop_type paoi = "corn".
Proof.
  assert (Hs : unit_draws Examples.draws_mid)
    by (intros n; vm_compute; split; discriminate).
  destruct (paoi_endpoint_returns
              {| post_ingest := None; get_status := fun _ => None |}
              {| req_location :=
                   {| lat := 40.7128; lon := -74.0060;
                      location_name := None |};
                 req_date_range :=
                   {| range_start := 0; range_end := 86400000000 |};
                 req_crop_type := Some ""; req_target_pest := None;
                 req_datasets := None |}
              Examples.draws_mid Hs)
    as (paoi & H1 & H2 & _ & H3 & _).
  exists paoi. split; [exact H1|]. split; [exact H2 | exact H3].
Defined.

Lemma validate2_cases (n1 n2 : string) (a b : bool) :
  validate [(n1, a); (n2, b)]
  = match a, b with
    | true, true => Ok tt
    | false, true => Raise (ValidationError [n1])
    | true, false => Raise (ValidationError [n2])
    | false, false => Raise (ValidationError [n1; n2])
    end.
Proof. destruct a, b; reflexivity. Qed.

Ltac bad_field Hlat Hlon :=
  let Hin := fresh "Hin" in
  let Hr := fresh "Hr" in
  split;
  [ intros Hin Hr;
    first [ apply Hlat in Hr; discriminate Hr
          | apply Hlon in Hr; discriminate Hr
          | repeat (destruct Hin as [Hin|Hin]; [discriminate Hin|]);
            first [contradiction | by apply elem_of_nil in Hin] ]
  | intros Hr;
    first [ left; reflexivity
          | right; left; reflexivity
          | exfalso; apply Hr; first [apply Hlat | apply Hlon];
            reflexivity ] ].

(** X17. The crop-recommendation endpoint validates the coordinates
    inside its [try] block, so a latitude outside [-90,90] or a longitude
    outside [-180,180] is answered with status 500 and the
    ValidationError that names the bad fields; a valid location is always
    answered, with Corn (0.85) and Wheat (0.78) when the latitude is
    above 40 and with an empty list otherwise, the latitude 40 itself
    and the whole southern hemisphere included. *)
Theorem crop_recommendations_by_latitude (lat lon : Q) :
  ((-90 <= lat <= 90) ∧ (-180 <= lon <= 180) ->
   ∃ recs,
     crop_recommendations lat lon
     = Returned ({| ApiModels.lat := lat; ApiModels.lon := lon;
                    location_name := None |}, recs) ∧
     map (fun c => (crop_name c, suitability_score c)) recs
     = (if Qltb 40 lat then [("Corn", 0.85); ("Wheat", 0.78)] else []) ∧
     (lat <= 40 -> recs = [])) ∧
  (~ ((-90 <= lat <= 90) ∧ (-180 <= lon <= 180)) ->
   ∃ bad,
     crop_recommendations lat lon
     = HTTPException 500 "Failed to get crop recommendations: "
         (ValidationError bad) ∧
     (("lat" ∈ bad) <-> ~ (-90 <= lat <= 90)) ∧
     (("lon" ∈ bad) <-> ~ (-180 <= lon <= 180))).
Proof.
  unfold crop_recommendations, GeoLocation_init.
  rewrite validate2_cases.
  assert (Hlat : Qle_bool (-90) lat && Qle_bool lat 90 = true
                 <-> -90 <= lat <= 90)
    by (rewrite andb_true_iff, !Qle_bool_iff; reflexivity).
  assert (Hlon : Qle_bool (-180) lon && Qle_bool lon 180 = true
                 <-> -180 <= lon <= 180)
    by (rewrite andb_true_iff, !Qle_bool_iff; reflexivity).
  destruct (Qle_bool (-90) lat && Qle_bool lat 90) eqn:E1;
  destruct (Qle_bool (-180) lon && Qle_bool lon 180) eqn:E2;
  cbn.
  - split; [intros _ | intros H; exfalso; apply H; split; tauto].
    unfold get_crop_recommendations. cbn [ApiModels.lat]. unfold Qgtb.
    destruct (Qltb 40 lat) eqn:E3.
    + eexists. split; [reflexivity|]. split; [reflexivity|].
      apply Qltb_lt in E3. intros H. exfalso. lra.
    + eexists. split; [reflexivity|]. auto.
  - split; [intros [_ H]; apply Hlon in H; discriminate H|].
    intros _. eexists. split; [reflexivity|].
    rewrite !elem_of_cons, elem_of_nil. split; bad_field Hlat Hlon.
  - split; [intros [H _]; apply Hlat in H; discriminate H|].
    intros _. eexists. split; [reflexivity|].
    rewrite !elem_of_cons, elem_of_nil. split; bad_field Hlat Hlon.
  - split; [intros [H _]; apply Hlat in H; discriminate H|].
    intros _. eexists. split; [reflexivity|].
    rewrite !elem_of_cons, elem_of_nil. split; bad_field Hlat Hlon.
Qed.
End ApiFacts.

Module FusionFacts.
Import Models Engine MockData NasaManager ApiModels EngineApi FusionApi Main.
Import PaoiFacts MockFacts ApiFacts.
Local Open Scope Q_scope.

(** X18. The PAOI computation raises ZeroDivisionError exactly when the
    ['average'] field of the raw modis_lst record is 0: the humidity
    proxy divides the precipitation by twice that temperature, unguarded.
    It raises before anything is drawn from [np.random]; with any other
    temperature, and with a record that has no such field (25.0 stands
    for it), this error does not occur. *)
Theorem paoi_zero_division (raw_data : gmap string RawRecord)
    (crop_type target_pest : string) (s : rng) :
  (fget (dataset raw_data "modis_lst") "average" 25.0 == 0 ->
   compute_pesticide_application_optimization_index raw_data crop_type
     target_pest s = (Raise ZeroDivisionError, s)) ∧
  (~ fget (dataset raw_data "modis_lst") "average" 25.0 == 0 ->
   invoke (compute_pesticide_application_optimization_index raw_data
             crop_type target_pest) s ≠ Raise ZeroDivisionError) ∧
  (fields (dataset raw_data "modis_lst") !! "average" = None ->
   invoke (compute_pesticide_application_optimization_index raw_data
             crop_type target_pest) s ≠ Raise ZeroDivisionError).
Proof.
  assert (Hne : ~ fget (dataset raw_data "modis_lst") "average" 25.0 == 0 ->
    invoke (compute_pesticide_application_optimization_index raw_data
              crop_type target_pest) s ≠ Raise ZeroDivisionError).
  { intros Hn.
    unfold invoke, compute_pesticide_application_optimization_index.
    cbv zeta. unfold _calculate_humidity_proxy, pydiv. cbv zeta.
    destruct (Qeq_bool _ 0) eqn:E.
    { apply Qeq_bool_iff in E. exfalso. apply Hn. lra. }
    rewrite bind_Ok.
    cbv beta iota zeta delta
      [mbind M_bind mbind' lift _extract_wind_data _mock_aerosol_data
       uniform mret fst].
    rewrite paoi_fusion_components. unfold PAOI_init.
    rewrite validate2_cases.
    destruct (ge0_le1 _), (ge0_le1 _); simpl; discriminate. }
  split; [|split; [exact Hne|]].
  - intros H0.
    unfold compute_pesticide_application_optimization_index.
    cbv zeta. unfold _calculate_humidity_proxy, pydiv. cbv zeta.
    destruct (Qeq_bool _ 0) eqn:E; [reflexivity|].
    apply Qeq_bool_false in E. exfalso. apply E. rewrite H0. lra.
  - intros Hnone. apply Hne. unfold fget. rewrite Hnone. simpl.
    intros H. vm_compute in H. discriminate H.
Qed.

(** The window of a PAOI object that the computation returns. *)
Lemma paoi_returned_window (raw_data : gmap string RawRecord)
    (crop_type target_pest : string) (s : rng) (paoi : PAOI) :
  invoke (compute_pesticide_application_optimization_index raw_data
            crop_type target_pest) s = Ok paoi ->
  paoi_application_window paoi
  = _calculate_optimal_application_window (paoi_components paoi).
Proof.
  unfold invoke, compute_pesticide_application_optimization_index.
  cbv zeta.
  destruct (_calculate_humidity_proxy _ _) as [h|e]; [|discriminate].
  cbv beta iota zeta delta
    [mbind M_bind mbind' lift _extract_wind_data _mock_aerosol_data
     uniform mret fst].
  rewrite paoi_fusion_components. unfold PAOI_init.
  destruct (validate _) as [[]|e]; [|discriminate].
  rewrite bind_Ok. intros [= <-]. reflexivity.
Qed.

Lemma pyint_bounds (x : Q) (n : Z) :
  0 <= x <= inject_Z n -> (0 <= pyint x <= n)%Z.
Proof.
  destruct x as [a b]. unfold pyint, Qle, inject_Z. simpl.
  intros [H0 H1]. split.
  - apply Z.quot_pos; lia.
  - apply Z.quot_le_upper_bound; lia.
Qed.

(** X19. In the input domain and with unit samples, the application
    window of the PAOI object is consistent: its confidence is the mean
    of the five components, in [0,1], and its optimal hours are
    24 * confidence truncated to an integer, so between 0 and 24. *)
Theorem application_window_hours (raw_data : gmap string RawRecord)
    (crop_type target_pest : string) (s : rng) :
  in_domain raw_data -> unit_draws s ->
  ∃ paoi,
    invoke (compute_pesticide_application_optimization_index raw_data
              crop_type target_pest) s = Ok paoi ∧
    let w := paoi_application_window paoi in
    window_confidence w == np_mean (dict_values (paoi_components paoi)) ∧
    0 <= window_confidence w <= 1 ∧
    optimal_hours w = pyint (24 * window_confidence w) ∧
    (0 <= optimal_hours w <= 24)%Z ∧
    next_optimal_time w = "06:00-10:00" ∧ avoid_times w = "14:00-18:00".
Proof.
  intros Hd Hs.
  destruct (FusionClaims.paoi_in_domain raw_data crop_type target_pest s
              Hd Hs) as (paoi & Hp & _ & _ & Hw & _).
  exists paoi. split; [exact Hp|]. cbv zeta.
  rewrite (paoi_returned_window _ _ _ _ _ Hp) in *.
  unfold _calculate_optimal_application_window in *. cbv zeta in *.
  simpl in *.
  set (b := np_mean _) in *.
  assert (Hb : (0 <= pyint (24 * b) <= 24)%Z).
  { apply pyint_bounds. change (inject_Z 24) with 24. lra. }
  split; [reflexivity|]. split; [exact Hw|].
  split; [lia|]. split; [lia|]. split; reflexivity.
Qed.

Lemma application_window_hours_witness :
  ∃ paoi,
    invoke (compute_pesticide_application_optimization_index
              Examples.full_raw "corn" "corn_borer") Examples.draws_mid
    = Ok paoi ∧
    (0 <= optimal_hours (paoi_application_window paoi) <= 24)%Z.
Proof.
  assert (Hd : in_domain Examples.full_raw).
  { unfold in_domain. vm_compute. repeat split; discriminate. }
  assert (Hs : unit_draws Examples.draws_mid)
    by (intros n; vm_compute; split; discriminate).
  destruct (application_window_hours Examples.full_raw "corn" "corn_borer"
              Examples.draws_mid Hd Hs) as (paoi & Hp & _ & _ & _ & Hh & _).
  exists paoi. split; [exact Hp | exact Hh].
Defined.

(** X20. Every PAOI object the engine computes, from any raw-data map
    and any state of [np.random], holds five components, so its
    [get_confidence] raises NameError: the body names [np], which
    models.py does not import.  Only an object with an empty components
    map gets the 0.5 of the first branch. *)
Theorem paoi_confidence_raises_name_error (self : PAOI) :
  PAOI_get_confidence self
  = (if bool_decide (size (paoi_components self) = 0%nat)
     then Ok 0.5 else Raise (NameError "np")) ∧
  ∀ (raw_data : gmap string RawRecord) (crop_type target_pest : string)
    (s : rng),
    invoke (compute_pesticide_application_optimization_index raw_data
              crop_type target_pest) s = Ok self ->
    size (paoi_components self) = 5%nat ∧
    PAOI_get_confidence self = Raise (NameError "np").
Proof.
  assert (H : PAOI_get_confidence self
              = (if bool_decide (size (paoi_components self) = 0%nat)
                 then Ok 0.5 else Raise (NameError "np"))).
  { unfold PAOI_get_confidence. case_bool_decide; reflexivity. }
  split; [exact H|].
  intros raw_data crop_type target_pest s Hp.
  destruct (paoi_returned_fields _ _ _ _ _ Hp) as (_ & _ & H5).
  split; [exact H5|]. rewrite H, H5. reflexivity.
Qed.
End FusionFacts.

Module QualityFacts.
Import Models Engine.
Local Open Scope Q_scope.

(** The USMI object, spelled out. *)
Lemma usmi_explicit (raw_data : gmap string RawRecord) (u : USMI) :
  compute_unified_soil_moisture_index raw_data = Ok u ->
  let w id := default 1.0 (_assess_data_quality raw_data !! id) in
  let precipitation := _process_gpm_precipitation (dataset raw_data "gpm") in
  let a :=
    _spatial_normalize (_process_smap_surface (dataset raw_data "smap_l3"))
      "soil_moisture" in
  let b :=
    _spatial_normalize (_process_smap_root_zone (dataset raw_data "smap_l4"))
      "soil_moisture" in
  let c :=
    Qmax 0.0 (Qmin 1.0 (default 0.0 (precipitation !! "total")
                        / (inject_Z 7 * 5.0))) in
  let d :=
    _calculate_temperature_stress
      (_process_modis_lst (dataset raw_data "modis_lst")) in
  let e :=
    _calculate_et_deficit
      (_process_ecostress_et (dataset raw_data "ecostress")) precipitation in
  (0 <= a <= 1 ∧ 0 <= b <= 1 ∧ 0 <= c <= 1 ∧ 0 <= d <= 1 ∧ 0 <= e <= 1) ∧
  usmi_components u
  = {[ "surface_moisture" := a; "root_zone_moisture" := b;
       "precipitation_factor" := c; "temperature_stress" := d;
       "et_deficit" := e ]} ∧
  usmi_value u
  = a * 0.35 * w "smap_l3" + b * 0.25 * w "smap_l4" + c * 0.20 * w "gpm" +
    d * 0.15 * w "modis_lst" + e * 0.05 * w "ecostress" ∧
  usmi_confidence u
  = Qmax 0.0
      (1.0 - Qmin 0.5
               (pysum (map (fun weight => (1.0 - weight) * 0.1)
                           (dict_values (_assess_data_quality raw_data))))).
Proof.
  unfold compute_unified_soil_moisture_index, usmi_components_of.
  cbv zeta. rewrite temporal_normalize_week, !bind_Ok.
  rewrite usmi_fusion_literal, bind_Ok.
  unfold USMI_init. destruct (validate _) as [[]|err]; [|discriminate].
  rewrite bind_Ok. intros [= <-]. simpl.
  split; [|split; [reflexivity|split; reflexivity]].
  split; [apply spatial_normalize_unit|].
  split; [apply spatial_normalize_unit|].
  split; [apply clamp_unit|].
  split; [apply temperature_stress_unit | apply et_deficit_unit].
Qed.

Lemma pysum_le {A} (f g : A -> Q) (l : list A) :
  (∀ x, x ∈ l -> f x <= g x) -> pysum (map f l) <= pysum (map g l).
Proof.
  induction l as [|x l IH]; intros H; simpl.
  - lra.
  - rewrite !pysum_cons.
    pose proof (H x ltac:(apply list_elem_of_here)).
    assert (pysum (map f l) <= pysum (map g l)).
    { apply IH. intros y Hy. apply H. by apply list_elem_of_further. }
    lra.
Qed.

(** X21. A better quality flag never lowers the index.  For two raw-data
    maps with the same datasets and the same numeric fields, of which the
    second has, dataset by dataset, a quality weight at least that of the
    first (good 1.0, no flag 0.8, marginal 0.7, any other flag 0.4), the
    USMI computation gives the same components, a value that is not
    smaller and a confidence that is not smaller. *)
Theorem usmi_monotone_in_quality (raw_data raw_data' : gmap string RawRecord) :
  (∀ key, fields <$> raw_data !! key = fields <$> raw_data' !! key) ->
  (∀ key r r', raw_data !! key = Some r -> raw_data' !! key = Some r' ->
     quality_weight r <= quality_weight r') ->
  ∃ u u',
    compute_unified_soil_moisture_index raw_data = Ok u ∧
    compute_unified_soil_moisture_index raw_data' = Ok u' ∧
    usmi_components u = usmi_components u' ∧
    usmi_value u <= usmi_value u' ∧
    usmi_confidence u <= usmi_confidence u'.
Proof.
  intros Hf Hq.
  destruct (usmi_run raw_data) as (? & ? & _ & _ & _ & _ & Hu).
  destruct (usmi_run raw_data') as (? & ? & _ & _ & _ & _ & Hu').
  eexists _, _. split; [exact Hu|]. split; [exact Hu'|].
  destruct (usmi_explicit _ _ Hu) as (Hr & -> & -> & ->).
  destruct (usmi_explicit _ _ Hu') as (_ & -> & -> & ->).
  clear Hu Hu'.
  assert (Hfields : ∀ key,
            fields (dataset raw_data key) = fields (dataset raw_data' key)).
  { intros key. unfold dataset. specialize (Hf key).
    destruct (raw_data !! key), (raw_data' !! key); simpl in *;
      congruence. }
  assert (Hget : ∀ key k dflt,
            fget (dataset raw_data key) k dflt
            = fget (dataset raw_data' key) k dflt).
  { intros key k dflt. unfold fget. by rewrite Hfields. }
  assert (Hw : ∀ key,
            default 1.0 (_assess_data_quality raw_data !! key)
            <= default 1.0 (_assess_data_quality raw_data' !! key)).
  { intros key. unfold _assess_data_quality. rewrite !lookup_fmap.
    specialize (Hf key). specialize (Hq key).
    destruct (raw_data !! key) as [r|], (raw_data' !! key) as [r'|];
      simpl in *; try discriminate Hf; [by apply Hq | lra]. }
  unfold _process_smap_surface, _process_smap_root_zone,
    _process_gpm_precipitation, _process_modis_lst, _process_ecostress_et
    in *.
  cbn [total] in *.
  rewrite <- !Hget.
  split; [reflexivity|].
  destruct Hr as (Ha & Hb & Hc & Hd & He).
  split.
  - pose proof (Hw "smap_l3"). pose proof (Hw "smap_l4").
    pose proof (Hw "gpm"). pose proof (Hw "modis_lst").
    pose proof (Hw "ecostress"). nra.
  - assert (Hsum :
      pysum (map (fun weight => (1.0 - weight) * 0.1)
                 (dict_values (_assess_data_quality raw_data')))
      <= pysum (map (fun weight => (1.0 - weight) * 0.1)
                    (dict_values (_assess_data_quality raw_data)))).
    { rewrite !assessed_values.
      assert (H1 : fst <$> map_zip raw_data raw_data' = raw_data).
      { apply fst_map_zip. intros k [r Hk]. specialize (Hf k).
        rewrite Hk in Hf. destruct (raw_data' !! k); [eauto|discriminate]. }
      assert (H2 : snd <$> map_zip raw_data raw_data' = raw_data').
      { apply snd_map_zip. intros k [r Hk]. specialize (Hf k).
        rewrite Hk in Hf. destruct (raw_data !! k); [eauto|discriminate]. }
      set (z := map_zip raw_data raw_data') in *.
      clearbody z. rewrite <- H1, <- H2.
      rewrite !map_to_list_fmap.
      change (@fmap list _) with (@map) in *.
      rewrite !map_map. apply pysum_le.
      intros [k [r r']] Hin. simpl.
      apply elem_of_map_to_list in Hin.
      assert (Hk : raw_data !! k = Some r)
        by (by rewrite <- H1, lookup_fmap, Hin).
      assert (Hk' : raw_data' !! k = Some r')
        by (by rewrite <- H2, lookup_fmap, Hin).
      pose proof (Hq k r r' Hk Hk'). lra. }
    set (S := pysum (map _ (dict_values (_assess_data_quality raw_data))))
      in *.
    set (S' := pysum (map _ (dict_values (_assess_data_quality raw_data'))))
      in *.
    clearbody S S'. clear -Hsum. NormalizerFacts.q_full.
Qed.

Lemma usmi_monotone_in_quality_witness :
  ∃ u u',
    compute_unified_soil_moisture_index
      {[ "smap_l3" :=
           {| fields := {[ "surface_moisture" := 0.25 ]};
              quality_flag := Some "marginal" |} ]} = Ok u ∧
    compute_unified_soil_moisture_index
      {[ "smap_l3" :=
           {| fields := {[ "surface_moisture" := 0.25 ]};
              quality_flag := Some "good" |} ]} = Ok u' ∧
    usmi_value u <= usmi_value u' ∧
    usmi_confidence u <= usmi_confidence u'.
Proof.
  destruct (usmi_monotone_in_quality
    {[ "smap_l3" :=
         {| fields := {[ "surface_moisture" := 0.25 ]};
            quality_flag := Some "marginal" |} ]}
    {[ "smap_l3" :=
         {| fields := {[ "surface_moisture" := 0.25 ]};
            quality_flag := Some "good" |} ]})
    as (u & u' & H1 & H2 & _ & H3 & H4).
  - intros key. destruct (decide (key = "smap_l3")) as [->|Hne].
    + reflexivity.
    + rewrite !lookup_singleton_ne by congruence. reflexivity.
  - intros key r r'. destruct (decide (key = "smap_l3")) as [->|Hne].
    + rewrite !lookup_singleton_eq. intros [= <-] [= <-].
      vm_compute. discriminate.
    + rewrite !lookup_singleton_ne by congruence. discriminate.
  - exists u, u'. auto.
Defined.
End QualityFacts.

Module IngestFacts.
Import Engine NasaManager.
Local Open Scope Q_scope.



Section Ingest.
Variable isoformat : Z -> string.
Variable task_name : Q -> Q -> Z -> string.

(** With the date range of models.py every embedded fetch method raises
    before it draws. *)
Lemma models_range_attempt (location : IngestApi.GeoLocation)
    (range_start range_end : Z) (state : string -> nat -> rng)
    (gpm : nat -> result IngestApi.Payload) (id : string) (attempt : nat) :
  id ≠ "gpm" ->
  ∃ e,
    try_fetch
      (IngestApi.source_of isoformat location
         (IngestApi.ModelsDateRange range_start range_end) state gpm)
      id attempt = Raise e ∧
    (id ∈ known_datasets -> e = AttributeError "start_iso").
Proof.
  intros Hgpm. unfold try_fetch.
  repeat (case_bool_decide;
          [first [ contradiction
                 | eexists; split; [reflexivity|]; reflexivity ]|]).
  eexists. split; [reflexivity|].
  unfold known_datasets. rewrite !elem_of_cons, elem_of_nil.
  intros H'. exfalso. tauto.
Qed.

(** X23. A request that comes through the API is parsed into the
    pydantic models of models.py, and the background task hands their
    [date_range] to the fetch methods, which read [date_range.start_iso],
    a property of the dataclass of nasa_manager.py only.  So every
    embedded fetch raises AttributeError at each attempt, before any
    sample is drawn (the state of the generator is handed back as it
    was): for every requested id other than gpm each of its tasks makes
    its 3 attempts, sleeps 1 + 2, and the dict holds None for it. *)
Theorem api_ingestion_fetches_nothing (empty_dict : IngestApi.Payload)
    (state : nat -> string -> nat -> rng)
    (gpm : nat -> nat -> result IngestApi.Payload)
    (request : IngestApi.DataIngestionRequest) (id : string) :
  id ∈ IngestApi.request_datasets request -> id ≠ "gpm" ->
  IngestApi.ingested_raw_data isoformat empty_dict state gpm request !! id
  = Some None ∧
  (∀ task,
     let source := IngestApi.request_source isoformat state gpm request task in
     (_fetch_dataset empty_dict source id).2 = backoff_trace id 0 2 ∧
     attempts_made (_fetch_dataset empty_dict source id).2 = 3%nat ∧
     delay_incurred (_fetch_dataset empty_dict source id).2 = 3%nat ∧
     (id ∈ known_datasets ->
      (_fetch_dataset empty_dict source id).1
      = Raise (AttributeError "start_iso"))) ∧
  (∀ k, IngestApi.request_datasets request !! k = Some id ->
        IngestApi.ingestion_traces isoformat empty_dict state gpm request !! k
        = Some (backoff_trace id 0 2)) ∧
  (∀ (s : rng) (level : string),
     let location := IngestApi.request_location request in
     let date_range :=
       IngestApi.ModelsDateRange (IngestApi.request_start request)
         (IngestApi.request_end request) in
     IngestApi._fetch_smap_soil_moisture isoformat location date_range level s
     = (Raise (AttributeError "start_iso"), s) ∧
     IngestApi._fetch_modis_vegetation isoformat location date_range s
     = (Raise (AttributeError "start_iso"), s) ∧
     IngestApi._fetch_modis_lst isoformat location date_range s
     = (Raise (AttributeError "start_iso"), s) ∧
     IngestApi._fetch_ecostress_data isoformat location date_range s
     = (Raise (AttributeError "start_iso"), s) ∧
     IngestApi._fetch_grace_groundwater isoformat location date_range s
     = (Raise (AttributeError "start_iso"), s) ∧
     IngestApi._fetch_landsat_data isoformat location date_range s
     = (Raise (AttributeError "start_iso"), s)).
Proof.
  intros Hin Hgpm.
  assert (Hf : ∀ task,
            ∃ e, _fetch_dataset empty_dict
                   (IngestApi.request_source isoformat state gpm request task)
                   id
                 = (Raise e, backoff_trace id 0 2) ∧
                 (id ∈ known_datasets -> e = AttributeError "start_iso")).
  { intros task. unfold IngestApi.request_source.
    destruct (models_range_attempt (IngestApi.request_location request)
                (IngestApi.request_start request)
                (IngestApi.request_end request) (state task) (gpm task)
                id 0 Hgpm) as (e0 & H0 & _).
    destruct (models_range_attempt (IngestApi.request_location request)
                (IngestApi.request_start request)
                (IngestApi.request_end request) (state task) (gpm task)
                id 1 Hgpm) as (e1 & H1 & _).
    destruct (models_range_attempt (IngestApi.request_location request)
                (IngestApi.request_start request)
                (IngestApi.request_end request) (state task) (gpm task)
                id 2 Hgpm) as (e2 & H2 & He2).
    exists e2. split; [|exact He2].
    rewrite NasaFacts.fetch_dataset_cases, H0, H1, H2. reflexivity. }
  split; [|split; [|split]].
  - unfold IngestApi.ingested_raw_data.
    apply NasaFacts.bulk_lookup_failed; [|exact Hin].
    intros task. destruct (Hf task) as (e & -> & _). reflexivity.
  - intros task source. subst source.
    destruct (Hf task) as (e & -> & He). simpl.
    split; [reflexivity|]. split; [reflexivity|]. split; [reflexivity|].
    intros Hk. by rewrite (He Hk).
  - intros k Hk. unfold IngestApi.ingestion_traces.
    rewrite (NasaFacts.bulk_traces_lookup _ _ _ _ _ Hk).
    destruct (Hf k) as (e & -> & _). reflexivity.
  - intros s level location date_range. repeat split; reflexivity.
Qed.

(** X24. Called with the date range of nasa_manager.py itself, every
    embedded fetch method succeeds: the task of a known id other than gpm
    ends at its first attempt without sleeping, and the record it returns
    echoes the location and the ISO forms of the two dates.  The record
    is named after the product rather than the id for ecostress, grace and
    landsat. *)
Theorem manager_range_fetch_succeeds (empty_dict : IngestApi.Payload)
    (location : IngestApi.GeoLocation) (range_start range_end : Z)
    (state : string -> nat -> rng) (gpm : nat -> result IngestApi.Payload)
    (id : string) :
  id ∈ known_datasets -> id ≠ "gpm" ->
  let source :=
    IngestApi.source_of isoformat location
      (IngestApi.ManagerDateRange range_start range_end) state gpm in
  ∃ payload,
    _fetch_dataset empty_dict source id = (Ok payload, [Attempt id 0]) ∧
    delay_incurred (_fetch_dataset empty_dict source id).2 = 0%nat ∧
    IngestApi.payload_location payload
    = (IngestApi.lat location, IngestApi.lon location) ∧
    IngestApi.payload_date_range payload
    = (isoformat range_start, isoformat range_end) ∧
    IngestApi.payload_dataset payload
    = (if bool_decide (id = "ecostress") then "ecostress_et"
       else if bool_decide (id = "grace") then "grace_groundwater"
       else if bool_decide (id = "landsat") then "landsat_multispectral"
       else id).
Proof.
  intros Hk Hgpm source.
  unfold known_datasets in Hk. rewrite !elem_of_cons, elem_of_nil in Hk.
  rewrite NasaFacts.fetch_dataset_cases.
  repeat (destruct Hk as [->|Hk];
          [first [ contradiction
                 | eexists; split; [reflexivity|];
                   split; [reflexivity|]; split; [reflexivity|];
                   split; reflexivity ]|]).
  contradiction.
Qed.

(** X25. The ingest endpoint never answers 400.  Its check of an empty
    dataset list raises HTTPException(400) inside the [try] block, whose
    [except Exception] handler catches it and raises status 500 in its
    place; a request with at least one dataset id, known or not, is
    accepted: the response says "started", is due 5 minutes after the
    second clock reading, and the background task is added for the request
    as it is. *)
Theorem ingest_empty_request_is_500 (now later : Z)
    (request : IngestApi.DataIngestionRequest) :
  (IngestApi.request_datasets request = [] ->
   IngestApi.ingest_nasa_data task_name now later request
   = IngestApi.Failed
       {| IngestApi.status_code := 500;
          IngestApi.detail := "Data ingestion failed: " |}
       {| IngestApi.status_code := 400;
          IngestApi.detail := "No datasets specified" |}) ∧
  (IngestApi.request_datasets request ≠ [] ->
   ∃ response,
     IngestApi.ingest_nasa_data task_name now later request
     = IngestApi.Started response (IngestApi.task_id response, request) ∧
     IngestApi.status response = "started" ∧
     IngestApi.estimated_completion response = (later + 300000000)%Z) ∧
  (∀ raised e,
     IngestApi.ingest_nasa_data task_name now later request
     = IngestApi.Failed raised e ->
     IngestApi.status_code raised = 500%Z ∧
     IngestApi.request_datasets request = []).
Proof.
  unfold IngestApi.ingest_nasa_data, IngestApi.ingest_try.
  case_bool_decide as Hd; simpl.
  - split; [reflexivity|]. split; [contradiction|].
    intros raised e [= <- _]. auto.
  - split; [contradiction|]. split; [|discriminate].
    intros _.
    match goal with |- ∃ r, IngestApi.Started ?x _ = _ ∧ _ => exists x end.
    split; [reflexivity|]. split; reflexivity.
Qed.
End Ingest.

Lemma api_ingestion_fetches_nothing_witness :
  let request :=
    {| IngestApi.request_location :=
         {| IngestApi.lat := 40.7128; IngestApi.lon := -74.0060;
            IngestApi.location_name := Some "Sample Farm" |};
       IngestApi.request_start := 0; IngestApi.request_end := 86400000000;
       IngestApi.request_datasets := ["smap_l3"; "modis_vegetation"; "gpm"];
       IngestApi.request_priority := Some "normal" |} in
  let empty :=
    {| IngestApi.payload_dataset := ""; IngestApi.payload_location := (0, 0);
       IngestApi.payload_date_range := ("", "");
       IngestApi.payload_data := empty_record;
       IngestApi.payload_metadata := ∅ |} in
  IngestApi.ingested_raw_data (fun _ => "") empty
    (fun _ _ _ => Examples.draws_mid) (fun _ _ => Ok empty) request
    !! "smap_l3" = Some None.
Proof.
  intros request empty.
  refine (proj1 (api_ingestion_fetches_nothing (fun _ => "") empty
                   (fun _ _ _ => Examples.draws_mid) (fun _ _ => Ok empty)
                   request "smap_l3" _ _)).
  - apply list_elem_of_here.
  - discriminate.
Defined.

Lemma manager_range_fetch_succeeds_witness :
  ∃ payload,
    (_fetch_dataset
       {| IngestApi.payload_dataset := ""; IngestApi.payload_location := (0, 0);
          IngestApi.payload_date_range := ("", "");
          IngestApi.payload_data := empty_record;
          IngestApi.payload_metadata := ∅ |}
       (IngestApi.source_of (fun _ => "2024-01-01T00:00:00")
          {| IngestApi.lat := 40.7128; IngestApi.lon := -74.0060;
             IngestApi.location_name := None |}
          (IngestApi.ManagerDateRange 0 86400000000)
          (fun _ _ => Examples.draws_mid) (fun _ => Raise (FetchError 0)))
       "ecostress").1 = Ok payload ∧
    IngestApi.payload_dataset payload = "ecostress_et".
Proof.
  destruct (manager_range_fetch_succeeds (fun _ => "2024-01-01T00:00:00")
              {| IngestApi.payload_dataset := "";
                 IngestApi.payload_location := (0, 0);
                 IngestApi.payload_date_range := ("", "");
                 IngestApi.payload_data := empty_record;
                 IngestApi.payload_metadata := ∅ |}
              {| IngestApi.lat := 40.7128; IngestApi.lon := -74.0060;
                 IngestApi.location_name := None |}
              0 86400000000 (fun _ _ => Examples.draws_mid)
              (fun _ => Raise (FetchError 0)) "ecostress")
    as (payload & H1 & _ & _ & _ & H2).
  - unfold known_datasets. rewrite !elem_of_cons. auto 10.
  - discriminate.
  - exists payload. rewrite H1. split; [reflexivity | exact H2].
Defined.
End IngestFacts.

Module AdviceFacts.
Import Models Engine ModelFacts PaoiFacts IndexFacts.
Local Open Scope Q_scope.

(** X26. The recommendations of a computed USMI object against its
    category.  The critical recommendations are given exactly below 0.3
    and the excellent ones exactly above 0.8, so a critical category
    (below 0.2) always comes with the advice to irrigate at once, and the
    excellent recommendations always come with the optimal category; but
    the two ladders cut differently at 0.8: a value of exactly 0.8 is
    optimal and gets the single "acceptable range" line.  One or three
    lines are given, never none. *)
Theorem usmi_recommendations_match_category
    (raw_data : gmap string RawRecord) (u : USMI) :
  compute_unified_soil_moisture_index raw_data = Ok u ->
  usmi_recommendations u
  = _generate_usmi_recommendations (usmi_value u) (usmi_components u) ∧
  ("Critical soil moisture levels detected" ∈ usmi_recommendations u
   <-> usmi_value u < 0.3) ∧
  ("Excellent soil moisture conditions" ∈ usmi_recommendations u
   <-> 0.8 < usmi_value u) ∧
  (USMI_get_category u = "critical" ->
   "Immediate irrigation recommended" ∈ usmi_recommendations u) ∧
  ("Excellent soil moisture conditions" ∈ usmi_recommendations u ->
   USMI_get_category u = "optimal") ∧
  (usmi_value u == 0.8 ->
   USMI_get_category u = "optimal" ∧
   usmi_recommendations u = ["Soil moisture within acceptable range"]) ∧
  (length (usmi_recommendations u) = 1%nat ∨
   length (usmi_recommendations u) = 3%nat).
Proof.
  intros Hu.
  destruct (usmi_run raw_data) as (comps & v & _ & _ & _ & _ & Hrun).
  rewrite Hrun in Hu. injection Hu as <-. simpl.
  split; [reflexivity|].
  rewrite (category_critical
             {| usmi_value := v; usmi_confidence := _; usmi_components := _;
                usmi_quality_flags := _; usmi_recommendations := _ |}).
  unfold USMI_get_category, _generate_usmi_recommendations, Qgtb. simpl.
  destruct (Qltb v 0.3) eqn:E1;
    [apply Qltb_lt in E1 | apply Qltb_ge in E1];
  (destruct (Qltb v 0.5) eqn:E2;
    [apply Qltb_lt in E2 | apply Qltb_ge in E2]);
  (destruct (Qltb 0.8 v) eqn:E3;
    [apply Qltb_lt in E3 | apply Qltb_ge in E3]);
  try (exfalso; lra);
  (destruct (Qgeb v 0.8) eqn:E4;
    [apply Qgeb_ge in E4 | apply Qgeb_lt in E4]);
  try (exfalso; lra);
  (split; [iff_case|]); (split; [iff_case|]);
  (split; [intros H; first [mem_true | exfalso; lra]|]);
  (split; [intros H; first [reflexivity | mem_false H]|]);
  (split; [intros H; first [exfalso; lra | split; reflexivity]|]);
  first [left; reflexivity | right; reflexivity].
Qed.

Lemma usmi_recommendations_match_category_witness :
  ∃ u,
    compute_unified_soil_moisture_index Examples.all_good = Ok u ∧
    (length (usmi_recommendations u) = 1%nat ∨
     length (usmi_recommendations u) = 3%nat).
Proof.
  destruct (usmi_run Examples.all_good) as (comps & v & _ & _ & _ & _ & Hrun).
  eexists. split; [exact Hrun|].
  exact (proj2 (proj2 (proj2 (proj2 (proj2 (proj2
    (usmi_recommendations_match_category Examples.all_good _ Hrun))))))).
Defined.

(** The value of a PAOI object that the computation returns. *)
Lemma paoi_explicit (raw_data : gmap string RawRecord)
    (crop_type target_pest : string) (s : rng) (paoi : PAOI) :
  invoke (compute_pesticide_application_optimization_index raw_data
            crop_type target_pest) s = Ok paoi ->
  ∃ h,
    _calculate_humidity_proxy (dataset raw_data "gpm")
      (dataset raw_data "modis_lst") = Ok h ∧
    paoi_value paoi
    = _detect_vegetation_anomalies (dataset raw_data "modis_vegetation")
        * 0.30 +
      _model_pest_favorable_conditions (dataset raw_data "modis_lst") h
        target_pest * 0.25 +
      _assess_application_weather_suitability (wind_of s)
        (_get_precipitation_forecast (dataset raw_data "gpm"))
        (dataset raw_data "modis_lst") * 0.20 +
      _get_pesticide_timing_score
        (_determine_phenology_stage (dataset raw_data "modis_vegetation")
           crop_type) target_pest * 0.15 +
      (1.0 - _calculate_spray_drift_risk (wind_of s) (aerosol_of s)) * 0.10.
Proof.
  unfold invoke, compute_pesticide_application_optimization_index.
  cbv zeta.
  destruct (_calculate_humidity_proxy _ _) as [h|e]; [|discriminate].
  cbv beta iota zeta delta
    [mbind M_bind mbind' lift _extract_wind_data _mock_aerosol_data
     uniform mret fst].
  fold (wind_of s). fold (aerosol_of s).
  rewrite paoi_fusion_components. unfold PAOI_init.
  destruct (validate _) as [[]|e]; [|discriminate].
  rewrite bind_Ok. intros [= <-]. exists h. split; reflexivity.
Qed.

(** X27. More wind and more aerosol never raise the index.  For one
    raw-data map in the input domain and two states of [np.random] with
    unit samples, of which the second draws a wind speed and an optical
    depth that are not smaller, the PAOI value of the second run is not
    larger: the weather suitability falls with the wind speed, and the
    drift risk, which enters inverted, rises with both. *)
Theorem paoi_falls_with_wind (raw_data : gmap string RawRecord)
    (crop_type target_pest : string) (s s' : rng) :
  in_domain raw_data -> unit_draws s -> unit_draws s' ->
  speed (wind_of s) <= speed (wind_of s') ->
  aod_550 (aerosol_of s) <= aod_550 (aerosol_of s') ->
  ∃ paoi paoi',
    invoke (compute_pesticide_application_optimization_index raw_data
              crop_type target_pest) s = Ok paoi ∧
    invoke (compute_pesticide_application_optimization_index raw_data
              crop_type target_pest) s' = Ok paoi' ∧
    paoi_value paoi' <= paoi_value paoi.
Proof.
  intros Hd Hs Hs' Hw Ha.
  destruct (FusionClaims.paoi_in_domain raw_data crop_type target_pest s
              Hd Hs) as (p & Hp & _).
  destruct (FusionClaims.paoi_in_domain raw_data crop_type target_pest s'
              Hd Hs') as (p' & Hp' & _).
  exists p, p'. split; [exact Hp|]. split; [exact Hp'|].
  destruct (paoi_explicit _ _ _ _ _ Hp) as (h & Hh & ->).
  destruct (paoi_explicit _ _ _ _ _ Hp') as (h' & Hh' & ->).
  rewrite Hh in Hh'. injection Hh' as <-.
  unfold _assess_application_weather_suitability,
    _calculate_spray_drift_risk. cbv zeta.
  set (w := speed (wind_of s)) in *. set (w' := speed (wind_of s')) in *.
  set (a := aod_550 (aerosol_of s)) in *.
  set (a' := aod_550 (aerosol_of s')) in *.
  clearbody w w' a a'.
  set (vs := _detect_vegetation_anomalies _).
  set (pc := _model_pest_favorable_conditions _ _ _).
  set (ph := _get_pesticide_timing_score _ _).
  set (pp := forecast_probability _).
  set (tt := pyabs _).
  clearbody vs pc ph pp tt. clear -Hw Ha.
  q_consts. q_cases; lra.
Qed.

Lemma paoi_falls_with_wind_witness :
  ∃ paoi paoi',
    invoke (compute_pesticide_application_optimization_index
              Examples.full_raw "corn" "corn_borer") Examples.draws_low
    = Ok paoi ∧
    invoke (compute_pesticide_application_optimization_index
              Examples.full_raw "corn" "corn_borer") Examples.draws_mid
    = Ok paoi' ∧
    paoi_value paoi' <= paoi_value paoi.
Proof.
  apply paoi_falls_with_wind.
  - unfold in_domain. vm_compute. repeat split; discriminate.
  - intros n. vm_compute. split; discriminate.
  - intros n. vm_compute. split; discriminate.
  - vm_compute. discriminate.
  - vm_compute. discriminate.
Defined.
End AdviceFacts.
